(** * ScriptureScholar: the persistence facade, the guest trial tracker,
      the admin aggregation scan and the AI client's response cleaning

    A shallow embedding of [App.tsx] ([AdminService], [StudyService],
    [GuestTrialService], [handleAnalyze]), of [gemini.ts] ([generateStudy])
    and of the shapes of [types.ts].

    Conventions of the embedding.
    - A JS [number] holding an integer is a [Z]; [Date.now()] is an [N].
    - A JS string is held as the bytes of its UTF-8 encoding.  The
      characters the program looks for (the backtick, the newline, the
      prefix of local ids) are below 128 and occur in the encoding
      exactly where they occur in the string; the white space of [trim]
      is recognised by its encoding.
    - [localStorage] is a record with one field per key the program uses;
      the study list under ['ss_studies'] is kept as the list that
      [JSON.parse] returns for it ([JSON.stringify] followed by [JSON.parse]
      is taken to be the identity on study lists, and only the program
      writes the key).
    - Firestore is a list of user profile documents and, per user id, the
      list of documents of the [history] sub-collection.  What the
      environment decides for one call (the clock, the auto-generated
      document id, the server timestamp, which requests are rejected) is
      an explicit argument [Env] of the call.
    - An [async] function that may reject returns a [Result] next to the
      state it leaves behind. *)

From Stdlib Require Import Ascii String ZArith Lia.
From stdpp Require Import base tactics option list sorting strings pretty gmap.

Local Open Scope string_scope.
Local Open Scope list_scope.

(** ** Results of calls that may throw *)

Inductive Request :=
  | AddDoc (uid : string)
  | GetUsers
  | GetHistory (uid : string)
  | GetDoc (uid docId : string)
  | UpdateDoc (uid docId : string)
  | DeleteDoc (uid docId : string).

Inductive Error :=
  | FirestoreError (r : Request)
  | NotFound (uid docId : string)
  | TransportError
  | JsError (message : string).

Inductive Result (A : Type) :=
  | Ok (a : A)
  | Throw (e : Error).
Arguments Ok {A} a.
Arguments Throw {A} e.

(** ** types.ts *)

Inductive Language := Greek | Hebrew | Aramaic.

Record StudyContext := {
  author : string;
  audience : string;
  setting : string;
  purpose : string
}.

Record LanguageInsight := {
  term : string;
  language : Language;
  transliteration : string;
  strongs : option string;
  meaning : string;
  whyItMatters : string
}.

Record CrossReference := {
  cr_reference : string;
  connection : string
}.

Module Analysis.
Record StudyAnalysis := {
  reference : string;
  translation : string;
  scriptureText : string;
  summary : string;
  context : StudyContext;
  keyThemes : list string;
  languageInsights : list LanguageInsight;
  crossReferences : list CrossReference;
  keyLessons : list string;
  application : list string;
  prayer : option string
}.
End Analysis.
Export Analysis(StudyAnalysis).

Record SavedStudy := {
  id : option string;
  userId : string;
  reference : string;
  translation : string;
  createdAt : Z;
  modelMetadata : string * string;
  analysis : StudyAnalysis;
  userNotes : string;
  tags : list string
}.

(** [Partial<SavedStudy>]: the keys that are present. *)
Record PartialStudy := {
  p_id : option string;
  p_userId : option string;
  p_reference : option string;
  p_translation : option string;
  p_createdAt : option Z;
  p_modelMetadata : option (string * string);
  p_analysis : option StudyAnalysis;
  p_userNotes : option string;
  p_tags : option (list string)
}.

(** [{ ...s, ...data }] *)
Definition spread (s : SavedStudy) (data : PartialStudy) : SavedStudy :=
  {| id := match p_id data with Some i => Some i | None => id s end;
     userId := default (userId s) (p_userId data);
     reference := default (reference s) (p_reference data);
     translation := default (translation s) (p_translation data);
     createdAt := default (createdAt s) (p_createdAt data);
     modelMetadata := default (modelMetadata s) (p_modelMetadata data);
     analysis := default (analysis s) (p_analysis data);
     userNotes := default (userNotes s) (p_userNotes data);
     tags := default (tags s) (p_tags data) |}.

(** [{ ...s, id }] *)
Definition withId (s : SavedStudy) (i : string) : SavedStudy :=
  {| id := Some i;
     userId := userId s;
     reference := reference s;
     translation := translation s;
     createdAt := createdAt s;
     modelMetadata := modelMetadata s;
     analysis := analysis s;
     userNotes := userNotes s;
     tags := tags s |}.

(** ** Array helpers of the JS runtime *)

Section JsArray.
Context {A : Type}.

(** [Array.prototype.sort(cmp)] is stable; with a consistent comparator
    it is the stable insertion of every element: [x] goes before the
    first [y] with [cmp x y <= 0]. *)
Fixpoint insertBefore (cmp : A → A → Z) (x : A) (l : list A) : list A :=
  match l with
  | [] => [x]
  | y :: l' =>
      if (cmp x y <=? 0)%Z then x :: y :: l' else y :: insertBefore cmp x l'
  end.

Definition js_sort (cmp : A → A → Z) (l : list A) : list A :=
  foldr (insertBefore cmp) [] l.

(** A relative index of [slice]: negative counts from the end, and the
    result is clamped to the array. *)
Definition js_index (len i : Z) : Z :=
  if (i <? 0)%Z then Z.max (len + i) 0 else Z.min i len.

(** [l.slice(start, end)] *)
Definition js_slice (l : list A) (first last : Z) : list A :=
  let len := Z.of_nat (length l) in
  let k := js_index len first in
  let final := js_index len last in
  take (Z.to_nat (final - k)) (drop (Z.to_nat k) l).

(** [l.slice(start)] *)
Definition js_slice_from (l : list A) (first : Z) : list A :=
  js_slice l first (Z.of_nat (length l)).
End JsArray.

(** [(a, b) => b.createdAt - a.createdAt] *)
Definition byCreatedAtDesc (a b : SavedStudy) : Z :=
  (createdAt b - createdAt a)%Z.

(** ** The browser's localStorage *)

Record LocalStorage := {
  ss_studies : option (list SavedStudy);
  ss_guest_trial_used : option string;
  ss_guest_trial_study_id : option string
}.

(** [JSON.parse(localStorage.getItem('ss_studies') || '[]')] *)
Definition readStudies (ls : LocalStorage) : list SavedStudy :=
  default [] (ss_studies ls).

(** [localStorage.setItem('ss_studies', JSON.stringify(l))] *)
Definition writeStudies (l : list SavedStudy) (ls : LocalStorage) : LocalStorage :=
  {| ss_studies := Some l;
     ss_guest_trial_used := ss_guest_trial_used ls;
     ss_guest_trial_study_id := ss_guest_trial_study_id ls |}.

(** ** Firestore *)

Record Timestamp := {
  seconds : Z;
  nanoseconds : Z
}.

(** The [createdAt] field of a stored document: the server timestamp that
    [save] asks for, or a number when [update] overwrote it. *)
Inductive FieldTime :=
  | ServerTime (t : Timestamp)
  | ClientNumber (z : Z).

(** A document of [users/{uid}/history]: its id, the fields of the study
    as written ([doc_fields]; its [createdAt] is not stored) and the
    stored [createdAt]. *)
Record HistoryDoc := {
  doc_id : string;
  doc_fields : SavedStudy;
  doc_createdAt : FieldTime
}.

Record UserDoc := {
  user_id : string;
  email : option string;
  displayName : option string
}.

Record Firestore := {
  users : list UserDoc;
  history : gmap string (list HistoryDoc)
}.

Definition collection (fs : Firestore) (uid : string) : list HistoryDoc :=
  default [] (history fs !! uid).

Definition setCollection (uid : string) (docs : list HistoryDoc)
    (fs : Firestore) : Firestore :=
  {| users := users fs; history := <[uid := docs]> (history fs) |}.

(** Firestore orders values of different types by type first: numbers
    come before timestamps.  Timestamps compare by seconds, then
    nanoseconds. *)
Definition timeRank (t : FieldTime) : Z * Z * Z :=
  match t with
  | ClientNumber z => (0, z, 0)%Z
  | ServerTime t => (1, seconds t, nanoseconds t)%Z
  end.

Definition compareZ (a b : Z) : Z :=
  match (a ?= b)%Z with Lt => (-1)%Z | Eq => 0%Z | Gt => 1%Z end.

Definition compareRank (a b : Z * Z * Z) : Z :=
  let '(a1, a2, a3) := a in
  let '(b1, b2, b3) := b in
  if (compareZ a1 b1 =? 0)%Z
  then if (compareZ a2 b2 =? 0)%Z then compareZ a3 b3 else compareZ a2 b2
  else compareZ a1 b1.

(** [orderBy('createdAt', 'desc')].  Among documents with equal
    [createdAt] the model keeps the order of the collection; the
    statements below compare listings made by this same rule and do not
    depend on how ties are broken. *)
Definition byDocTimeDesc (a b : HistoryDoc) : Z :=
  compareRank (timeRank (doc_createdAt b)) (timeRank (doc_createdAt a)).

Definition orderByCreatedAtDesc (docs : list HistoryDoc) : list HistoryDoc :=
  js_sort byDocTimeDesc docs.

(** [data.createdAt?.seconds ? data.createdAt.seconds * 1000 : data.createdAt].
    For a timestamp whose [seconds] is 0 the JS expression yields the
    timestamp object itself; the model covers the timestamps a server
    assigns, whose seconds are not 0. *)
Definition millis (t : FieldTime) : Z :=
  match t with
  | ServerTime t => (seconds t * 1000)%Z
  | ClientNumber z => z
  end.

(** [{ id: doc.id, ...data, createdAt: ... }]: an [id] field stored in the
    document wins over the document id. *)
Definition fromDoc (d : HistoryDoc) : SavedStudy :=
  let data := doc_fields d in
  {| id := match id data with Some i => Some i | None => Some (doc_id d) end;
     userId := userId data;
     reference := reference data;
     translation := translation data;
     createdAt := millis (doc_createdAt d);
     modelMetadata := modelMetadata data;
     analysis := analysis data;
     userNotes := userNotes data;
     tags := tags data |}.

(** What the environment contributes to one call. *)
Record Env := {
  now : N;
  autoId : string;
  serverTimestamp : Timestamp;
  fails : Request → bool
}.

Record World := {
  localStorage : LocalStorage;
  db : Firestore;
  aiCalls : list (string * string)
}.

Definition setLocal (ls : LocalStorage) (w : World) : World :=
  {| localStorage := ls; db := db w; aiCalls := aiCalls w |}.

Definition setDb (fs : Firestore) (w : World) : World :=
  {| localStorage := localStorage w; db := fs; aiCalls := aiCalls w |}.

(** ** The Firestore SDK calls the program makes

    A rejected request leaves the store as it is. *)

(** [addDoc(collection(db, `users/${uid}/history`), { ...study, createdAt: serverTimestamp() })] *)
Definition addDoc (env : Env) (uid : string) (study : SavedStudy)
    (fs : Firestore) : Result string * Firestore :=
  if fails env (AddDoc uid) then (Throw (FirestoreError (AddDoc uid)), fs)
  else
    let d := {| doc_id := autoId env;
                doc_fields := study;
                doc_createdAt := ServerTime (serverTimestamp env) |} in
    (Ok (autoId env), setCollection uid (collection fs uid ++ [d]) fs).

(** [getDocs(collection(db, 'users'))] *)
Definition getUsers (env : Env) (fs : Firestore) : Result (list UserDoc) :=
  if fails env GetUsers then Throw (FirestoreError GetUsers)
  else Ok (users fs).

(** [getDocs(query(collection(db, `users/${uid}/history`), orderBy('createdAt', 'desc')))] *)
Definition getHistory (env : Env) (uid : string) (fs : Firestore)
    : Result (list HistoryDoc) :=
  if fails env (GetHistory uid) then Throw (FirestoreError (GetHistory uid))
  else Ok (orderByCreatedAtDesc (collection fs uid)).

(** [getDoc(doc(db, `users/${uid}/history/${i}`))]; [None] when
    [docSnap.exists()] is false. *)
Definition getDoc (env : Env) (uid i : string) (fs : Firestore)
    : Result (option HistoryDoc) :=
  if fails env (GetDoc uid i) then Throw (FirestoreError (GetDoc uid i))
  else Ok (snd <$> list_find (λ d, doc_id d = i) (collection fs uid)).

Definition patchDoc (d : HistoryDoc) (data : PartialStudy) : HistoryDoc :=
  {| doc_id := doc_id d;
     doc_fields := spread (doc_fields d) data;
     doc_createdAt := match p_createdAt data with
                      | Some z => ClientNumber z
                      | None => doc_createdAt d
                      end |}.

(** [updateDoc(doc(db, `users/${uid}/history/${i}`), data)] rejects when the
    document does not exist. *)
Definition updateDoc (env : Env) (uid i : string) (data : PartialStudy)
    (fs : Firestore) : Result unit * Firestore :=
  if fails env (UpdateDoc uid i) then (Throw (FirestoreError (UpdateDoc uid i)), fs)
  else
    match list_find (λ d, doc_id d = i) (collection fs uid) with
    | Some (k, d) =>
        (Ok tt, setCollection uid (<[k := patchDoc d data]> (collection fs uid)) fs)
    | None => (Throw (NotFound uid i), fs)
    end.

(** [deleteDoc(doc(db, `users/${uid}/history/${i}`))] succeeds whether or
    not the document exists. *)
Definition deleteDoc (env : Env) (uid i : string) (fs : Firestore)
    : Result unit * Firestore :=
  if fails env (DeleteDoc uid i) then (Throw (FirestoreError (DeleteDoc uid i)), fs)
  else (Ok tt, setCollection uid (filter (λ d, doc_id d ≠ i) (collection fs uid)) fs).

(** [await Promise.all(toDelete.map(docSnap => deleteDoc(...)))]: every
    delete is issued; the first rejection, if any, is the result. *)
Fixpoint deleteEach (env : Env) (uid : string) (toDelete : list HistoryDoc)
    (fs : Firestore) : Result unit * Firestore :=
  match toDelete with
  | [] => (Ok tt, fs)
  | d :: rest =>
      let '(r, fs1) := deleteDoc env uid (doc_id d) fs in
      let '(r', fs2) := deleteEach env uid rest fs1 in
      (match r with Ok _ => r' | Throw e => Throw e end, fs2)
  end.

(** ** StudyService *)

Module StudyService.
Section Configured.
(** [isFirebaseConfigured && db]: firebase.ts makes [db] non-null exactly
    when [isFirebaseConfigured] holds. *)
Variable isFirebaseConfigured : bool.

(** [isFirebaseConfigured && db && userId !== 'guest'] *)
Definition remoteUsable (userId : string) : bool :=
  isFirebaseConfigured && negb (String.eqb userId "guest").

(** [isFirebaseConfigured && db && !id.startsWith('local-') && userId !== 'guest'] *)
Definition routesRemote (userId i : string) : bool :=
  isFirebaseConfigured && negb (String.prefix "local-" i)
    && negb (String.eqb userId "guest").

Definition save (env : Env) (userId : string) (study : SavedStudy)
    (w : World) : Result string * World :=
  if remoteUsable userId then
    let '(r, fs) := addDoc env userId study (db w) in
    (r, setDb fs w)
  else
    let localId := "local-" +:+ pretty (now env) in
    let localStudies := readStudies (localStorage w) in
    let newStudy := withId study localId in
    (Ok localId,
     setLocal (writeStudies (localStudies ++ [newStudy]) (localStorage w)) w).

Definition getAll (env : Env) (userId : string) (w : World) : list SavedStudy :=
  let localStudies := readStudies (localStorage w) in
  if remoteUsable userId then
    match getHistory env userId (db w) with
    | Ok docs => fromDoc <$> docs
    | Throw _ => localStudies
    end
  else localStudies.

Definition getById (env : Env) (userId i : string) (w : World)
    : option SavedStudy :=
  let localStudies := readStudies (localStorage w) in
  let found := snd <$> list_find (λ s, id s = Some i) localStudies in
  if routesRemote userId i then
    match getDoc env userId i (db w) with
    | Ok (Some d) => Some (fromDoc d)
    | Ok None => found
    | Throw _ => found
    end
  else found.

Definition update (env : Env) (userId i : string) (data : PartialStudy)
    (w : World) : Result unit * World :=
  if routesRemote userId i then
    let '(r, fs) := updateDoc env userId i data (db w) in
    (r, setDb fs w)
  else
    let localStudies := readStudies (localStorage w) in
    match list_find (λ s, id s = Some i) localStudies with
    | Some (index, s) =>
        (Ok tt,
         setLocal (writeStudies (<[index := spread s data]> localStudies)
                     (localStorage w)) w)
    | None => (Ok tt, w)
    end.

Definition remove (env : Env) (userId i : string) (w : World)
    : Result unit * World :=
  if routesRemote userId i then
    let '(r, fs) := deleteDoc env userId i (db w) in
    (r, setDb fs w)
  else
    let localStudies := readStudies (localStorage w) in
    let filtered := filter (λ s, id s ≠ Some i) localStudies in
    (Ok tt, setLocal (writeStudies filtered (localStorage w)) w).

Definition enforceLimit (env : Env) (userId : string) (limit : Z)
    (w : World) : Result unit * World :=
  if remoteUsable userId then
    match getHistory env userId (db w) with
    | Throw e => (Throw e, w)
    | Ok docs =>
        if (limit <? Z.of_nat (length docs))%Z then
          let toDelete := js_slice_from docs limit in
          let '(r, fs) := deleteEach env userId toDelete (db w) in
          (r, setDb fs w)
        else (Ok tt, w)
    end
  else
    let localStudies := readStudies (localStorage w) in
    if (limit <? Z.of_nat (length localStudies))%Z then
      let sorted := js_sort byCreatedAtDesc localStudies in
      (Ok tt,
       setLocal (writeStudies (js_slice sorted 0 limit) (localStorage w)) w)
    else (Ok tt, w).
End Configured.
End StudyService.

(** ** GuestTrialService *)

Module GuestTrialService.
Definition hasUsedTrial (ls : LocalStorage) : bool :=
  bool_decide (ss_guest_trial_used ls = Some "true").

Definition markTrialUsed (ls : LocalStorage) : LocalStorage :=
  {| ss_studies := ss_studies ls;
     ss_guest_trial_used := Some "true";
     ss_guest_trial_study_id := ss_guest_trial_study_id ls |}.

Definition getTrialStudyId (ls : LocalStorage) : option string :=
  ss_guest_trial_study_id ls.

Definition setTrialStudyId (i : string) (ls : LocalStorage) : LocalStorage :=
  {| ss_studies := ss_studies ls;
     ss_guest_trial_used := ss_guest_trial_used ls;
     ss_guest_trial_study_id := Some i |}.
End GuestTrialService.

(** The calls a client of the tracker can make, and a run of them. *)
Inductive TrackerCall :=
  | HasUsedTrial
  | MarkTrialUsed
  | GetTrialStudyId
  | SetTrialStudyId (i : string).

Definition trackerStep (ls : LocalStorage) (c : TrackerCall) : LocalStorage :=
  match c with
  | HasUsedTrial => ls
  | MarkTrialUsed => GuestTrialService.markTrialUsed ls
  | GetTrialStudyId => ls
  | SetTrialStudyId i => GuestTrialService.setTrialStudyId i ls
  end.

Definition trackerRun (calls : list TrackerCall) (ls : LocalStorage) : LocalStorage :=
  foldl trackerStep ls calls.

(** [a || d] on an optional string: the empty string is falsy too. *)
Definition orElse (a : option string) (d : string) : string :=
  match a with
  | Some "" => d
  | Some s => s
  | None => d
  end.

(** ** AdminService *)

Record AdminStudy := {
  study : SavedStudy;
  userEmail : string;
  userName : string
}.

Module AdminService.
Section Configured.
Variable isFirebaseConfigured : bool.

(** The object pushed for one [studyDoc] of [userDoc]:
    [{ id: studyDoc.id, ...data, userId: userDoc.id, createdAt: ... }]. *)
Definition adminStudy (userDoc : UserDoc) (studyDoc : HistoryDoc) : AdminStudy :=
  let s := fromDoc studyDoc in
  {| study := {| id := id s;
                 userId := user_id userDoc;
                 reference := reference s;
                 translation := translation s;
                 createdAt := createdAt s;
                 modelMetadata := modelMetadata s;
                 analysis := analysis s;
                 userNotes := userNotes s;
                 tags := tags s |};
     userEmail := orElse (email userDoc) "Unknown";
     userName := orElse (displayName userDoc) "Anonymous" |}.

(** The body of [for (const userDoc of usersSnapshot.docs)]: the first
    rejected sub-query leaves the loop (and the [try] block). *)
Fixpoint scanUsers (env : Env) (fs : Firestore) (docs : list UserDoc)
    (allStudies : list AdminStudy) : Result (list AdminStudy) :=
  match docs with
  | [] => Ok allStudies
  | userDoc :: rest =>
      match getHistory env (user_id userDoc) fs with
      | Throw e => Throw e
      | Ok historySnapshot =>
          scanUsers env fs rest
            (allStudies ++ (adminStudy userDoc <$> historySnapshot))
      end
  end.

(** [(a, b) => b.study.createdAt - a.study.createdAt] *)
Definition byStudyCreatedAtDesc (a b : AdminStudy) : Z :=
  (createdAt (study b) - createdAt (study a))%Z.

(** The [try] block. *)
Definition scan (env : Env) (fs : Firestore) : Result (list AdminStudy) :=
  match getUsers env fs with
  | Throw e => Throw e
  | Ok usersSnapshot =>
      match scanUsers env fs usersSnapshot [] with
      | Throw e => Throw e
      | Ok allStudies => Ok (js_sort byStudyCreatedAtDesc allStudies)
      end
  end.

Definition getAllStudies (env : Env) (fs : Firestore) : list AdminStudy :=
  if negb isFirebaseConfigured then []
  else
    match scan env fs with
    | Ok allStudies => allStudies
    | Throw _ => []
    end.
End Configured.
End AdminService.

(** ** gemini.ts *)

Module Gemini.
Definition newline : ascii := "010"%char.

(** A string of the program is held as the bytes of its UTF-8 encoding.
    [String.prototype.trim] removes the WhiteSpace and LineTerminator
    characters of ECMAScript, which take one, two or three bytes.
    Those of one byte: TAB, LF, VT, FF, CR and the space. *)
Definition isWhiteSpace1 (c : ascii) : bool :=
  (Ascii.eqb c "009" || Ascii.eqb c "010" || Ascii.eqb c "011"
   || Ascii.eqb c "012" || Ascii.eqb c "013" || Ascii.eqb c " ")%char.

(** The one encoded in two bytes: U+00A0, the no-break space (C2 A0). *)
Definition isWhiteSpace2 (c1 c2 : ascii) : bool :=
  (Ascii.eqb c1 "194" && Ascii.eqb c2 "160")%char.

(** Those encoded in three bytes: U+1680 (E1 9A 80), U+2000 to U+200A
    (E2 80 80 to E2 80 8A), U+2028 and U+2029 (E2 80 A8, E2 80 A9),
    U+202F (E2 80 AF), U+205F (E2 81 9F), U+3000 (E3 80 80) and U+FEFF
    (EF BB BF). *)
Definition isWhiteSpace3 (c1 c2 c3 : ascii) : bool :=
  (Ascii.eqb c1 "225" && Ascii.eqb c2 "154" && Ascii.eqb c3 "128"
   || Ascii.eqb c1 "226" && Ascii.eqb c2 "128"
      && ((128 <=? N_of_ascii c3)%N && (N_of_ascii c3 <=? 138)%N
          || Ascii.eqb c3 "168" || Ascii.eqb c3 "169" || Ascii.eqb c3 "175")
   || Ascii.eqb c1 "226" && Ascii.eqb c2 "129" && Ascii.eqb c3 "159"
   || Ascii.eqb c1 "227" && Ascii.eqb c2 "128" && Ascii.eqb c3 "128"
   || Ascii.eqb c1 "239" && Ascii.eqb c2 "187" && Ascii.eqb c3 "191")%char.

(** The text after the white-space character a text starts with, if it
    starts with one. *)
Definition afterWhiteSpace (s : string) : option string :=
  match s with
  | "" => None
  | String c1 s1 =>
      if isWhiteSpace1 c1 then Some s1 else
      match s1 with
      | "" => None
      | String c2 s2 =>
          if isWhiteSpace2 c1 c2 then Some s2 else
          match s2 with
          | "" => None
          | String c3 s3 => if isWhiteSpace3 c1 c2 c3 then Some s3 else None
          end
      end
  end.

Fixpoint trimStart (s : string) : string :=
  match s with
  | "" => ""
  | String c1 s1 =>
      if isWhiteSpace1 c1 then trimStart s1 else
      match s1 with
      | "" => s
      | String c2 s2 =>
          if isWhiteSpace2 c1 c2 then trimStart s2 else
          match s2 with
          | "" => s
          | String c3 s3 => if isWhiteSpace3 c1 c2 c3 then trimStart s3 else s
          end
      end
  end.

(** A text of white space only. *)
Definition isBlank (s : string) : bool := String.eqb (trimStart s) "".

(** The text up to the white space it ends with: the bytes before the
    first position from which only white space follows. *)
Fixpoint trimEnd (s : string) : string :=
  match s with
  | "" => ""
  | String c s' => if isBlank s then "" else String c (trimEnd s')
  end.

Definition trim (s : string) : string := trimStart (trimEnd s).

(** [s.replace(/FENCE\n?/g, '')] for a literal [fence]: scanning from the
    left, every occurrence of [fence] is dropped, together with one
    newline when it follows directly.  [Some k]: inside an occurrence,
    [k] of its characters are still to be dropped; [None]: scanning. *)
Fixpoint dropFence (fence : string) (st : option nat) (s : string) : string :=
  match s with
  | "" => ""
  | String c s' =>
      let scanHere :=
        if String.prefix fence s
        then dropFence fence (Some (String.length fence - 1)) s'
        else String c (dropFence fence None s') in
      match st with
      | Some (S k) => dropFence fence (Some k) s'
      | Some 0 => if Ascii.eqb c newline then dropFence fence None s' else scanHere
      | None => scanHere
      end
  end.

(** [text.replace(/```json\n?/g, '').replace(/```\n?/g, '').trim()] *)
Definition cleanText (text : string) : string :=
  trim (dropFence "```" None (dropFence "```json" None text)).

(** A response wrapped in a fenced block tagged [json]. *)
Definition fenced (x : string) : string :=
  "```json" +:+ String newline (x +:+ String newline "```").

Section Client.
(** [JSON.parse(...) as StudyAnalysis]; [None] when it throws. *)
Variable JSON_parse : string → option StudyAnalysis.
(** [ai.models.generateContent] for a reference and a translation:
    [response.text], or a rejection. *)
Variable generateContent : string → string → Result (option string).

Definition parseFailure : Error :=
  JsError "Could not parse study analysis. Please try again.".

(** The [try] block and its [catch]. *)
Definition parseResponse (responseText : option string) : Result StudyAnalysis :=
  let text := orElse responseText "{}" in
  match JSON_parse (cleanText text) with
  | Some a => Ok a
  | None => Throw parseFailure
  end.

Definition generateStudy (reference translation : string) (w : World)
    : Result StudyAnalysis * World :=
  let w' := {| localStorage := localStorage w;
               db := db w;
               aiCalls := aiCalls w ++ [(reference, translation)] |} in
  match generateContent reference translation with
  | Throw e => (Throw e, w')
  | Ok responseText => (parseResponse responseText, w')
  end.
End Client.
End Gemini.

(** ** The Landing component *)

Record LandingState := {
  loading : bool;
  error : string;
  step : nat;
  showSignInModal : bool;
  navigatedTo : option string
}.

Module Landing.
Section Component.
Variable isFirebaseConfigured : bool.
Variable JSON_parse : string → option StudyAnalysis.
Variable generateContent : string → string → Result (option string).

Definition generationFailed : string :=
  "Study generation failed. Please ensure the reference is valid (e.g., 'Isaiah 53').".

(** The [catch] and [finally] of [handleAnalyze]. *)
Definition failed (ui : LandingState) : LandingState :=
  {| loading := false;
     error := generationFailed;
     step := step ui;
     showSignInModal := showSignInModal ui;
     navigatedTo := navigatedTo ui |}.

(** [user] is the uid of the signed-in user, if any.  [envNow] gives the
    [Date.now()] of [createdAt]; [envSave] and [envLimit] are the
    environments of the two [StudyService] calls.  The progress
    animation ([setInterval]) is left out. *)
Definition handleAnalyze (user : option string) (reference translation : string)
    (envNow envSave envLimit : Env) (ui : LandingState) (w : World)
    : LandingState * World :=
  if String.eqb (Gemini.trim reference) "" then (ui, w)
  else if bool_decide (user = None)
            && GuestTrialService.hasUsedTrial (localStorage w) then
    ({| loading := loading ui;
        error := error ui;
        step := step ui;
        showSignInModal := true;
        navigatedTo := navigatedTo ui |}, w)
  else
    let ui1 := {| loading := true;
                  error := "";
                  step := 0;
                  showSignInModal := showSignInModal ui;
                  navigatedTo := navigatedTo ui |} in
    match Gemini.generateStudy JSON_parse generateContent reference translation w with
    | (Throw _, w1) => (failed ui1, w1)
    | (Ok analysis, w1) =>
        let uid := orElse user "guest" in
        let studyData :=
          {| id := None;
             userId := uid;
             reference := Analysis.reference analysis;
             translation := Analysis.translation analysis;
             createdAt := Z.of_N (now envNow);
             modelMetadata := ("Gemini", "2.0 Flash");
             analysis := analysis;
             userNotes := "";
             tags := [] |} in
        match StudyService.save isFirebaseConfigured envSave uid studyData w1 with
        | (Throw _, w2) => (failed ui1, w2)
        | (Ok i, w2) =>
            let w3 :=
              match user with
              | None =>
                  setLocal (GuestTrialService.setTrialStudyId i
                              (GuestTrialService.markTrialUsed (localStorage w2))) w2
              | Some _ => w2
              end in
            let '(r, w4) :=
              match user with
              | Some _ => StudyService.enforceLimit isFirebaseConfigured envLimit uid 10 w3
              | None => (Ok tt, w3)
              end in
            match r with
            | Throw _ => (failed ui1, w4)
            | Ok _ =>
                ({| loading := false;
                    error := error ui1;
                    step := step ui1;
                    showSignInModal := showSignInModal ui1;
                    navigatedTo := Some ("/study/" +:+ i) |}, w4)
            end
        end
    end.
End Component.
End Landing.

(** ** Properties the statements below are phrased with *)

(** No request of the call is rejected. *)
Definition calm (env : Env) : Prop := ∀ r, fails env r = false.

(** Every id of a locally stored study carries the local-id prefix, as
    every id [save] mints does. *)
Definition localIdsTagged (ls : LocalStorage) : Prop :=
  Forall (λ s, ∀ j, id s = Some j → String.prefix "local-" j = true)
    (readStudies ls).

(** The studies stored for an identity in the backend its calls use. *)
Definition storedCount (isFirebaseConfigured : bool) (userId : string)
    (w : World) : nat :=
  if StudyService.remoteUsable isFirebaseConfigured userId
  then length (collection (db w) userId)
  else length (readStudies (localStorage w)).

(** [kept] are the [n] most recent of the studies [all], by creation
    time: [kept] holds [n] of them, or all when there are fewer; the
    others are the rest of [all]; and no study of the rest was created
    after a kept one. *)
Definition mostRecentOf (n : nat) (all kept : list SavedStudy) : Prop :=
  length kept = n `min` length all
  ∧ ∃ rest, all ≡ₚ kept ++ rest
            ∧ ∀ k r, k ∈ kept → r ∈ rest → (createdAt r <= createdAt k)%Z.

(** Newest first: along the list [createdAt] never increases. *)
Definition newestFirst (l : list SavedStudy) : Prop :=
  StronglySorted (λ a b, (createdAt b <= createdAt a)%Z) l.

(** ** Sample data *)

Module Sample.
Definition ctx : StudyContext :=
  {| author := "Isaiah"; audience := "Judah"; setting := "Jerusalem";
     purpose := "Comfort" |}.

Definition analysisOf (ref : string) : StudyAnalysis :=
  {| Analysis.reference := ref;
     Analysis.translation := "ESV";
     Analysis.scriptureText := "";
     Analysis.summary := "A servant song";
     Analysis.context := ctx;
     Analysis.keyThemes := ["suffering"; "atonement"];
     Analysis.languageInsights :=
       [ {| term := "ebed"; language := Hebrew; transliteration := "eved";
            strongs := Some "H5650"; meaning := "servant";
            whyItMatters := "names the figure" |} ];
     Analysis.crossReferences :=
       [ {| cr_reference := "1 Peter 2:24"; connection := "quotation" |} ];
     Analysis.keyLessons := ["hope"];
     Analysis.application := ["trust"];
     Analysis.prayer := None |}.

Definition studyAt (ref : string) (t : Z) : SavedStudy :=
  {| id := None;
     userId := "guest";
     reference := ref;
     translation := "ESV";
     createdAt := t;
     modelMetadata := ("Gemini", "2.0 Flash");
     analysis := analysisOf ref;
     userNotes := "";
     tags := [] |}.

(** The study [studyAt ref t] as it is stored under the id [i]. *)
Definition stored (i ref : string) (t : Z) : SavedStudy :=
  {| id := Some i;
     userId := "guest";
     reference := ref;
     translation := "ESV";
     createdAt := t;
     modelMetadata := ("Gemini", "2.0 Flash");
     analysis := analysisOf ref;
     userNotes := "";
     tags := [] |}.

Definition emptyStorage : LocalStorage :=
  {| ss_studies := None;
     ss_guest_trial_used := None;
     ss_guest_trial_study_id := None |}.

Definition emptyDb : Firestore := {| users := []; history := ∅ |}.

Definition freshWorld : World :=
  {| localStorage := emptyStorage; db := emptyDb; aiCalls := [] |}.

(** A browser holding two local studies, the older one first. *)
Definition twoLocal : World :=
  {| localStorage :=
       {| ss_studies := Some [stored "local-100" "Isaiah 53" 100;
                              stored "local-200" "Psalm 23" 200];
          ss_guest_trial_used := Some "true";
          ss_guest_trial_study_id := Some "local-100" |};
     db := emptyDb;
     aiCalls := [] |}.

Definition docAt (i ref : string) (s : Z) : HistoryDoc :=
  {| doc_id := i;
     doc_fields := studyAt ref 0;
     doc_createdAt := ServerTime {| seconds := s; nanoseconds := 0 |} |}.

Definition alice : UserDoc :=
  {| user_id := "alice"; email := Some "alice@example.org";
     displayName := Some "Alice" |}.

Definition bob : UserDoc :=
  {| user_id := "bob"; email := None; displayName := Some "" |}.

(** Two users, each with stored studies. *)
Definition twoUsers : Firestore :=
  {| users := [alice; bob];
     history := {[ "alice" := [docAt "a1" "John 1" 1700000000;
                               docAt "a2" "John 2" 1700000500];
                   "bob" := [docAt "b1" "Mark 1" 1700000100] ]} |}.

Definition remoteWorld : World :=
  {| localStorage := emptyStorage; db := twoUsers; aiCalls := [] |}.

Definition env (t : N) (i : string) (s : Z) : Env :=
  {| now := t;
     autoId := i;
     serverTimestamp := {| seconds := s; nanoseconds := 0 |};
     fails := λ _, false |}.

(** The environment of a call in which bob's history query is rejected. *)
Definition bobDown : Env :=
  {| now := 300;
     autoId := "x1";
     serverTimestamp := {| seconds := 1700001000; nanoseconds := 0 |};
     fails := λ r, match r with
                   | GetHistory uid => String.eqb uid "bob"
                   | _ => false
                   end |}.

(** A parser that accepts the empty object only. *)
Definition parseEmptyObject (s : string) : option StudyAnalysis :=
  if String.eqb s "{}" then Some (analysisOf "") else None.

Definition answer (text : string) (reference translation : string)
    : Result (option string) :=
  Ok (Some text).

Definition idle : LandingState :=
  {| loading := false; error := ""; step := 0; showSignInModal := false;
     navigatedTo := None |}.
End Sample.

(** ** StudyService.clearAll *)

(** [getDocs(query(collection(db, `users/${uid}/history`)))]: the read of
    the history collection without an order. *)
Definition getHistoryUnordered (env : Env) (uid : string) (fs : Firestore)
    : Result (list HistoryDoc) :=
  if fails env (GetHistory uid) then Throw (FirestoreError (GetHistory uid))
  else Ok (collection fs uid).

Definition clearAll (isFirebaseConfigured : bool) (env : Env) (userId : string)
    (w : World) : Result unit * World :=
  if StudyService.remoteUsable isFirebaseConfigured userId then
    match getHistoryUnordered env userId (db w) with
    | Throw e => (Throw e, w)
    | Ok docs =>
        let '(r, fs) := deleteEach env userId docs (db w) in
        (r, setDb fs w)
    end
  else (Ok tt, setLocal (writeStudies [] (localStorage w)) w).

(** ** User profiles: syncUserProfile and AdminService.checkIsAdmin *)

(** The signed-in user of firebase/auth, with the fields the program reads. *)
Record User := {
  uid : string;
  user_email : option string;
  user_displayName : option string;
  user_photoURL : option string
}.

(** A document of the [users] collection with all the fields
    [syncUserProfile] writes; [None] is an absent (or null) field. *)
Record Profile := {
  profile_uid : option string;
  profile_email : option string;
  profile_displayName : option string;
  profile_photoURL : option string;
  profile_lastLogin : option Timestamp;
  profile_role : option string
}.

(** What the environment contributes to a call on the [users] collection. *)
Record ProfileEnv := {
  loginTime : Timestamp;
  setRejected : bool;
  getRejected : bool
}.

(** [setDoc(userRef, { uid, email, displayName, photoURL, lastLogin, role: 'user' }, { merge: true })]:
    every field the program knows is given, so the merge overwrites them
    all, the role included. *)
Definition syncUserProfile (isFirebaseConfigured : bool) (penv : ProfileEnv)
    (user : User) (profiles : gmap string Profile)
    : Result unit * gmap string Profile :=
  if negb isFirebaseConfigured then (Ok tt, profiles)
  else if setRejected penv then (Throw TransportError, profiles)
  else
    (Ok tt,
     <[uid user := {| profile_uid := Some (uid user);
                      profile_email := user_email user;
                      profile_displayName := user_displayName user;
                      profile_photoURL := user_photoURL user;
                      profile_lastLogin := Some (loginTime penv);
                      profile_role := Some "user" |}]> profiles).

(** [userDoc.exists() && userDoc.data()?.role === 'admin'], and [false]
    when the read is rejected or nothing is configured. *)
Definition checkIsAdmin (isFirebaseConfigured : bool) (penv : ProfileEnv)
    (userId : string) (profiles : gmap string Profile) : bool :=
  if negb isFirebaseConfigured then false
  else if getRejected penv then false
  else
    match profiles !! userId with
    | Some p => bool_decide (profile_role p = Some "admin")
    | None => false
    end.

(** ** The AdminDashboard component *)

Record Stats := {
  totalStudies : nat;
  totalUsers : nat;
  translations : gmap string nat
}.

Record AdminState := {
  admin_studies : list AdminStudy;
  admin_loading : bool;
  admin_isAdmin : bool;
  admin_stats : Stats;
  admin_navigatedTo : option string
}.

(** The names an object literal inherits from [Object.prototype].  For
    such a key [translationCounts[t] || 0] does not start from 0: the
    table [countTranslations] is the object of the program for the other
    keys only. *)
Definition inheritedName (t : string) : bool :=
  bool_decide (t ∈ ["constructor"; "__proto__"; "hasOwnProperty";
                    "isPrototypeOf"; "propertyIsEnumerable";
                    "toLocaleString"; "toString"; "valueOf";
                    "__defineGetter__"; "__defineSetter__";
                    "__lookupGetter__"; "__lookupSetter__"]).

(** [translationCounts[t] = (translationCounts[t] || 0) + 1] for every study. *)
Definition countTranslations (allStudies : list AdminStudy) : gmap string nat :=
  foldl (λ counts s,
           <[translation (study s) :=
               default 0 (counts !! translation (study s)) + 1]> counts)
        ∅ allStudies.

(** [new Set(allStudies.map(s => s.study.userId))] *)
Definition uniqueUsers (allStudies : list AdminStudy) : gset string :=
  list_to_set ((λ s, userId (study s)) <$> allStudies).

(** The effect [checkAndFetch]; [user] is the uid of the signed-in user. *)
Definition checkAndFetch (isFirebaseConfigured : bool) (penv : ProfileEnv)
    (env : Env) (user : option string) (profiles : gmap string Profile)
    (fs : Firestore) (st : AdminState) : AdminState :=
  match user with
  | None =>
      {| admin_studies := admin_studies st;
         admin_loading := admin_loading st;
         admin_isAdmin := admin_isAdmin st;
         admin_stats := admin_stats st;
         admin_navigatedTo := Some "/login" |}
  | Some userUid =>
      let adminStatus := checkIsAdmin isFirebaseConfigured penv userUid profiles in
      if negb adminStatus then
        {| admin_studies := admin_studies st;
           admin_loading := false;
           admin_isAdmin := adminStatus;
           admin_stats := admin_stats st;
           admin_navigatedTo := admin_navigatedTo st |}
      else
        let allStudies := AdminService.getAllStudies isFirebaseConfigured env fs in
        {| admin_studies := allStudies;
           admin_loading := false;
           admin_isAdmin := adminStatus;
           admin_stats := {| totalStudies := length allStudies;
                             totalUsers := size (uniqueUsers allStudies);
                             translations := countTranslations allStudies |};
           admin_navigatedTo := admin_navigatedTo st |}
  end.

(** The sum of the counts of a table. *)
Definition sumCounts (counts : gmap string nat) : nat :=
  map_fold (λ _ n total, n + total) 0 counts.

(** ** gemini.ts: chatWithPassage *)

Inductive Role := RoleUser | RoleModel.

(** A turn of the history handed to [ai.chats.create]: a role and its parts. *)
Definition Turn : Type := Role * list string.

Definition chatFallback : string :=
  "I couldn't generate a response. Please try again.".

(** [sendMessage] stands for [ai.chats.create] followed by
    [chat.sendMessage]: from the passage of the system instruction, the
    history and the message to [response.text], or a rejection. *)
Definition chatWithPassage
    (sendMessage : string → list Turn → string → Result (option string))
    (passage : string) (history : list Turn) (question : string)
    : Result string :=
  match sendMessage passage history
          ("Regarding " +:+ passage +:+ ": " +:+ question) with
  | Throw e => Throw e
  | Ok text => Ok (orElse text chatFallback)
  end.

(** ** The StudyDetail component *)

Record ChatMessage := {
  role : Role;
  text : string
}.

Record DetailState := {
  detail_study : option SavedStudy;
  detail_notes : string;
  detail_loading : bool;
  chatInput : string;
  chatHistory : list ChatMessage;
  chatLoading : bool;
  detail_navigatedTo : option string;
  detail_alerts : list string
}.

Definition scholarUnavailable : string :=
  "The Scholar is currently unavailable. Try again shortly.".

Module StudyDetail.
Section Component.
Variable isFirebaseConfigured : bool.
Variable sendMessage : string → list Turn → string → Result (option string).

(** The effect [fetch]; [routeId] is the [id] of the route, [user] the
    uid of the signed-in user. *)
Definition fetch (env : Env) (routeId user : option string)
    (st : DetailState) (w : World) : DetailState :=
  match routeId with
  | None | Some "" => st
  | Some i =>
      match StudyService.getById isFirebaseConfigured env (orElse user "guest") i w with
      | Some data =>
          {| detail_study := Some data;
             detail_notes := userNotes data;
             detail_loading := false;
             chatInput := chatInput st;
             chatHistory := chatHistory st;
             chatLoading := chatLoading st;
             detail_navigatedTo := detail_navigatedTo st;
             detail_alerts := detail_alerts st |}
      | None =>
          {| detail_study := detail_study st;
             detail_notes := detail_notes st;
             detail_loading := false;
             chatInput := chatInput st;
             chatHistory := chatHistory st;
             chatLoading := chatLoading st;
             detail_navigatedTo := Some "/history";
             detail_alerts := detail_alerts st |}
      end
  end.

(** [{ userNotes: notes }] *)
Definition notesOnly (notes : string) : PartialStudy :=
  {| p_id := None; p_userId := None; p_reference := None;
     p_translation := None; p_createdAt := None; p_modelMetadata := None;
     p_analysis := None; p_userNotes := Some notes; p_tags := None |}.

(** [saveNotes]: a rejected update is not caught, and then nothing is
    announced. *)
Definition saveNotes (env : Env) (routeId user : option string)
    (st : DetailState) (w : World) : Result unit * DetailState * World :=
  match routeId with
  | None | Some "" => (Ok tt, st, w)
  | Some i =>
      match StudyService.update isFirebaseConfigured env (orElse user "guest") i
              (notesOnly (detail_notes st)) w with
      | (Throw e, w') => (Throw e, st, w')
      | (Ok _, w') =>
          (Ok tt,
           {| detail_study := detail_study st;
              detail_notes := detail_notes st;
              detail_loading := detail_loading st;
              chatInput := chatInput st;
              chatHistory := chatHistory st;
              chatLoading := chatLoading st;
              detail_navigatedTo := detail_navigatedTo st;
              detail_alerts :=
                detail_alerts st ++ ["Reflections saved to your library."] |},
           w')
      end
  end.

(** The delete button, once confirmed: [remove], then back to the list. *)
Definition deleteStudy (env : Env) (routeId : string) (user : option string)
    (st : DetailState) (w : World) : Result unit * DetailState * World :=
  match StudyService.remove isFirebaseConfigured env (orElse user "guest") routeId w with
  | (Throw e, w') => (Throw e, st, w')
  | (Ok _, w') =>
      (Ok tt,
       {| detail_study := detail_study st;
          detail_notes := detail_notes st;
          detail_loading := detail_loading st;
          chatInput := chatInput st;
          chatHistory := chatHistory st;
          chatLoading := chatLoading st;
          detail_navigatedTo := Some "/history";
          detail_alerts := detail_alerts st |},
       w')
  end.

(** [chatHistory.map(h => ({ role: h.role, parts: [{ text: h.text }] }))] *)
Definition toTurns (history : list ChatMessage) : list Turn :=
  (λ h, (role h, [text h])) <$> history.

Definition handleChat (st : DetailState) : DetailState :=
  match detail_study st with
  | None => st
  | Some s =>
      if String.eqb (Gemini.trim (chatInput st)) "" || chatLoading st then st
      else
        let msg := chatInput st in
        let reply :=
          match chatWithPassage sendMessage (reference s)
                  (toTurns (chatHistory st)) msg with
          | Ok res => res
          | Throw _ => scholarUnavailable
          end in
        {| detail_study := detail_study st;
           detail_notes := detail_notes st;
           detail_loading := detail_loading st;
           chatInput := "";
           chatHistory := chatHistory st
                            ++ [{| role := RoleUser; text := msg |}]
                            ++ [{| role := RoleModel; text := reply |}];
           chatLoading := false;
           detail_navigatedTo := detail_navigatedTo st;
           detail_alerts := detail_alerts st |}
  end.
End Component.
End StudyDetail.

(** ** The History component *)

Record HistoryState := {
  history_studies : list SavedStudy;
  history_loading : bool;
  history_clearing : bool;
  history_alerts : list string
}.

Module History.
Section Component.
Variable isFirebaseConfigured : bool.

Definition fetch (env : Env) (user : option string) (st : HistoryState)
    (w : World) : HistoryState :=
  {| history_studies :=
       StudyService.getAll isFirebaseConfigured env (orElse user "guest") w;
     history_loading := false;
     history_clearing := history_clearing st;
     history_alerts := history_alerts st |}.

(** [handleClearAll], once confirmed. *)
Definition handleClearAll (env : Env) (user : option string)
    (st : HistoryState) (w : World) : HistoryState * World :=
  match clearAll isFirebaseConfigured env (orElse user "guest") w with
  | (Ok _, w') =>
      ({| history_studies := [];
          history_loading := history_loading st;
          history_clearing := false;
          history_alerts := history_alerts st |}, w')
  | (Throw _, w') =>
      ({| history_studies := history_studies st;
          history_loading := history_loading st;
          history_clearing := false;
          history_alerts :=
            history_alerts st ++ ["Failed to clear history. Please try again."] |},
       w')
  end.
End Component.
End History.

(** ** Code fences in a text *)

(** The number of backticks a text begins with. *)
Fixpoint leadingTicks (s : string) : nat :=
  match s with
  | "" => 0
  | String c s' => if Ascii.eqb c "`" then S (leadingTicks s') else 0
  end.

(** Three backticks in a row occur somewhere in the text. *)
Fixpoint hasFence (s : string) : bool :=
  match s with
  | "" => false
  | String c s' => String.prefix "```" s || hasFence s'
  end.

(** ** More sample data *)

Module Scenario.
Definition adminProfile : Profile :=
  {| profile_uid := Some "alice";
     profile_email := Some "alice@example.org";
     profile_displayName := Some "Alice";
     profile_photoURL := None;
     profile_lastLogin := None;
     profile_role := Some "admin" |}.

Definition profiles : gmap string Profile := {[ "alice" := adminProfile ]}.

Definition aliceUser : User :=
  {| uid := "alice";
     user_email := Some "alice@example.org";
     user_displayName := Some "Alice";
     user_photoURL := None |}.

Definition quiet : ProfileEnv :=
  {| loginTime := {| seconds := 1700002000; nanoseconds := 0 |};
     setRejected := false;
     getRejected := false |}.

Definition adminIdle : AdminState :=
  {| admin_studies := [];
     admin_loading := true;
     admin_isAdmin := false;
     admin_stats := {| totalStudies := 0; totalUsers := 0; translations := ∅ |};
     admin_navigatedTo := None |}.

Definition detailIdle : DetailState :=
  {| detail_study := None;
     detail_notes := "";
     detail_loading := true;
     chatInput := "";
     chatHistory := [];
     chatLoading := false;
     detail_navigatedTo := None;
     detail_alerts := [] |}.

(** The detail page of a stored study, a question typed in. *)
Definition asking : DetailState :=
  {| detail_study := Some (Sample.stored "local-100" "Isaiah 53" 100);
     detail_notes := "";
     detail_loading := false;
     chatInput := "Who is the servant?";
     chatHistory := [];
     chatLoading := false;
     detail_navigatedTo := None;
     detail_alerts := [] |}.

(** A chat service that answers every question with the same text. *)
Definition echo (reply : option string) (passage : string)
    (history : list Turn) (message : string) : Result (option string) :=
  Ok reply.

(** A chat service that is down. *)
Definition down (passage : string) (history : list Turn) (message : string)
    : Result (option string) :=
  Throw TransportError.

(** The environment of a call in which the delete of document [a1] is
    rejected. *)
Definition a1Stuck : Env :=
  {| now := 400;
     autoId := "x9";
     serverTimestamp := {| seconds := 1700003000; nanoseconds := 0 |};
     fails := λ r, match r with
                   | DeleteDoc _ i => String.eqb i "a1"
                   | _ => false
                   end |}.

(** The environment of a call in which every request is rejected. *)
Definition offline : Env :=
  {| now := 500;
     autoId := "x8";
     serverTimestamp := {| seconds := 1700004000; nanoseconds := 0 |};
     fails := λ _, true |}.

Definition noAnswer (reference translation : string) : Result (option string) :=
  Throw TransportError.
End Scenario.

(** * Facts about the runtime helpers *)

Lemma Forall_filter_keep {A} (P Q : A → Prop) `{!∀ a, Decision (P a)} l :
  Forall Q l → Forall Q (filter P l).
Proof.
  rewrite !Forall_forall. intros HQ x Hx.
  apply list_elem_of_filter in Hx as [_ Hx]. by apply HQ.
Qed.

Section SortFacts.
Context {A : Type} (cmp : A → A → Z).

Local Abbreviation R := (λ a b : A, (cmp a b <= 0)%Z).

Lemma insertBefore_perm x l : insertBefore cmp x l ≡ₚ x :: l.
Proof.
  induction l as [|y l IH]; simpl; [done|].
  destruct (cmp x y <=? 0)%Z; [done|].
  rewrite IH. apply Permutation_swap.
Qed.

Lemma js_sort_perm l : js_sort cmp l ≡ₚ l.
Proof.
  induction l as [|x l IH]; simpl; [done|].
  by rewrite insertBefore_perm, IH.
Qed.

Lemma js_sort_length l : length (js_sort cmp l) = length l.
Proof. by rewrite js_sort_perm. Qed.

Lemma insertBefore_first x l :
  Forall (R x) l → insertBefore cmp x l = x :: l.
Proof.
  destruct l as [|y l]; simpl; [done|].
  intros Hx. apply Forall_cons in Hx as [Hy _].
  apply Z.leb_le in Hy. by rewrite Hy.
Qed.

(** The comparator is consistent: any two elements are ordered one way
    or the other, and the order is transitive. *)
Hypothesis cmp_total : ∀ a b, (0 < cmp a b)%Z → (cmp b a <= 0)%Z.
Hypothesis cmp_trans :
  ∀ a b c, (cmp a b <= 0)%Z → (cmp b c <= 0)%Z → (cmp a c <= 0)%Z.

Lemma insertBefore_sorted x l :
  StronglySorted R l → StronglySorted R (insertBefore cmp x l).
Proof.
  induction 1 as [|y l Hl IH Hy]; simpl.
  - repeat constructor.
  - destruct (Z.leb_spec (cmp x y) 0) as [Hxy|Hxy].
    + constructor; [by constructor|].
      constructor; [done|].
      eapply Forall_impl; [exact Hy|]. simpl. eauto.
    + constructor; [done|].
      rewrite insertBefore_perm. constructor; [|done].
      by apply cmp_total.
Qed.

Lemma js_sort_sorted l : StronglySorted R (js_sort cmp l).
Proof.
  induction l as [|x l IH]; simpl; [constructor|].
  by apply insertBefore_sorted.
Qed.

Lemma js_sort_id l : StronglySorted R l → js_sort cmp l = l.
Proof.
  induction 1 as [|x l Hl IH Hx]; simpl; [done|].
  rewrite IH. by apply insertBefore_first.
Qed.

Lemma js_sort_idemp l : js_sort cmp (js_sort cmp l) = js_sort cmp l.
Proof. apply js_sort_id, js_sort_sorted. Qed.

Lemma filter_insertBefore (P : A → Prop) `{!∀ a, Decision (P a)} x l :
  StronglySorted R l →
  filter P (insertBefore cmp x l)
  = if decide (P x) then insertBefore cmp x (filter P l) else filter P l.
Proof.
  induction 1 as [|y l Hl IH Hy]; simpl.
  - rewrite filter_cons, filter_nil. by destruct (decide (P x)).
  - destruct (Z.leb_spec (cmp x y) 0) as [Hxy|Hxy].
    + rewrite (filter_cons _ x). destruct (decide (P x)) as [Hx|Hx]; [|done].
      symmetry. apply insertBefore_first.
      apply (Forall_filter_keep P), Forall_cons. split; [done|].
      eapply Forall_impl; [exact Hy|]. simpl. eauto.
    + rewrite !(filter_cons _ y), IH.
      destruct (decide (P y)), (decide (P x)); simpl; try done.
      destruct (Z.leb_spec (cmp x y) 0); [lia|done].
Qed.

(** Filtering commutes with the stable sort. *)
Lemma js_sort_filter (P : A → Prop) `{!∀ a, Decision (P a)} l :
  js_sort cmp (filter P l) = filter P (js_sort cmp l).
Proof.
  induction l as [|x l IH]; simpl; [done|].
  rewrite filter_insertBefore by apply js_sort_sorted.
  rewrite filter_cons. destruct (decide (P x)); simpl; by rewrite IH.
Qed.
End SortFacts.

Section SliceFacts.
Context {A : Type}.

Lemma js_slice_prefix (l : list A) (n : Z) :
  (0 <= n)%Z → js_slice l 0 n = take (Z.to_nat n) l.
Proof.
  intros Hn. unfold js_slice, js_index.
  destruct (Z.ltb_spec 0 0); [lia|]. destruct (Z.ltb_spec n 0); [lia|].
  rewrite (Z.min_l 0) by lia. change (Z.to_nat 0) with 0%nat.
  rewrite drop_0, Z.sub_0_r.
  destruct (Z.min_spec n (Z.of_nat (length l))) as [[? ->]|[? ->]]; [done|].
  rewrite Nat2Z.id, !take_ge; [done|lia..].
Qed.

Lemma js_slice_from_suffix (l : list A) (n : Z) :
  (0 <= n)%Z → js_slice_from l n = drop (Z.to_nat n) l.
Proof.
  intros Hn. unfold js_slice_from, js_slice, js_index.
  destruct (Z.ltb_spec n 0); [lia|].
  destruct (Z.ltb_spec (Z.of_nat (length l)) 0); [lia|].
  rewrite Z.min_id.
  destruct (Z.min_spec n (Z.of_nat (length l))) as [[? ->]|[? ->]].
  - apply take_ge. rewrite length_drop. lia.
  - rewrite Nat2Z.id, !drop_ge by lia. apply take_nil.
Qed.
End SliceFacts.

(** * Firestore collections *)

Lemma collection_setCollection uid docs fs :
  collection (setCollection uid docs fs) uid = docs.
Proof. unfold collection, setCollection. simpl. by rewrite lookup_insert_eq. Qed.

Lemma collection_setCollection_ne uid uid' docs fs :
  uid ≠ uid' → collection (setCollection uid docs fs) uid' = collection fs uid'.
Proof.
  intros Hne. unfold collection, setCollection. simpl.
  by rewrite lookup_insert_ne.
Qed.

(** * StudyService on the local backend *)

Lemma readStudies_writeStudies l ls : readStudies (writeStudies l ls) = l.
Proof. reflexivity. Qed.

(** C10: in the local configuration [save] appends one record - the
    study with the freshly minted id [local-<Date.now()>] as its [id]
    and every other field as given - and leaves every stored record
    present, unchanged and at its position: the list grows by one, the
    record with the minted id is its last.  The remote store and the
    trial flags are not touched. *)
Theorem save_local_appends (cfg : bool) (env : Env) (uid : string)
    (s : SavedStudy) (w : World) :
  StudyService.remoteUsable cfg uid = false →
  let localId := "local-" +:+ pretty (now env) in
  let w' := snd (StudyService.save cfg env uid s w) in
  let newStudy := {| id := Some localId;
                     userId := userId s;
                     reference := reference s;
                     translation := translation s;
                     createdAt := createdAt s;
                     modelMetadata := modelMetadata s;
                     analysis := analysis s;
                     userNotes := userNotes s;
                     tags := tags s |} in
  fst (StudyService.save cfg env uid s w) = Ok localId
  ∧ readStudies (localStorage w')
    = readStudies (localStorage w) ++ [newStudy]
  ∧ length (readStudies (localStorage w'))
    = S (length (readStudies (localStorage w)))
  ∧ (∀ k old, readStudies (localStorage w) !! k = Some old →
              readStudies (localStorage w') !! k = Some old)
  ∧ readStudies (localStorage w') !! length (readStudies (localStorage w))
    = Some newStudy
  ∧ id <$> last (readStudies (localStorage w')) = Some (Some localId)
  ∧ db w' = db w
  ∧ ss_guest_trial_used (localStorage w') = ss_guest_trial_used (localStorage w)
  ∧ ss_guest_trial_study_id (localStorage w')
    = ss_guest_trial_study_id (localStorage w).
Proof.
  intros Hlocal. unfold StudyService.save. rewrite Hlocal.
  cbn [fst snd localStorage db setLocal]. rewrite readStudies_writeStudies.
  split_and!; try done.
  - rewrite length_app. simpl. lia.
  - intros k old Hk. by apply lookup_app_l_Some.
  - by rewrite list_lookup_middle.
  - by rewrite last_snoc.
Qed.

Lemma save_local_appends_witness :
  StudyService.remoteUsable false "guest" = false
  ∧ readStudies (localStorage (snd (StudyService.save false (Sample.env 300 "x1" 5)
                                      "guest" (Sample.studyAt "Genesis 1" 300)
                                      Sample.twoLocal)))
    = [Sample.stored "local-100" "Isaiah 53" 100;
       Sample.stored "local-200" "Psalm 23" 200;
       Sample.stored "local-300" "Genesis 1" 300]
  ∧ id <$> last (readStudies
                   (localStorage (snd (StudyService.save false
                                         (Sample.env 300 "x1" 5) "guest"
                                         (Sample.studyAt "Genesis 1" 300)
                                         Sample.twoLocal))))
    = Some (Some "local-300").
Proof.
  split; [reflexivity|].
  destruct (save_local_appends false (Sample.env 300 "x1" 5) "guest"
              (Sample.studyAt "Genesis 1" 300) Sample.twoLocal eq_refl)
    as (_ & Hlist & _ & _ & _ & Hlast & _).
  split; [exact Hlist|exact Hlast].
Defined.

(** C9: on the local backend, [update] with an id that no stored record
    carries completes without error and leaves the whole state, the stored
    list included, as it was. *)
Theorem update_local_missing_noop (cfg : bool) (env : Env) (uid i : string)
    (data : PartialStudy) (w : World) :
  StudyService.routesRemote cfg uid i = false →
  (∀ s, s ∈ readStudies (localStorage w) → id s ≠ Some i) →
  StudyService.update cfg env uid i data w = (Ok tt, w).
Proof.
  intros Hlocal Hmissing. unfold StudyService.update. rewrite Hlocal.
  assert (list_find (λ s, id s = Some i) (readStudies (localStorage w)) = None)
    as ->; [|done].
  apply list_find_None, Forall_forall. exact Hmissing.
Qed.

Lemma update_local_missing_noop_witness :
  StudyService.update false (Sample.env 300 "x1" 5) "guest" "local-999"
    {| p_id := None; p_userId := None; p_reference := None;
       p_translation := None; p_createdAt := None; p_modelMetadata := None;
       p_analysis := None; p_userNotes := Some "a note"; p_tags := None |}
    Sample.twoLocal
  = (Ok tt, Sample.twoLocal).
Proof.
  apply update_local_missing_noop; [reflexivity|].
  intros s Hs Hid. unfold Sample.twoLocal, readStudies in Hs. simpl in Hs.
  apply elem_of_cons in Hs as [->|Hs]; [discriminate Hid|].
  apply elem_of_cons in Hs as [->|Hs]; [discriminate Hid|].
  by apply elem_of_nil in Hs.
Defined.

Section FilterFacts.
Context {A : Type} (P Q : A → Prop) `{!∀ a, Decision (P a), !∀ a, Decision (Q a)}.

Lemma filter_keeps_all (l : list A) : Forall P l → filter P l = l.
Proof.
  induction 1 as [|x l Hx _ IH]; [done|].
  by rewrite filter_cons_True, IH.
Qed.

Lemma filter_drops_all (l : list A) : Forall (λ a, ¬ P a) l → filter P l = [].
Proof.
  induction 1 as [|x l Hx _ IH]; [done|].
  by rewrite filter_cons_False.
Qed.

Lemma filter_split_length (l : list A) :
  (∀ a, Q a ↔ ¬ P a) →
  length (filter P l) + length (filter Q l) = length l.
Proof.
  intros HPQ. induction l as [|x l IH]; [done|].
  rewrite !filter_cons.
  destruct (decide (P x)) as [HP|HP], (decide (Q x)) as [HQ|HQ]; simpl.
  - by apply HPQ in HQ.
  - lia.
  - lia.
  - by apply HPQ in HP.
Qed.
End FilterFacts.

(** The remote route filters the history collection, when the delete
    request is not rejected; a document that does not exist is deleted
    without error. *)
Lemma remove_remote_exactly_matching (cfg : bool) (env : Env)
    (uid i : string) (w : World) :
  StudyService.routesRemote cfg uid i = true →
  fails env (DeleteDoc uid i) = false →
  let w' := snd (StudyService.remove cfg env uid i w) in
  fst (StudyService.remove cfg env uid i w) = Ok tt
  ∧ collection (db w') uid = filter (λ d, doc_id d ≠ i) (collection (db w) uid)
  ∧ localStorage w' = localStorage w.
Proof.
  intros Hremote Hdelete. unfold StudyService.remove, deleteDoc.
  rewrite Hremote, Hdelete. simpl. split_and!; try done.
  unfold collection, setCollection. simpl. by rewrite lookup_insert_eq.
Qed.

Section ExactlyMatching.
Context {A : Type} (P : A → Prop) `{!∀ a, Decision (P a)}.

(** Filtering out the records with a property: the count drops by their
    number; the one record with it goes when there is exactly one, and
    nothing goes when there is none. *)
Lemma filter_out_exactly (l : list A) :
  length (filter (λ a, ¬ P a) l) + length (filter P l) = length l
  ∧ (∀ l1 a l2,
       l = l1 ++ a :: l2 → P a → Forall (λ x, ¬ P x) (l1 ++ l2) →
       filter (λ a, ¬ P a) l = l1 ++ l2
       ∧ S (length (filter (λ a, ¬ P a) l)) = length l)
  ∧ (Forall (λ x, ¬ P x) l → filter (λ a, ¬ P a) l = l).
Proof.
  split_and!.
  - apply filter_split_length. intros a. split; [tauto|].
    intros Ha. by destruct (decide (P a)).
  - intros l1 a l2 -> Ha Hrest.
    apply Forall_app in Hrest as [H1 H2].
    rewrite filter_app, filter_cons_False by tauto.
    rewrite !filter_keeps_all by done.
    split; [done|]. rewrite !length_app. simpl. lia.
  - apply filter_keeps_all.
Qed.
End ExactlyMatching.

(** C5, as amended: [remove] deletes the records whose id matches and no
    other, in the backend the call is routed to - the browser's list,
    or the user's history when the delete request is accepted.  The
    count drops by the number of matching records: by one, the removed
    record being the matching one, when exactly one record carries the
    id, and by nothing when none does; all other records stay, in
    order, and the other backend is not touched.  A rejected delete
    request is thrown and removes nothing. *)
Theorem remove_exactly_matching (cfg : bool) (env : Env)
    (uid i : string) (w : World) :
  let r := StudyService.remove cfg env uid i w in
  (StudyService.routesRemote cfg uid i = false →
   let l := readStudies (localStorage w) in
   let l' := readStudies (localStorage (snd r)) in
   fst r = Ok tt
   ∧ l' = filter (λ s, id s ≠ Some i) l
   ∧ length l' + length (filter (λ s, id s = Some i) l) = length l
   ∧ (∀ l1 s l2,
        l = l1 ++ s :: l2 → id s = Some i →
        Forall (λ x, id x ≠ Some i) (l1 ++ l2) →
        l' = l1 ++ l2 ∧ S (length l') = length l)
   ∧ (Forall (λ x, id x ≠ Some i) l → l' = l)
   ∧ db (snd r) = db w)
  ∧ (StudyService.routesRemote cfg uid i = true →
     fails env (DeleteDoc uid i) = false →
     let c := collection (db w) uid in
     let c' := collection (db (snd r)) uid in
     fst r = Ok tt
     ∧ c' = filter (λ d, doc_id d ≠ i) c
     ∧ length c' + length (filter (λ d, doc_id d = i) c) = length c
     ∧ (∀ c1 d c2,
          c = c1 ++ d :: c2 → doc_id d = i →
          Forall (λ x, doc_id x ≠ i) (c1 ++ c2) →
          c' = c1 ++ c2 ∧ S (length c') = length c)
     ∧ (Forall (λ x, doc_id x ≠ i) c → c' = c)
     ∧ (∀ other, other ≠ uid →
          collection (db (snd r)) other = collection (db w) other)
     ∧ users (db (snd r)) = users (db w)
     ∧ localStorage (snd r) = localStorage w)
  ∧ (StudyService.routesRemote cfg uid i = true →
     fails env (DeleteDoc uid i) = true →
     fst r = Throw (FirestoreError (DeleteDoc uid i))
     ∧ db (snd r) = db w
     ∧ localStorage (snd r) = localStorage w).
Proof.
  cbv zeta. split_and!.
  - intros Hlocal. unfold StudyService.remove. rewrite Hlocal.
    cbn [fst snd localStorage db setLocal]. rewrite readStudies_writeStudies.
    destruct (filter_out_exactly (λ s, id s = Some i)
                (readStudies (localStorage w))) as (Hcount & Hone & Hnone).
    by split_and!.
  - intros Hremote Hdelete.
    destruct (remove_remote_exactly_matching cfg env uid i w Hremote Hdelete)
      as (Hr & Hc & Hls).
    cbv zeta in Hc, Hls. rewrite Hc.
    destruct (filter_out_exactly (λ d, doc_id d = i) (collection (db w) uid))
      as (Hcount & Hone & Hnone).
    split_and!; try done.
    + intros other Hother. unfold StudyService.remove, deleteDoc.
      rewrite Hremote, Hdelete. cbn [snd db setDb].
      by apply collection_setCollection_ne.
    + unfold StudyService.remove, deleteDoc. by rewrite Hremote, Hdelete.
  - intros Hremote Hdelete. unfold StudyService.remove, deleteDoc.
    by rewrite Hremote, Hdelete.
Qed.

Lemma remove_exactly_matching_witness :
  readStudies (localStorage (snd (StudyService.remove false
      (Sample.env 300 "x1" 5) "guest" "local-100" Sample.twoLocal)))
  = [Sample.stored "local-200" "Psalm 23" 200]
  ∧ collection (db (snd (StudyService.remove true (Sample.env 300 "x1" 5)
                           "alice" "a1" Sample.remoteWorld))) "alice"
    = [Sample.docAt "a2" "John 2" 1700000500]
  ∧ collection (db (snd (StudyService.remove true (Sample.env 300 "x1" 5)
                           "alice" "zz" Sample.remoteWorld))) "alice"
    = [Sample.docAt "a1" "John 1" 1700000000;
       Sample.docAt "a2" "John 2" 1700000500].
Proof.
  split_and!.
  - destruct (proj1 (remove_exactly_matching false (Sample.env 300 "x1" 5)
                       "guest" "local-100" Sample.twoLocal) eq_refl)
      as (_ & _ & _ & Hone & _).
    apply (Hone [] (Sample.stored "local-100" "Isaiah 53" 100)
                [Sample.stored "local-200" "Psalm 23" 200]).
    + reflexivity.
    + reflexivity.
    + repeat constructor. discriminate.
  - destruct (proj1 (proj2 (remove_exactly_matching true
                              (Sample.env 300 "x1" 5) "alice" "a1"
                              Sample.remoteWorld)) eq_refl eq_refl)
      as (_ & _ & _ & Hone & _).
    apply (Hone [] (Sample.docAt "a1" "John 1" 1700000000)
                [Sample.docAt "a2" "John 2" 1700000500]).
    + reflexivity.
    + reflexivity.
    + repeat constructor. discriminate.
  - destruct (proj1 (proj2 (remove_exactly_matching true
                              (Sample.env 300 "x1" 5) "alice" "zz"
                              Sample.remoteWorld)) eq_refl eq_refl)
      as (_ & _ & _ & _ & Hnone & _).
    apply Hnone. repeat constructor; discriminate.
Defined.

(** C5 as stated fails: removing an id that no record carries leaves the
    count as it was. *)
Lemma remove_absent_id_keeps_count :
  let w := Sample.twoLocal in
  let w' := snd (StudyService.remove false (Sample.env 300 "x1" 5)
                   "guest" "local-999" w) in
  Z.of_nat (length (readStudies (localStorage w')))
  ≠ (Z.of_nat (length (readStudies (localStorage w))) - 1)%Z.
Proof. vm_compute. discriminate. Qed.

(** * GuestTrialService and the sign-in guard of [handleAnalyze] *)

Lemma trackerStep_keeps_flag ls c :
  GuestTrialService.hasUsedTrial ls = true →
  GuestTrialService.hasUsedTrial (trackerStep ls c) = true.
Proof. destruct c; simpl; try done. Qed.

Lemma trackerRun_keeps_flag calls ls :
  GuestTrialService.hasUsedTrial ls = true →
  GuestTrialService.hasUsedTrial (trackerRun calls ls) = true.
Proof.
  unfold trackerRun. revert ls.
  induction calls as [|c calls IH]; intros ls Hls; simpl; [done|].
  by apply IH, trackerStep_keeps_flag.
Qed.

(** StudyService writes the study list only: the trial flag survives its
    calls as well. *)
Lemma studyService_keeps_flag cfg env uid i s data cap w :
  let used w' := ss_guest_trial_used (localStorage w') in
  used (snd (StudyService.save cfg env uid s w)) = used w
  ∧ used (snd (StudyService.update cfg env uid i data w)) = used w
  ∧ used (snd (StudyService.remove cfg env uid i w)) = used w
  ∧ used (snd (StudyService.enforceLimit cfg env uid cap w)) = used w.
Proof.
  simpl. split_and!.
  - unfold StudyService.save, addDoc.
    destruct (StudyService.remoteUsable cfg uid); [|done].
    by destruct (fails env (AddDoc uid)).
  - unfold StudyService.update, updateDoc.
    destruct (StudyService.routesRemote cfg uid i).
    + destruct (fails env (UpdateDoc uid i)); [done|].
      by destruct (list_find _ _) as [[k d]|].
    + by destruct (list_find _ _) as [[k d]|].
  - unfold StudyService.remove, deleteDoc.
    destruct (StudyService.routesRemote cfg uid i); [|done].
    by destruct (fails env (DeleteDoc uid i)).
  - unfold StudyService.enforceLimit, getHistory.
    destruct (StudyService.remoteUsable cfg uid).
    + destruct (fails env (GetHistory uid)); [done|].
      destruct (_ <? _)%Z; [|done].
      by destruct (deleteEach env uid _ (db w)).
    + by destruct (_ <? _)%Z.
Qed.

(** Every invocation of [generateStudy] is recorded in the world. *)
Lemma generateStudy_recorded parse gen ref tr w :
  aiCalls (snd (Gemini.generateStudy parse gen ref tr w))
  = aiCalls w ++ [(ref, tr)].
Proof. unfold Gemini.generateStudy. by destruct (gen ref tr). Qed.

(** C7: once [markTrialUsed] has run, [hasUsedTrial] answers true after
    any further run of tracker calls; and [handleAnalyze] for a visitor
    who is not signed in and has used the trial returns before
    [generateStudy]: nothing is generated or stored, and the sign-in
    modal is shown (for a non-blank reference). *)
Theorem guest_trial_monotone_and_gated :
  (∀ calls ls,
     GuestTrialService.hasUsedTrial
       (trackerRun calls (GuestTrialService.markTrialUsed ls)) = true)
  ∧ (∀ cfg parse gen ref tr envNow envSave envLimit ui w,
       GuestTrialService.hasUsedTrial (localStorage w) = true →
       let r := Landing.handleAnalyze cfg parse gen None ref tr
                  envNow envSave envLimit ui w in
       snd r = w
       ∧ aiCalls (snd r) = aiCalls w
       ∧ navigatedTo (fst r) = navigatedTo ui
       ∧ (Gemini.trim ref ≠ "" → showSignInModal (fst r) = true)).
Proof.
  split.
  - intros calls ls. by apply trackerRun_keeps_flag.
  - intros cfg parse gen ref tr envNow envSave envLimit ui w Hused.
    unfold Landing.handleAnalyze. rewrite Hused.
    destruct (String.eqb_spec (Gemini.trim ref) "") as [Hblank|Hblank]; simpl.
    + by rewrite Hblank.
    + done.
Qed.

Lemma guest_trial_monotone_and_gated_witness :
  GuestTrialService.hasUsedTrial (localStorage Sample.twoLocal) = true
  ∧ snd (Landing.handleAnalyze false Sample.parseEmptyObject (Sample.answer "{}")
           None "Isaiah 53" "ESV" (Sample.env 300 "x1" 5) (Sample.env 301 "x1" 5)
           (Sample.env 302 "x1" 5) Sample.idle Sample.twoLocal)
    = Sample.twoLocal.
Proof.
  split; [reflexivity|].
  apply (proj2 guest_trial_monotone_and_gated false Sample.parseEmptyObject
           (Sample.answer "{}") "Isaiah 53" "ESV" (Sample.env 300 "x1" 5)
           (Sample.env 301 "x1" 5) (Sample.env 302 "x1" 5) Sample.idle
           Sample.twoLocal).
  reflexivity.
Defined.

(** * AdminService *)

Section AdminFacts.
Variables (env : Env) (fs : Firestore).

Lemma scanUsers_rejected docs acc :
  Exists (λ u, fails env (GetHistory (user_id u)) = true) docs →
  ∃ e, AdminService.scanUsers env fs docs acc = Throw e.
Proof.
  intros Hex. revert acc.
  induction docs as [|u docs IH]; intros acc; [by apply Exists_nil in Hex|].
  simpl. unfold getHistory.
  destruct (fails env (GetHistory (user_id u))) eqn:Hu; [by eexists|].
  apply Exists_cons in Hex as [Hex|Hex]; [congruence|]. by apply IH.
Qed.

Lemma scanUsers_complete docs acc :
  Forall (λ u, fails env (GetHistory (user_id u)) = false) docs →
  AdminService.scanUsers env fs docs acc
  = Ok (acc ++ (docs ≫= λ u, AdminService.adminStudy u
                               <$> orderByCreatedAtDesc (collection fs (user_id u)))).
Proof.
  intros Hall. revert acc.
  induction Hall as [|u docs Hu _ IH]; intros acc; simpl.
  - by rewrite app_nil_r.
  - unfold getHistory. rewrite Hu, IH. by rewrite <-app_assoc.
Qed.
End AdminFacts.

(** C2, as amended: [getAllStudies] never throws; any rejected request of
    the scan - the enumeration of the users or the history query of any
    one user - makes it return the empty list, and so does a missing
    configuration.  When no request is rejected it returns the studies of
    all users, newest first. *)
Theorem getAllStudies_all_or_nothing (cfg : bool) (env : Env) (fs : Firestore) :
  (cfg = false ∨ fails env GetUsers = true
   ∨ Exists (λ u, fails env (GetHistory (user_id u)) = true) (users fs) →
   AdminService.getAllStudies cfg env fs = [])
  ∧ (cfg = true → fails env GetUsers = false →
     Forall (λ u, fails env (GetHistory (user_id u)) = false) (users fs) →
     AdminService.getAllStudies cfg env fs
     = js_sort AdminService.byStudyCreatedAtDesc
         (users fs ≫= λ u, AdminService.adminStudy u
                            <$> orderByCreatedAtDesc (collection fs (user_id u)))).
Proof.
  unfold AdminService.getAllStudies, AdminService.scan, getUsers. split.
  - intros [->|[Hu|Hex]]; [done| |].
    + rewrite Hu. by destruct (negb cfg).
    + destruct (negb cfg); [done|]. destruct (fails env GetUsers); [done|].
      by destruct (scanUsers_rejected env fs (users fs) [] Hex) as [e ->].
  - intros -> Hu Hall. simpl. rewrite Hu.
    by rewrite (scanUsers_complete env fs (users fs) [] Hall).
Qed.

Lemma getAllStudies_all_or_nothing_witness :
  AdminService.getAllStudies true Sample.bobDown Sample.twoUsers = []
  ∧ (createdAt ∘ study) <$> AdminService.getAllStudies true
                              (Sample.env 300 "x1" 5) Sample.twoUsers
    = [1700000500000; 1700000100000; 1700000000000]%Z.
Proof.
  split.
  - apply (proj1 (getAllStudies_all_or_nothing true Sample.bobDown Sample.twoUsers)).
    right. right. unfold Sample.twoUsers. simpl.
    apply Exists_cons_tl, Exists_cons_hd. reflexivity.
  - rewrite (proj2 (getAllStudies_all_or_nothing true (Sample.env 300 "x1" 5)
                      Sample.twoUsers) eq_refl eq_refl).
    + reflexivity.
    + repeat constructor.
Defined.

(** C2 as stated fails: with bob's history query rejected, the scan
    returns nothing although alice's query would succeed and she has
    stored studies. *)
Lemma admin_scan_aborted_by_one_user :
  fails Sample.bobDown GetUsers = false
  ∧ fails Sample.bobDown (GetHistory "alice") = false
  ∧ fails Sample.bobDown (GetHistory "bob") = true
  ∧ length (collection Sample.twoUsers "alice") = 2
  ∧ AdminService.getAllStudies true Sample.bobDown Sample.twoUsers = [].
Proof. by vm_compute. Qed.

(** * The AI client: cleaning the response text *)

Section FenceFacts.
Import Gemini.

Lemma prefix_empty s : String.prefix "" s = true.
Proof. by destruct s. Qed.

Lemma prefix_cons_same a f s :
  String.prefix (String a f) (String a s) = String.prefix f s.
Proof. simpl. by destruct (ascii_dec a a). Qed.

Lemma prefix_cons_other a b f s :
  a ≠ b → String.prefix (String a f) (String b s) = false.
Proof. intros Hab. simpl. by destruct (ascii_dec a b). Qed.

Lemma prefix_length f s :
  String.prefix f s = true → (String.length f ≤ String.length s)%nat.
Proof.
  revert s. induction f as [|a f IH]; intros [|b s]; simpl; try (done || lia).
  destruct (ascii_dec a b); [|done]. intros Hp. apply IH in Hp. lia.
Qed.

(** A fence: not empty, and free of newlines. *)
Variable fence : string.
Hypothesis fence_chars :
  Forall (λ c, c ≠ newline) (list_ascii_of_string fence).
Hypothesis fence_nonempty : fence ≠ "".

Lemma prefix_before_newline y t :
  String.prefix fence (y +:+ String newline t) = String.prefix fence y.
Proof.
  clear fence_nonempty. revert y fence_chars.
  induction fence as [|a f IH]; intros y Hf; [by destruct y|].
  simpl in Hf. apply Forall_cons in Hf as [Ha Hf].
  destruct y as [|b y].
  - by apply prefix_cons_other.
  - simpl. destruct (ascii_dec a b); [|done]. by apply IH.
Qed.

Lemma fence_not_at_newline t : String.prefix fence (String newline t) = false.
Proof.
  destruct fence as [|a f]; [done|].
  simpl in fence_chars. apply Forall_cons in fence_chars as [Ha _].
  by apply prefix_cons_other.
Qed.

(** Scanning [x] followed by a newline and [t]: the scan of [x] is not
    affected, and the newline is either kept or, when [x] ends with the
    fence, dropped with it. *)
Lemma dropFence_before_newline st x t :
  (∀ k, st = Some k → (k ≤ String.length x)%nat) →
  dropFence fence st (x +:+ String newline t)
    = dropFence fence st x +:+ String newline (dropFence fence None t)
  ∨ dropFence fence st (x +:+ String newline t)
    = dropFence fence st x +:+ dropFence fence None t.
Proof.
  revert st. induction x as [|c x IH]; intros st Hst.
  - destruct st as [[|k]|].
    + by right.
    + specialize (Hst _ eq_refl). simpl in Hst. lia.
    + left. change ("" +:+ String newline t) with (String newline t).
      cbn [dropFence]. by rewrite fence_not_at_newline.
  - change (String c x +:+ String newline t)
      with (String c (x +:+ String newline t)).
    assert (∀ st', (∀ k, st' = Some k → (k ≤ String.length x)%nat) →
      dropFence fence st' (x +:+ String newline t)
        = dropFence fence st' x +:+ String newline (dropFence fence None t)
      ∨ dropFence fence st' (x +:+ String newline t)
        = dropFence fence st' x +:+ dropFence fence None t) as IH'
      by (intros; by apply IH).
    assert ((if String.prefix fence (String c (x +:+ String newline t))
             then dropFence fence (Some (String.length fence - 1))
                    (x +:+ String newline t)
             else String c (dropFence fence None (x +:+ String newline t)))
            = (if String.prefix fence (String c x)
               then dropFence fence (Some (String.length fence - 1)) x
               else String c (dropFence fence None x))
              +:+ String newline (dropFence fence None t)
            ∨ (if String.prefix fence (String c (x +:+ String newline t))
               then dropFence fence (Some (String.length fence - 1))
                      (x +:+ String newline t)
               else String c (dropFence fence None (x +:+ String newline t)))
              = (if String.prefix fence (String c x)
                 then dropFence fence (Some (String.length fence - 1)) x
                 else String c (dropFence fence None x))
                +:+ dropFence fence None t) as Hscan.
    { change (String c (x +:+ String newline t))
        with (String c x +:+ String newline t).
      rewrite prefix_before_newline.
      destruct (String.prefix fence (String c x)) eqn:Hp.
      - apply IH'. intros k [= <-]. apply prefix_length in Hp.
        simpl in Hp. lia.
      - destruct (IH' None) as [->| ->]; [done|by left|by right]. }
    destruct st as [[|k]|]; cbn [dropFence].
    + destruct (Ascii.eqb c newline); [by apply IH'|exact Hscan].
    + apply IH'. intros k' [= <-]. specialize (Hst _ eq_refl).
      simpl in Hst. lia.
    + exact Hscan.
Qed.
End FenceFacts.

Section CleanFacts.
Import Gemini.

Lemma trimStart_unfold s :
  trimStart s = match afterWhiteSpace s with
                | Some t => trimStart t
                | None => s
                end.
Proof.
  destruct s as [|c1 [|c2 [|c3 s]]]; cbn [trimStart afterWhiteSpace];
    try done; repeat (case_match; try done).
Qed.

(** What [afterWhiteSpace] cuts off is not empty. *)
Lemma afterWhiteSpace_Some s t :
  afterWhiteSpace s = Some t →
  ∃ u, s = u +:+ t ∧ (String.length t < String.length s)%nat.
Proof.
  destruct s as [|c1 s1]; [done|]. cbn [afterWhiteSpace].
  destruct (isWhiteSpace1 c1).
  { intros [= <-]. exists (String c1 ""). split; [done|]. simpl. lia. }
  destruct s1 as [|c2 s2]; [done|]. destruct (isWhiteSpace2 c1 c2).
  { intros [= <-]. exists (String c1 (String c2 "")). split; [done|].
    simpl. lia. }
  destruct s2 as [|c3 s3]; [done|]. destruct (isWhiteSpace3 c1 c2 c3); [|done].
  intros [= <-]. exists (String c1 (String c2 (String c3 ""))).
  split; [done|]. simpl. lia.
Qed.

(** Induction along the white space a text starts with. *)
Lemma trimStart_ind (P : string → Prop) :
  (∀ s, afterWhiteSpace s = None → P s) →
  (∀ s t, afterWhiteSpace s = Some t → P t → P s) →
  ∀ s, P s.
Proof.
  intros Hnone Hsome s.
  remember (String.length s) as n eqn:Hn. revert s Hn.
  induction n as [n IH] using lt_wf_ind. intros s ->.
  destruct (afterWhiteSpace s) as [t|] eqn:Hs; [|by apply Hnone].
  apply (Hsome s t Hs). destruct (afterWhiteSpace_Some s t Hs) as (_ & _ & Hlt).
  by apply (IH (String.length t)).
Qed.

Lemma isWhiteSpace2_newline c1 : isWhiteSpace2 c1 newline = false.
Proof. unfold isWhiteSpace2. cbn. by rewrite andb_false_r. Qed.

Lemma isWhiteSpace3_newline c1 c2 : isWhiteSpace3 c1 c2 newline = false.
Proof.
  unfold isWhiteSpace3. cbn.
  by repeat match goal with
            | |- context [Ascii.eqb ?c ?x] => destruct (Ascii.eqb c x)
            end.
Qed.

Lemma afterWhiteSpace_newline s :
  afterWhiteSpace (s +:+ String newline "")
  = match afterWhiteSpace s with
    | Some t => Some (t +:+ String newline "")
    | None => if String.eqb s "" then Some "" else None
    end.
Proof.
  destruct s as [|c1 s1]; [done|].
  change (String c1 s1 +:+ String newline "")
    with (String c1 (s1 +:+ String newline "")).
  cbn [afterWhiteSpace]. destruct (isWhiteSpace1 c1); [done|].
  destruct s1 as [|c2 s2].
  { change ("" +:+ String newline "") with (String newline "").
    cbv iota beta. by rewrite isWhiteSpace2_newline. }
  change (String c2 s2 +:+ String newline "")
    with (String c2 (s2 +:+ String newline "")).
  cbv iota beta. destruct (isWhiteSpace2 c1 c2); [done|].
  destruct s2 as [|c3 s3].
  { change ("" +:+ String newline "") with (String newline "").
    cbv iota beta. by rewrite isWhiteSpace3_newline. }
  change (String c3 s3 +:+ String newline "")
    with (String c3 (s3 +:+ String newline "")).
  cbv iota beta. by destruct (isWhiteSpace3 c1 c2 c3).
Qed.

(** A newline at the end does not make a text blank, nor keep it from
    being blank. *)
Lemma isBlank_newline s : isBlank (s +:+ String newline "") = isBlank s.
Proof.
  unfold isBlank. induction s as [s Hs|s t Hs IH] using trimStart_ind.
  - rewrite (trimStart_unfold (s +:+ _)), (trimStart_unfold s).
    rewrite afterWhiteSpace_newline, Hs.
    destruct s as [|c s]; [done|]. done.
  - rewrite (trimStart_unfold (s +:+ _)), (trimStart_unfold s).
    by rewrite afterWhiteSpace_newline, Hs.
Qed.

Lemma trimEnd_newline z : trimEnd (z +:+ String newline "") = trimEnd z.
Proof.
  induction z as [|c z IH]; [done|].
  change (String c z +:+ String newline "")
    with (String c (z +:+ String newline "")).
  cbn [trimEnd].
  change (String c (z +:+ String newline ""))
    with (String c z +:+ String newline "").
  by rewrite isBlank_newline, IH.
Qed.

Lemma append_empty_r (s : string) : s +:+ "" = s.
Proof.
  induction s as [|c s IH]; [done|].
  change (String c (s +:+ "") = String c s). by rewrite IH.
Qed.

(** Scanning for the bare fence: a closing fence directly after [y]
    disappears without a trace, also when [y] itself ends with
    backticks. *)
Lemma dropFence_closing st y :
  (∀ k, st = Some k → (k ≤ String.length y)%nat) →
  dropFence "```" st (y +:+ "```") = dropFence "```" st y.
Proof.
  revert st. induction y as [|c y IH]; intros st Hst.
  - destruct st as [[|k]|]; [done| |done].
    specialize (Hst _ eq_refl). simpl in Hst. lia.
  - change (String c y +:+ "```") with (String c (y +:+ "```")).
    assert ((if String.prefix "```" (String c (y +:+ "```"))
             then dropFence "```" (Some 2) (y +:+ "```")
             else String c (dropFence "```" None (y +:+ "```")))
            = (if String.prefix "```" (String c y)
               then dropFence "```" (Some 2) y
               else String c (dropFence "```" None y))) as Hscan.
    { destruct (decide ("`"%char = c)) as [<-|Hc];
        [|rewrite !prefix_cons_other by done; by rewrite IH].
      rewrite !prefix_cons_same.
      destruct y as [|c1 y]; [done|].
      change (String c1 y +:+ "```") with (String c1 (y +:+ "```")) in *.
      destruct (decide ("`"%char = c1)) as [<-|Hc1];
        [|rewrite !prefix_cons_other by done; by rewrite IH].
      rewrite !prefix_cons_same.
      destruct y as [|c2 y]; [done|].
      change (String c2 y +:+ "```") with (String c2 (y +:+ "```")) in *.
      destruct (decide ("`"%char = c2)) as [<-|Hc2];
        [|rewrite !prefix_cons_other by done; by rewrite IH].
      rewrite !prefix_cons_same, !prefix_empty.
      apply (IH (Some 2)). intros k [= <-]. simpl. lia. }
    destruct st as [[|k]|]; cbn [dropFence String.length Nat.sub].
    + destruct (Ascii.eqb c newline); [by apply IH|exact Hscan].
    + apply IH. intros k' [= <-]. specialize (Hst _ eq_refl).
      simpl in Hst. lia.
    + exact Hscan.
Qed.

(** Wrapping a text in a [json] fence does not change what
    [cleanText] makes of it. *)
Lemma cleanText_fenced x : cleanText (fenced x) = cleanText x.
Proof.
  unfold cleanText.
  assert (dropFence "```json" None (fenced x)
          = dropFence "```json" None (x +:+ String newline "```")) as ->
    by done.
  destruct (dropFence_before_newline "```json" ltac:(by repeat constructor)
              ltac:(done) None x "```" ltac:(done)) as [-> | ->].
  - change (dropFence "```json" None "```") with "```".
    destruct (dropFence_before_newline "```" ltac:(by repeat constructor)
                ltac:(done) None (dropFence "```json" None x) "```"
                ltac:(done))
      as [-> | ->].
    + change (dropFence "```" None "```") with "".
      unfold trim. by rewrite trimEnd_newline.
    + change (dropFence "```" None "```") with "".
      by rewrite append_empty_r.
  - change (dropFence "```json" None "```") with "```".
    by rewrite dropFence_closing.
Qed.
End CleanFacts.

(** C8, as amended: a text wrapped in a [json] code fence is cleaned to
    the same text as the bare one, so both parse alike (for every text,
    valid JSON or not).  A non-empty response text whose cleaned form does
    not parse makes [generateStudy] reject with its own parse-failure
    error, which [handleAnalyze] catches and shows as the
    generation-failed message, storing nothing.  An empty or missing
    response text is replaced by the empty object before cleaning, and
    the outcome is that of parsing the empty object. *)
Theorem fenced_json_parses_alike_and_bad_json_fails
    (JSON_parse : string → option StudyAnalysis) :
  (∀ x, Gemini.cleanText (Gemini.fenced x) = Gemini.cleanText x)
  ∧ (∀ x, JSON_parse (Gemini.cleanText (Gemini.fenced x))
          = JSON_parse (Gemini.cleanText x))
  ∧ (∀ x, x ≠ "" →
          Gemini.parseResponse JSON_parse (Some (Gemini.fenced x))
          = Gemini.parseResponse JSON_parse (Some x))
  ∧ (∀ gen ref tr w text,
       gen ref tr = Ok (Some text) →
       text ≠ "" →
       JSON_parse (Gemini.cleanText text) = None →
       fst (Gemini.generateStudy JSON_parse gen ref tr w)
       = Throw Gemini.parseFailure)
  ∧ (∀ gen ref tr w,
       gen ref tr = Ok None ∨ gen ref tr = Ok (Some "") →
       fst (Gemini.generateStudy JSON_parse gen ref tr w)
       = match JSON_parse "{}" with
         | Some a => Ok a
         | None => Throw Gemini.parseFailure
         end)
  ∧ (∀ cfg gen user ref tr envNow envSave envLimit ui w text,
       Gemini.trim ref ≠ "" →
       (user = None → GuestTrialService.hasUsedTrial (localStorage w) = false) →
       gen ref tr = Ok (Some text) →
       text ≠ "" →
       JSON_parse (Gemini.cleanText text) = None →
       let r := Landing.handleAnalyze cfg JSON_parse gen user ref tr
                  envNow envSave envLimit ui w in
       error (fst r) = Landing.generationFailed
       ∧ loading (fst r) = false
       ∧ navigatedTo (fst r) = navigatedTo ui
       ∧ localStorage (snd r) = localStorage w
       ∧ db (snd r) = db w).
Proof.
  assert (∀ text, text ≠ "" → orElse (Some text) "{}" = text) as Hkeep
    by (intros text Htext; by destruct text).
  split_and!.
  - apply cleanText_fenced.
  - intros x. by rewrite cleanText_fenced.
  - intros x Hx. unfold Gemini.parseResponse. rewrite (Hkeep x) by done.
    change (orElse (Some (Gemini.fenced x)) "{}") with (Gemini.fenced x).
    by rewrite cleanText_fenced.
  - intros gen ref tr w text Hgen Htext Hbad.
    unfold Gemini.generateStudy, Gemini.parseResponse.
    by rewrite Hgen, Hkeep, Hbad.
  - intros gen ref tr w [Hgen|Hgen];
      unfold Gemini.generateStudy, Gemini.parseResponse; by rewrite Hgen.
  - intros cfg gen user ref tr envNow envSave envLimit ui w text
      Href Hgate Hgen Htext Hbad.
    unfold Landing.handleAnalyze.
    destruct (String.eqb_spec (Gemini.trim ref) ""); [done|].
    assert (bool_decide (user = None)
            && GuestTrialService.hasUsedTrial (localStorage w) = false) as ->.
    { destruct user; [done|]. by rewrite Hgate. }
    unfold Gemini.generateStudy, Gemini.parseResponse.
    by rewrite Hgen, Hkeep, Hbad.
Qed.

Lemma fenced_json_parses_alike_and_bad_json_fails_witness :
  Sample.parseEmptyObject (Gemini.cleanText "Sorry, no.") = None
  ∧ fst (Gemini.generateStudy Sample.parseEmptyObject (Sample.answer "Sorry, no.")
           "Isaiah 53" "ESV" Sample.freshWorld)
    = Throw Gemini.parseFailure
  ∧ Gemini.parseResponse Sample.parseEmptyObject (Some (Gemini.fenced "{}"))
    = Ok (Sample.analysisOf "")
  ∧ fst (Gemini.generateStudy Sample.parseEmptyObject (Sample.answer "")
           "Isaiah 53" "ESV" Sample.freshWorld)
    = Ok (Sample.analysisOf "")
  ∧ error (fst (Landing.handleAnalyze false Sample.parseEmptyObject
                  (Sample.answer "Sorry, no.") None "Isaiah 53" "ESV"
                  (Sample.env 300 "x1" 5) (Sample.env 301 "x1" 5)
                  (Sample.env 302 "x1" 5) Sample.idle Sample.freshWorld))
    = Landing.generationFailed.
Proof.
  pose proof (fenced_json_parses_alike_and_bad_json_fails
                Sample.parseEmptyObject)
    as (_ & _ & Hfence & Hbad & Hempty & Hui).
  split_and!.
  - reflexivity.
  - apply (Hbad (Sample.answer "Sorry, no.") "Isaiah 53" "ESV"
             Sample.freshWorld "Sorry, no."); [reflexivity|discriminate|reflexivity].
  - rewrite (Hfence "{}"); [reflexivity|discriminate].
  - rewrite (Hempty (Sample.answer "") "Isaiah 53" "ESV" Sample.freshWorld);
      [reflexivity|by right].
  - apply (Hui false (Sample.answer "Sorry, no.") None "Isaiah 53" "ESV"
             (Sample.env 300 "x1" 5) (Sample.env 301 "x1" 5)
             (Sample.env 302 "x1" 5) Sample.idle Sample.freshWorld
             "Sorry, no."); try reflexivity; discriminate.
Defined.

(** C8 as stated fails for a response without text or with the empty
    text: neither is valid JSON, for any parser that rejects the empty
    text and accepts the empty object, yet [generateStudy] resolves, with
    the parse of the empty object. *)
Lemma empty_response_is_not_a_failure :
  Gemini.cleanText "" = ""
  ∧ Sample.parseEmptyObject (Gemini.cleanText "") = None
  ∧ fst (Gemini.generateStudy Sample.parseEmptyObject (Sample.answer "")
           "Isaiah 53" "ESV" Sample.freshWorld)
    = Ok (Sample.analysisOf "")
  ∧ (∀ (JSON_parse : string → option StudyAnalysis) gen ref tr w a,
       JSON_parse "" = None → JSON_parse "{}" = Some a →
       gen ref tr = Ok None ∨ gen ref tr = Ok (Some "") →
       fst (Gemini.generateStudy JSON_parse gen ref tr w) = Ok a
       ∧ fst (Gemini.generateStudy JSON_parse gen ref tr w)
         ≠ Throw Gemini.parseFailure).
Proof.
  split_and!; try reflexivity.
  intros JSON_parse gen ref tr w a _ Hobj Hgen.
  assert (fst (Gemini.generateStudy JSON_parse gen ref tr w) = Ok a) as ->;
    [|done].
  unfold Gemini.generateStudy, Gemini.parseResponse.
  destruct Hgen as [-> | ->]; cbv [orElse];
    change (Gemini.cleanText "{}") with "{}"; by rewrite Hobj.
Qed.

(** * Looking up in lists *)

Section FindFacts.
Context {A : Type} (P : A → Prop) `{!∀ a, Decision (P a)}.

Lemma find_appended (l : list A) x :
  Forall (λ a, ¬ P a) l → P x → snd <$> list_find P (l ++ [x]) = Some x.
Proof.
  intros Hl Hx. rewrite list_find_app_r by by apply list_find_None.
  simpl. by rewrite decide_True.
Qed.

Lemma find_in_filtered_out (l : list A) :
  list_find P (filter (λ a, ¬ P a) l) = None.
Proof.
  apply list_find_None, Forall_forall. intros a Ha.
  by apply list_elem_of_filter in Ha as [Ha _].
Qed.
End FindFacts.

(** * Round trips through StudyService *)

(** C4, as amended: [getById] with the id [save] returned yields the saved
    study with that id attached.  In the local-only configuration every
    other field is as saved, provided no stored record already carries
    the minted id.  In the remote configuration, for a study saved without
    an id of its own and requests that are not rejected, every other field
    is as saved except [createdAt], which is the server timestamp in
    whole seconds, times 1000. *)
Theorem save_then_getById (cfg : bool) (envSave envGet : Env)
    (uid : string) (s : SavedStudy) (w : World) :
  let r := StudyService.save cfg envSave uid s w in
  (StudyService.remoteUsable cfg uid = false →
   Forall (λ x, id x ≠ Some ("local-" +:+ pretty (now envSave)))
     (readStudies (localStorage w)) →
   fst r = Ok ("local-" +:+ pretty (now envSave))
   ∧ StudyService.getById cfg envGet uid
       ("local-" +:+ pretty (now envSave)) (snd r)
     = Some (withId s ("local-" +:+ pretty (now envSave))))
  ∧ (StudyService.remoteUsable cfg uid = true →
     fails envSave (AddDoc uid) = false →
     fails envGet (GetDoc uid (autoId envSave)) = false →
     String.prefix "local-" (autoId envSave) = false →
     Forall (λ d, doc_id d ≠ autoId envSave) (collection (db w) uid) →
     seconds (serverTimestamp envSave) ≠ 0%Z →
     id s = None →
     fst r = Ok (autoId envSave)
     ∧ StudyService.getById cfg envGet uid (autoId envSave) (snd r)
       = Some {| id := Some (autoId envSave);
                 userId := userId s;
                 reference := reference s;
                 translation := translation s;
                 createdAt := (seconds (serverTimestamp envSave) * 1000)%Z;
                 modelMetadata := modelMetadata s;
                 analysis := analysis s;
                 userNotes := userNotes s;
                 tags := tags s |}).
Proof.
  simpl. split.
  - intros Hlocal Hfresh. unfold StudyService.save. rewrite Hlocal. simpl.
    split; [done|]. unfold StudyService.getById.
    assert (StudyService.routesRemote cfg uid
              ("local-" +:+ pretty (now envSave)) = false) as ->.
    { unfold StudyService.routesRemote, StudyService.remoteUsable in *.
      destruct cfg; [|done]. simpl in *. rewrite Hlocal. apply andb_false_r. }
    simpl. rewrite readStudies_writeStudies. by apply find_appended.
  - intros Hremote Hadd Hget Htag Hfresh _ Hid.
    unfold StudyService.save, addDoc. rewrite Hremote, Hadd. simpl.
    split; [done|]. unfold StudyService.getById.
    assert (StudyService.routesRemote cfg uid (autoId envSave) = true) as ->.
    { unfold StudyService.routesRemote, StudyService.remoteUsable in *.
      rewrite Htag. by destruct cfg. }
    unfold getDoc. simpl. rewrite Hget, collection_setCollection.
    rewrite (find_appended (λ d, doc_id d = autoId envSave)) by done.
    unfold fromDoc. simpl. by rewrite Hid.
Qed.

Lemma save_then_getById_witness :
  StudyService.getById false (Sample.env 301 "x1" 5) "guest" "local-300"
    (snd (StudyService.save false (Sample.env 300 "x1" 5) "guest"
            (Sample.studyAt "Genesis 1" 300) Sample.twoLocal))
  = Some (Sample.stored "local-300" "Genesis 1" 300)
  ∧ createdAt <$> StudyService.getById true (Sample.env 301 "x2" 5) "alice" "x1"
      (snd (StudyService.save true (Sample.env 300 "x1" 1700001000) "alice"
              (Sample.studyAt "Genesis 1" 300) Sample.remoteWorld))
    = Some 1700001000000%Z.
Proof.
  split.
  - apply (proj1 (save_then_getById false (Sample.env 300 "x1" 5)
                    (Sample.env 301 "x1" 5) "guest"
                    (Sample.studyAt "Genesis 1" 300) Sample.twoLocal)).
    + reflexivity.
    + repeat constructor; discriminate.
  - destruct (proj2 (save_then_getById true (Sample.env 300 "x1" 1700001000)
                        (Sample.env 301 "x2" 5) "alice"
                        (Sample.studyAt "Genesis 1" 300) Sample.remoteWorld)
                      eq_refl eq_refl eq_refl eq_refl
                      ltac:(repeat constructor; discriminate)
                      ltac:(discriminate) eq_refl) as [_ Hget].
    exact (f_equal (fmap createdAt) Hget).
Defined.

(** C4 as stated fails in the remote configuration: the record read back
    carries the server's creation time, not the one that was saved. *)
Lemma remote_roundtrip_changes_createdAt :
  let s := Sample.studyAt "Genesis 1" 300 in
  let r := StudyService.save true (Sample.env 300 "x1" 1700001000)
             "alice" s Sample.remoteWorld in
  fst r = Ok "x1"
  ∧ StudyService.getById true (Sample.env 301 "x2" 5) "alice" "x1" (snd r)
    ≠ Some (withId s "x1")
  ∧ createdAt <$> StudyService.getById true (Sample.env 301 "x2" 5)
                    "alice" "x1" (snd r)
    = Some 1700001000000%Z.
Proof. vm_compute. split_and!; [done|discriminate|done]. Qed.

(** Without a fresh id the local round trip fails too: a second [save] in
    the millisecond of a stored study mints its id again, and [getById]
    finds the older record first. *)
Lemma local_roundtrip_needs_fresh_id :
  let s := Sample.studyAt "Genesis 1" 100 in
  let r := StudyService.save false (Sample.env 100 "x1" 5) "guest" s
             Sample.twoLocal in
  fst r = Ok "local-100"
  ∧ StudyService.getById false (Sample.env 101 "x1" 5) "guest" "local-100" (snd r)
    = Some (Sample.stored "local-100" "Isaiah 53" 100)
  ∧ StudyService.getById false (Sample.env 101 "x1" 5) "guest" "local-100" (snd r)
    ≠ Some (withId s "local-100").
Proof. vm_compute. split_and!; [done|done|discriminate]. Qed.

(** * Local ids carry the prefix *)

Lemma prefix_append p s : String.prefix p (p +:+ s) = true.
Proof.
  induction p as [|a p IH]; [apply prefix_empty|].
  change (String a p +:+ s) with (String a (p +:+ s)).
  by rewrite prefix_cons_same.
Qed.

Section LocalIds.
Variable cfg : bool.

Lemma localIdsTagged_fresh : localIdsTagged Sample.emptyStorage.
Proof. constructor. Qed.

Lemma localIdsTagged_save env uid s w :
  localIdsTagged (localStorage w) →
  localIdsTagged (localStorage (snd (StudyService.save cfg env uid s w))).
Proof.
  intros Hw. unfold StudyService.save.
  destruct (StudyService.remoteUsable cfg uid).
  - unfold addDoc. by destruct (fails env (AddDoc uid)).
  - unfold localIdsTagged. simpl. rewrite readStudies_writeStudies.
    apply Forall_app. split; [done|].
    constructor; [|constructor]. intros j [= <-]. apply prefix_append.
Qed.

Lemma localIdsTagged_remove env uid i w :
  localIdsTagged (localStorage w) →
  localIdsTagged (localStorage (snd (StudyService.remove cfg env uid i w))).
Proof.
  intros Hw. unfold StudyService.remove.
  destruct (StudyService.routesRemote cfg uid i).
  - unfold deleteDoc. by destruct (fails env (DeleteDoc uid i)).
  - unfold localIdsTagged. simpl. rewrite readStudies_writeStudies.
    by apply Forall_filter_keep.
Qed.

Lemma localIdsTagged_update env uid i data w :
  p_id data = None →
  localIdsTagged (localStorage w) →
  localIdsTagged (localStorage (snd (StudyService.update cfg env uid i data w))).
Proof.
  intros Hdata Hw. unfold StudyService.update.
  destruct (StudyService.routesRemote cfg uid i).
  - unfold updateDoc. destruct (fails env (UpdateDoc uid i)); [done|].
    by destruct (list_find _ _) as [[k d]|].
  - destruct (list_find _ _) as [[k s]|] eqn:Hfind; [|done].
    unfold localIdsTagged. simpl. rewrite readStudies_writeStudies.
    apply list_find_Some in Hfind as (Hk & _ & _).
    apply Forall_insert; [done|]. unfold spread. simpl. rewrite Hdata.
    unfold localIdsTagged in Hw. rewrite Forall_lookup in Hw. eauto.
Qed.
End LocalIds.

(** * Removing, then looking up *)

(** C6, as amended: after a [remove] that resolved, [getById] for the
    same identity and id reports absence.  [getById] never throws: a
    rejected read is caught and answered from the browser's list.
    [remove] resolves on the local route always, and on the remote
    route exactly when its delete request is accepted: a rejected
    delete request is thrown to the caller, and then nothing is
    removed.  On the remote route the browser's list is as [save]
    leaves it: its ids carry the local prefix. *)
Theorem remove_then_getById_absent (cfg : bool) (envRemove envGet : Env)
    (uid i : string) (w : World) :
  let r := StudyService.remove cfg envRemove uid i w in
  (StudyService.routesRemote cfg uid i = false →
   fst r = Ok tt ∧ StudyService.getById cfg envGet uid i (snd r) = None)
  ∧ (StudyService.routesRemote cfg uid i = true →
     fails envRemove (DeleteDoc uid i) = false →
     localIdsTagged (localStorage w) →
     fst r = Ok tt ∧ StudyService.getById cfg envGet uid i (snd r) = None)
  ∧ (StudyService.routesRemote cfg uid i = true →
     (fst r = Ok tt ↔ fails envRemove (DeleteDoc uid i) = false)
     ∧ (fails envRemove (DeleteDoc uid i) = true →
        fst r = Throw (FirestoreError (DeleteDoc uid i))
        ∧ db (snd r) = db w
        ∧ localStorage (snd r) = localStorage w
        ∧ StudyService.getById cfg envGet uid i (snd r)
          = StudyService.getById cfg envGet uid i w)).
Proof.
  cbv zeta. unfold StudyService.remove, StudyService.getById.
  split_and!.
  - intros Hroute. rewrite Hroute. cbn [fst snd localStorage setLocal].
    split; [done|]. rewrite readStudies_writeStudies.
    by rewrite (find_in_filtered_out (λ s, id s = Some i)).
  - intros Hroute Hdelete Htagged. rewrite Hroute.
    unfold deleteDoc. rewrite Hdelete. cbn [fst snd localStorage db setDb].
    split; [done|].
    assert (list_find (λ s, id s = Some i) (readStudies (localStorage w)) = None)
      as ->.
    { apply list_find_None. eapply Forall_impl; [exact Htagged|].
      intros s Hs Hid. apply Hs in Hid.
      unfold StudyService.routesRemote in Hroute.
      rewrite Hid in Hroute. simpl in Hroute.
      by rewrite andb_false_r in Hroute. }
    unfold getDoc. destruct (fails envGet (GetDoc uid i)); [done|].
    rewrite collection_setCollection.
    by rewrite (find_in_filtered_out (λ d, doc_id d = i)).
  - intros Hroute. rewrite Hroute. unfold deleteDoc.
    destruct (fails envRemove (DeleteDoc uid i)); cbn [fst snd].
    + split; [split; discriminate|]. intros _. by split_and!.
    + split; [done|]. discriminate.
Qed.

Lemma remove_then_getById_absent_witness :
  StudyService.getById true Sample.bobDown "alice" "a1"
    (snd (StudyService.remove true (Sample.env 300 "x1" 5) "alice" "a1"
            Sample.remoteWorld)) = None
  ∧ StudyService.getById false (Sample.env 301 "x1" 5) "guest" "local-100"
      (snd (StudyService.remove false (Sample.env 300 "x1" 5) "guest"
              "local-100" Sample.twoLocal)) = None.
Proof.
  split.
  - apply (proj1 (proj2 (remove_then_getById_absent true (Sample.env 300 "x1" 5)
                           Sample.bobDown "alice" "a1" Sample.remoteWorld)));
      [reflexivity|reflexivity|constructor].
  - apply (proj1 (remove_then_getById_absent false (Sample.env 300 "x1" 5)
                    (Sample.env 301 "x1" 5) "guest" "local-100"
                    Sample.twoLocal)).
    reflexivity.
Defined.

(** C6 as stated fails: [remove] has no handler around its delete
    request.  When the request for document [a1] is rejected, [remove]
    throws, and the [getById] that follows still finds the study. *)
Lemma remove_rejected_is_thrown :
  let r := StudyService.remove true Scenario.a1Stuck "alice" "a1"
             Sample.remoteWorld in
  StudyService.routesRemote true "alice" "a1" = true
  ∧ fst r = Throw (FirestoreError (DeleteDoc "alice" "a1"))
  ∧ id <$> StudyService.getById true (Sample.env 301 "x1" 5) "alice" "a1" (snd r)
    = Some (Some "a1").
Proof. by vm_compute. Qed.

(** * The comparators are consistent *)

Lemma byCreatedAtDesc_total a b :
  (0 < byCreatedAtDesc a b)%Z → (byCreatedAtDesc b a <= 0)%Z.
Proof. unfold byCreatedAtDesc. lia. Qed.

Lemma byCreatedAtDesc_trans a b c :
  (byCreatedAtDesc a b <= 0)%Z → (byCreatedAtDesc b c <= 0)%Z →
  (byCreatedAtDesc a c <= 0)%Z.
Proof. unfold byCreatedAtDesc. lia. Qed.

(** [compareRank] is the lexicographic comparison. *)
Lemma compareRank_nonpos a1 a2 a3 b1 b2 b3 :
  (compareRank (a1, a2, a3) (b1, b2, b3) <= 0)%Z
  ↔ (a1 < b1 ∨ (a1 = b1 ∧ (a2 < b2 ∨ (a2 = b2 ∧ a3 <= b3))))%Z.
Proof.
  unfold compareRank, compareZ.
  destruct (Z.compare_spec a1 b1), (Z.compare_spec a2 b2),
    (Z.compare_spec a3 b3); simpl; lia.
Qed.

Lemma byDocTimeDesc_total a b :
  (0 < byDocTimeDesc a b)%Z → (byDocTimeDesc b a <= 0)%Z.
Proof.
  unfold byDocTimeDesc.
  destruct (timeRank (doc_createdAt a)) as [[a1 a2] a3],
    (timeRank (doc_createdAt b)) as [[b1 b2] b3].
  intros Hab. apply compareRank_nonpos.
  assert (¬ (compareRank (b1, b2, b3) (a1, a2, a3) <= 0)%Z) as Hn by lia.
  rewrite compareRank_nonpos in Hn. lia.
Qed.

Lemma byDocTimeDesc_trans a b c :
  (byDocTimeDesc a b <= 0)%Z → (byDocTimeDesc b c <= 0)%Z →
  (byDocTimeDesc a c <= 0)%Z.
Proof.
  unfold byDocTimeDesc.
  destruct (timeRank (doc_createdAt a)) as [[a1 a2] a3],
    (timeRank (doc_createdAt b)) as [[b1 b2] b3],
    (timeRank (doc_createdAt c)) as [[c1 c2] c3].
  rewrite !compareRank_nonpos. lia.
Qed.

(** * Deleting documents *)

Section DeleteFacts.
Variables (env : Env) (uid : string).

Lemma deleteEach_cons_accepted d rest fs :
  fails env (DeleteDoc uid (doc_id d)) = false →
  deleteEach env uid (d :: rest) fs
  = deleteEach env uid rest
      (setCollection uid
         (filter (λ x, doc_id x ≠ doc_id d) (collection fs uid)) fs).
Proof.
  intros Hd. simpl. unfold deleteDoc. rewrite Hd.
  by destruct (deleteEach env uid rest _).
Qed.

Lemma deleteEach_cons_rejected d rest fs :
  fails env (DeleteDoc uid (doc_id d)) = true →
  fst (deleteEach env uid (d :: rest) fs)
  = Throw (FirestoreError (DeleteDoc uid (doc_id d))).
Proof.
  intros Hd. simpl. unfold deleteDoc. rewrite Hd.
  by destruct (deleteEach env uid rest _).
Qed.

(** When no delete is rejected, [deleteEach] removes exactly the
    documents whose ids are listed. *)
Lemma deleteEach_accepted toDelete fs :
  Forall (λ d, fails env (DeleteDoc uid (doc_id d)) = false) toDelete →
  fst (deleteEach env uid toDelete fs) = Ok tt
  ∧ collection (snd (deleteEach env uid toDelete fs)) uid
    = filter (λ d, doc_id d ∉ doc_id <$> toDelete) (collection fs uid).
Proof.
  intros Hall. revert fs.
  induction Hall as [|d rest Hd _ IH]; intros fs.
  - simpl. split; [done|]. symmetry. apply filter_keeps_all.
    apply Forall_forall. intros x _. apply not_elem_of_nil.
  - rewrite deleteEach_cons_accepted by done.
    destruct (IH (setCollection uid
                    (filter (λ x, doc_id x ≠ doc_id d) (collection fs uid)) fs))
      as [Hr Hc].
    split; [done|]. rewrite Hc, collection_setCollection.
    rewrite list_filter_filter. apply list_filter_iff.
    intros x. rewrite fmap_cons, not_elem_of_cons. tauto.
Qed.

(** [Promise.all] resolves only when every delete was accepted. *)
Lemma deleteEach_resolved toDelete fs :
  fst (deleteEach env uid toDelete fs) = Ok tt →
  Forall (λ d, fails env (DeleteDoc uid (doc_id d)) = false) toDelete.
Proof.
  revert fs. induction toDelete as [|d rest IH]; intros fs; [done|].
  destruct (fails env (DeleteDoc uid (doc_id d))) eqn:Hd.
  - by rewrite deleteEach_cons_rejected.
  - rewrite deleteEach_cons_accepted by done.
    intros Hr. constructor; [done|]. by eapply IH.
Qed.
End DeleteFacts.

Section RetainFacts.
(** [s] is the newest-first listing of the collection [c]. *)
Variables (c s : list HistoryDoc).
Hypothesis listing : s ≡ₚ c.

(** Deleting the documents listed after the first [n] leaves at most [n]. *)
Lemma retained_length n :
  (length (filter (λ d, doc_id d ∉ doc_id <$> drop n s) c) ≤ n)%nat.
Proof.
  rewrite <-listing. set (gone := doc_id <$> drop n s).
  rewrite <-(take_drop n s) at 1. rewrite filter_app, length_app.
  rewrite (filter_drops_all _ (drop n s)).
  - simpl. etrans; [apply Nat.eq_le_incl, Nat.add_0_r|].
    etrans; [apply length_filter|]. rewrite length_take. lia.
  - apply Forall_forall. intros d Hd Hnot. apply Hnot.
    by apply list_elem_of_fmap_2.
Qed.

(** With distinct ids, what is left is exactly the first [n]. *)
Lemma retained_exactly n :
  NoDup (doc_id <$> c) →
  filter (λ d, doc_id d ∉ doc_id <$> drop n s) s = take n s.
Proof.
  intros Hids. rewrite <-listing in Hids.
  set (gone := doc_id <$> drop n s).
  rewrite <-(take_drop n s) at 1. rewrite filter_app.
  rewrite (filter_drops_all _ (drop n s)), app_nil_r.
  - apply filter_keeps_all, Forall_forall. intros d Hd Hgone.
    rewrite <-(take_drop n s), fmap_app in Hids.
    apply NoDup_app in Hids as (_ & Hdisj & _).
    apply (Hdisj (doc_id d)); [by apply list_elem_of_fmap_2|done].
  - apply Forall_forall. intros d Hd Hnot. apply Hnot.
    by apply list_elem_of_fmap_2.
Qed.
End RetainFacts.

(** * enforceLimit *)

Section EnforceLimitFacts.
Variable cfg : bool.
Variables (env : Env) (uid : string) (cap : Z).

(** At or under the cap nothing is deleted: the state is left as it
    is, whether or not the history query is rejected. *)
Lemma enforceLimit_under_cap w :
  (Z.of_nat (storedCount cfg uid w) <= cap)%Z →
  snd (StudyService.enforceLimit cfg env uid cap w) = w
  ∧ (fails env (GetHistory uid) = false →
     fst (StudyService.enforceLimit cfg env uid cap w) = Ok tt).
Proof.
  unfold storedCount, StudyService.enforceLimit, getHistory. intros Hcount.
  destruct (StudyService.remoteUsable cfg uid).
  - destruct (fails env (GetHistory uid)); [done|].
    unfold orderByCreatedAtDesc. rewrite js_sort_length.
    by destruct (Z.ltb_spec cap (Z.of_nat (length (collection (db w) uid))));
      [lia|].
  - by destruct (Z.ltb_spec cap
                   (Z.of_nat (length (readStudies (localStorage w)))));
      [lia|].
Qed.

Hypothesis cap_nonneg : (0 <= cap)%Z.

(** Remotely, a call that resolves has deleted the documents listed
    after the first [cap] of the newest-first order, and nothing else. *)
Lemma enforceLimit_remote_resolved w :
  StudyService.remoteUsable cfg uid = true →
  fst (StudyService.enforceLimit cfg env uid cap w) = Ok tt →
  collection (db (snd (StudyService.enforceLimit cfg env uid cap w))) uid
  = filter (λ d, doc_id d ∉ doc_id <$> drop (Z.to_nat cap)
                                 (orderByCreatedAtDesc (collection (db w) uid)))
      (collection (db w) uid)
  ∧ localStorage (snd (StudyService.enforceLimit cfg env uid cap w))
    = localStorage w.
Proof.
  unfold StudyService.enforceLimit, getHistory. intros -> .
  destruct (fails env (GetHistory uid)); [done|].
  set (docs := orderByCreatedAtDesc (collection (db w) uid)).
  destruct (Z.ltb_spec cap (Z.of_nat (length docs))) as [Hlt|Hge].
  - rewrite js_slice_from_suffix by done.
    destruct (deleteEach env uid (drop (Z.to_nat cap) docs) (db w))
      as [r fs] eqn:Hdel. simpl. intros ->.
    pose proof (deleteEach_resolved env uid
                  (drop (Z.to_nat cap) docs) (db w)) as Hall.
    rewrite Hdel in Hall. specialize (Hall eq_refl).
    apply (deleteEach_accepted env uid _ (db w)) in Hall as [_ Hc].
    by rewrite Hdel in Hc.
  - intros _. simpl. split; [|done].
    rewrite drop_ge by lia. symmetry. apply filter_keeps_all.
    apply Forall_forall. intros x _. apply not_elem_of_nil.
Qed.

Lemma enforceLimit_remote_calm w :
  StudyService.remoteUsable cfg uid = true →
  calm env →
  fst (StudyService.enforceLimit cfg env uid cap w) = Ok tt.
Proof.
  unfold StudyService.enforceLimit, getHistory. intros -> Hcalm.
  rewrite Hcalm.
  destruct (_ <? _)%Z; [|done].
  destruct (deleteEach_accepted env uid
              (js_slice_from (orderByCreatedAtDesc (collection (db w) uid)) cap)
              (db w)) as [Hr _].
  { apply Forall_forall. intros d _. apply Hcalm. }
  by destruct (deleteEach env uid _ (db w)).
Qed.

(** Locally the call always resolves; over the cap it stores the first
    [cap] of the list sorted newest first, otherwise it stores nothing. *)
Lemma enforceLimit_local w :
  StudyService.remoteUsable cfg uid = false →
  fst (StudyService.enforceLimit cfg env uid cap w) = Ok tt
  ∧ readStudies (localStorage (snd (StudyService.enforceLimit cfg env uid cap w)))
    = (if (cap <? Z.of_nat (length (readStudies (localStorage w))))%Z
       then take (Z.to_nat cap)
              (js_sort byCreatedAtDesc (readStudies (localStorage w)))
       else readStudies (localStorage w))
  ∧ db (snd (StudyService.enforceLimit cfg env uid cap w)) = db w.
Proof.
  unfold StudyService.enforceLimit. intros ->.
  destruct (_ <? _)%Z; [|done]. simpl.
  by rewrite readStudies_writeStudies, js_slice_prefix.
Qed.

(** After a call that resolved, the identity is at or under the cap. *)
Lemma enforceLimit_caps w :
  fst (StudyService.enforceLimit cfg env uid cap w) = Ok tt →
  (Z.of_nat (storedCount cfg uid (snd (StudyService.enforceLimit cfg env uid cap w)))
   <= cap)%Z.
Proof.
  intros Hr. unfold storedCount.
  destruct (StudyService.remoteUsable cfg uid) eqn:Hroute.
  - destruct (enforceLimit_remote_resolved w Hroute Hr) as [-> _].
    pose proof (retained_length (collection (db w) uid)
                  (orderByCreatedAtDesc (collection (db w) uid))
                  (js_sort_perm _ _) (Z.to_nat cap)). lia.
  - destruct (enforceLimit_local w Hroute) as (_ & -> & _).
    destruct (Z.ltb_spec cap (Z.of_nat (length (readStudies (localStorage w)))));
      [|done].
    rewrite length_take. lia.
Qed.
End EnforceLimitFacts.

(** C3, as amended: [enforceLimit] is idempotent after a call that
    resolved, for a cap that is not negative.  After a call that resolved
    (every call does when no request is rejected, and every local call
    does), a second call with the same cap leaves the whole state as it
    is; and whenever the stored count is at or under the cap,
    [enforceLimit] changes nothing, for every cap. *)
Theorem enforceLimit_idempotent (cfg : bool) (env1 env2 : Env)
    (uid : string) (cap : Z) (w : World) :
  (0 <= cap)%Z →
  let r1 := StudyService.enforceLimit cfg env1 uid cap w in
  (calm env1 ∨ StudyService.remoteUsable cfg uid = false → fst r1 = Ok tt)
  ∧ (fst r1 = Ok tt →
     snd (StudyService.enforceLimit cfg env2 uid cap (snd r1)) = snd r1
     ∧ (fails env2 (GetHistory uid) = false →
        fst (StudyService.enforceLimit cfg env2 uid cap (snd r1)) = Ok tt))
  ∧ (∀ w0, (Z.of_nat (storedCount cfg uid w0) <= cap)%Z →
           snd (StudyService.enforceLimit cfg env2 uid cap w0) = w0
           ∧ (fails env2 (GetHistory uid) = false →
              fst (StudyService.enforceLimit cfg env2 uid cap w0) = Ok tt)).
Proof.
  intros Hcap. simpl. split_and!.
  - destruct (StudyService.remoteUsable cfg uid) eqn:Hroute.
    + intros [Hcalm|?]; [|done]. by apply enforceLimit_remote_calm.
    + intros _. by apply enforceLimit_local.
  - intros Hr. apply enforceLimit_under_cap. by apply enforceLimit_caps.
  - intros w0. apply enforceLimit_under_cap.
Qed.

Lemma enforceLimit_idempotent_witness :
  let w1 := snd (StudyService.enforceLimit true (Sample.env 300 "x1" 5)
                   "alice" 1 Sample.remoteWorld) in
  (0 <= 1)%Z
  ∧ doc_id <$> collection (db w1) "alice" = ["a2"]
  ∧ snd (StudyService.enforceLimit true Sample.bobDown "alice" 1 w1) = w1.
Proof.
  split; [lia|]. split; [reflexivity|].
  apply (proj1 (proj2 (enforceLimit_idempotent true (Sample.env 300 "x1" 5)
                         Sample.bobDown "alice" 1 Sample.remoteWorld
                         ltac:(lia)))).
  reflexivity.
Defined.

(** The cap is meant as a count.  With a negative cap, [slice(0, limit)]
    counts from the end of the list, so that every call drops records:
    here two calls with cap -1 empty a list of two. *)
Lemma enforceLimit_negative_cap :
  let once := snd (StudyService.enforceLimit false (Sample.env 300 "x1" 5)
                     "guest" (-1) Sample.twoLocal) in
  let twice := snd (StudyService.enforceLimit false (Sample.env 301 "x1" 5)
                      "guest" (-1) once) in
  id <$> readStudies (localStorage once) = [Some "local-200"]
  ∧ readStudies (localStorage twice) = [].
Proof. by vm_compute. Qed.

(** C3 as stated fails.  A first call one of whose deletes is rejected
    throws and leaves the history over the cap, so that the second call
    deletes: here the cap is 1, the delete of [a1] is rejected in the
    first call, and the second call removes [a1].  And with a negative
    cap every call drops a record: the second call with cap -1 removes
    what the first had left. *)
Lemma enforceLimit_second_call_deletes :
  let first := StudyService.enforceLimit true Scenario.a1Stuck "alice" 1
                 Sample.remoteWorld in
  let second := StudyService.enforceLimit true (Sample.env 301 "x1" 5)
                  "alice" 1 (snd first) in
  let once := snd (StudyService.enforceLimit false (Sample.env 300 "x1" 5)
                     "guest" (-1) Sample.twoLocal) in
  let twice := snd (StudyService.enforceLimit false (Sample.env 301 "x1" 5)
                      "guest" (-1) once) in
  fst first = Throw (FirestoreError (DeleteDoc "alice" "a1"))
  ∧ doc_id <$> collection (db (snd first)) "alice" = ["a1"; "a2"]
  ∧ fst second = Ok tt
  ∧ doc_id <$> collection (db (snd second)) "alice" = ["a2"]
  ∧ id <$> readStudies (localStorage once) = [Some "local-200"]
  ∧ readStudies (localStorage twice) = [].
Proof. by vm_compute. Qed.

(** * save followed by enforceLimit *)

Lemma byServerTime_createdAt (a b : HistoryDoc) :
  (∃ t, doc_createdAt a = ServerTime t) →
  (∃ t, doc_createdAt b = ServerTime t) →
  (byDocTimeDesc a b <= 0)%Z →
  (createdAt (fromDoc b) <= createdAt (fromDoc a))%Z.
Proof.
  intros [ta Ha] [tb Hb]. unfold byDocTimeDesc, fromDoc.
  cbn [createdAt]. rewrite Ha, Hb. cbn [timeRank millis].
  rewrite compareRank_nonpos. lia.
Qed.

Lemma StronglySorted_weaken {A} (R1 R2 : A → A → Prop) (l : list A) :
  (∀ a b, R1 a b → R2 a b) → StronglySorted R1 l → StronglySorted R2 l.
Proof.
  intros HR. induction 1 as [|x l Hl IH Hx]; constructor; [done|].
  eapply Forall_impl; [exact Hx|]. apply HR.
Qed.

Section MostRecent.
(** The first [n] of a newest-first listing of [all] are the [n] most
    recent of [all]. *)
Lemma take_newestFirst_mostRecent n (sorted all : list SavedStudy) :
  sorted ≡ₚ all → newestFirst sorted → mostRecentOf n all (take n sorted).
Proof.
  intros Hperm Hsorted. split.
  - by rewrite length_take, Hperm.
  - exists (drop n sorted). rewrite take_drop. split; [done|].
    intros k r Hk Hr. unfold newestFirst in Hsorted.
    rewrite <-(take_drop n sorted) in Hsorted.
    by apply (StronglySorted_app_1_elem_of _ _ _ k r Hsorted).
Qed.

Lemma all_mostRecent n (all : list SavedStudy) :
  (length all ≤ n)%nat → mostRecentOf n all all.
Proof.
  intros Hn. split; [lia|]. exists []. rewrite app_nil_r. split; [done|].
  intros k r _ Hr. by apply elem_of_nil in Hr.
Qed.

Lemma newestFirst_take n l : newestFirst l → newestFirst (take n l).
Proof.
  unfold newestFirst. intros Hl. rewrite <-(take_drop n l) in Hl.
  by apply StronglySorted_app_1_l in Hl.
Qed.

(** The local sort lists newest first. *)
Lemma js_sort_newestFirst (l : list SavedStudy) :
  newestFirst (js_sort byCreatedAtDesc l).
Proof.
  apply (StronglySorted_weaken (λ a b, (byCreatedAtDesc a b <= 0)%Z)).
  - intros x y. unfold byCreatedAtDesc. lia.
  - apply js_sort_sorted; eauto using byCreatedAtDesc_total, byCreatedAtDesc_trans.
Qed.

(** The history query lists newest first, the stored creation times
    being server timestamps. *)
Lemma orderByCreatedAtDesc_newestFirst (docs : list HistoryDoc) :
  Forall (λ d, ∃ t, doc_createdAt d = ServerTime t) docs →
  newestFirst (fromDoc <$> orderByCreatedAtDesc docs).
Proof.
  intros Htimes. unfold orderByCreatedAtDesc, newestFirst.
  assert (Forall (λ d, ∃ t, doc_createdAt d = ServerTime t)
            (js_sort byDocTimeDesc docs)) as Hsorted
    by by rewrite js_sort_perm.
  pose proof (js_sort_sorted byDocTimeDesc byDocTimeDesc_total
                byDocTimeDesc_trans docs) as Hord.
  induction Hord as [|d rest Hrest IH Hd]; [constructor|].
  apply Forall_cons in Hsorted as [Hserver Hsorted].
  rewrite fmap_cons. constructor; [by apply IH|].
  apply Forall_fmap, Forall_forall. intros x Hx. simpl.
  apply byServerTime_createdAt; [done| |].
  - by apply (proj1 (Forall_forall _ _) Hsorted).
  - by apply (proj1 (Forall_forall _ _) Hd).
Qed.
End MostRecent.

(** C1, as amended: after [save] and then [enforceLimit] with a cap [N]
    that is not negative, the identity holds at most [N] studies, and
    they are
    the [N] most recent by creation time of the studies held after
    [save]: there are [N] of them (or all, when fewer are held), and
    no study that was dropped has a [createdAt] above that of a study
    that was kept.  Remotely the kept studies are the first [N] of the
    newest-first history; locally they are the first [N] of the list
    sorted by [createdAt] descending - that very list whenever the cut
    removed something, and the stored list in its own order otherwise.
    Remotely this is for requests that are not rejected and document ids
    that are distinct, and creation times are compared for documents
    with server timestamps, as [save] writes them. *)
Theorem save_then_enforceLimit (cfg : bool) (envSave envLimit envRead : Env)
    (uid : string) (cap : Z) (s : SavedStudy) (w : World) :
  (0 <= cap)%Z →
  (StudyService.remoteUsable cfg uid = true →
   calm envSave ∧ calm envLimit ∧ calm envRead
   ∧ NoDup (doc_id <$> collection (db w) uid)
   ∧ autoId envSave ∉ doc_id <$> collection (db w) uid) →
  let r1 := StudyService.save cfg envSave uid s w in
  let r2 := StudyService.enforceLimit cfg envLimit uid cap (snd r1) in
  let held := StudyService.getAll cfg envRead uid (snd r1) in
  let kept := StudyService.getAll cfg envRead uid (snd r2) in
  (∃ i, fst r1 = Ok i)
  ∧ fst r2 = Ok tt
  ∧ (Z.of_nat (length kept) <= cap)%Z
  ∧ (Z.of_nat (storedCount cfg uid (snd r2)) <= cap)%Z
  ∧ ((StudyService.remoteUsable cfg uid = true →
      Forall (λ d, ∃ t, doc_createdAt d = ServerTime t) (collection (db w) uid)) →
     mostRecentOf (Z.to_nat cap) held kept
     ∧ (StudyService.remoteUsable cfg uid = true
        ∨ (cap < Z.of_nat (length held))%Z → newestFirst kept))
  ∧ (StudyService.remoteUsable cfg uid = true →
     kept = take (Z.to_nat cap) held)
  ∧ (StudyService.remoteUsable cfg uid = false →
     kept ≡ₚ take (Z.to_nat cap) (js_sort byCreatedAtDesc held)
     ∧ ((cap < Z.of_nat (length held))%Z →
        kept = take (Z.to_nat cap) (js_sort byCreatedAtDesc held))
     ∧ ((Z.of_nat (length held) <= cap)%Z → kept = held)).
Proof.
  intros Hcap Hremote. cbv zeta.
  destruct (StudyService.remoteUsable cfg uid) eqn:Hroute.
  - destruct (Hremote eq_refl) as (Hsave & Hlimit & Hread & Hids & Hfresh).
    clear Hremote.
    set (r1 := StudyService.save cfg envSave uid s w).
    set (r2 := StudyService.enforceLimit cfg envLimit uid cap (snd r1)).
    assert (fst r1 = Ok (autoId envSave)
            ∧ NoDup (doc_id <$> collection (db (snd r1)) uid)
            ∧ collection (db (snd r1)) uid
              = collection (db w) uid
                ++ [{| doc_id := autoId envSave; doc_fields := s;
                       doc_createdAt := ServerTime (serverTimestamp envSave) |}])
      as (Hr1 & Hids1 & Hdocs1).
    { unfold r1, StudyService.save, addDoc. rewrite Hroute, Hsave.
      cbn [fst snd db setDb]. rewrite collection_setCollection.
      split_and!; [done| |done]. rewrite fmap_app.
      apply NoDup_app. split_and!; [done| |apply NoDup_singleton].
      intros x Hx Hx'. apply list_elem_of_singleton in Hx'. by subst x. }
    assert (fst r2 = Ok tt) as Hr2 by by apply enforceLimit_remote_calm.
    destruct (enforceLimit_remote_resolved cfg envLimit uid cap Hcap (snd r1)
                Hroute Hr2) as [Hc2 _]. fold r2 in Hc2.
    assert (StudyService.getAll cfg envRead uid (snd r1)
            = fromDoc <$> orderByCreatedAtDesc (collection (db (snd r1)) uid))
      as Hheld.
    { unfold StudyService.getAll, getHistory. by rewrite Hroute, Hread. }
    assert (StudyService.getAll cfg envRead uid (snd r2)
            = take (Z.to_nat cap) (StudyService.getAll cfg envRead uid (snd r1)))
      as Hkept.
    { rewrite Hheld. unfold StudyService.getAll, getHistory.
      rewrite Hroute, Hread, Hc2. unfold orderByCreatedAtDesc.
      rewrite js_sort_filter
        by eauto using byDocTimeDesc_total, byDocTimeDesc_trans.
      rewrite (retained_exactly (collection (db (snd r1)) uid))
        by (done || apply js_sort_perm).
      apply fmap_take. }
    split_and!; [by eexists|done| | | |done|done].
    + rewrite Hkept, length_take. lia.
    + by apply enforceLimit_caps.
    + intros Htimes. specialize (Htimes eq_refl).
      assert (newestFirst (StudyService.getAll cfg envRead uid (snd r1)))
        as Hnewest.
      { rewrite Hheld. apply orderByCreatedAtDesc_newestFirst.
        rewrite Hdocs1. apply Forall_app. split; [done|].
        constructor; [by eexists|constructor]. }
      rewrite Hkept. split.
      * by apply take_newestFirst_mostRecent.
      * intros _. by apply newestFirst_take.
  - clear Hremote.
    set (r1 := StudyService.save cfg envSave uid s w).
    set (r2 := StudyService.enforceLimit cfg envLimit uid cap (snd r1)).
    destruct (enforceLimit_local cfg envLimit uid cap Hcap (snd r1) Hroute)
      as (Hr2 & Hl2 & _). fold r2 in Hr2, Hl2.
    assert (∀ w0, StudyService.getAll cfg envRead uid w0
                  = readStudies (localStorage w0)) as Hlocal.
    { intros w0. unfold StudyService.getAll. by rewrite Hroute. }
    rewrite !Hlocal. unfold storedCount. rewrite Hroute, Hl2.
    set (l1 := readStudies (localStorage (snd r1))).
    destruct (Z.ltb_spec cap (Z.of_nat (length l1))) as [Hover|Hunder].
    + split_and!.
      * unfold r1, StudyService.save. rewrite Hroute. by eexists.
      * done.
      * rewrite length_take. lia.
      * rewrite length_take. lia.
      * intros _. split.
        -- apply take_newestFirst_mostRecent;
             [apply js_sort_perm|apply js_sort_newestFirst].
        -- intros _. apply newestFirst_take, js_sort_newestFirst.
      * done.
      * intros _. split_and!; [done|done|lia].
    + split_and!.
      * unfold r1, StudyService.save. rewrite Hroute. by eexists.
      * done.
      * lia.
      * lia.
      * intros _. split.
        -- apply all_mostRecent. lia.
        -- intros [?|?]; [done|lia].
      * done.
      * intros _. split_and!; [|lia|done].
        rewrite take_ge by (rewrite js_sort_length; lia).
        by rewrite js_sort_perm.
Qed.

Lemma save_then_enforceLimit_witness :
  (0 <= 2)%Z
  ∧ id <$> StudyService.getAll false (Sample.env 302 "x1" 5) "guest"
      (snd (StudyService.enforceLimit false (Sample.env 301 "x1" 5) "guest" 2
              (snd (StudyService.save false (Sample.env 300 "x1" 5) "guest"
                      (Sample.studyAt "Genesis 1" 300) Sample.twoLocal))))
    = [Some "local-300"; Some "local-200"]
  ∧ id <$> StudyService.getAll true (Sample.env 302 "x3" 5) "alice"
      (snd (StudyService.enforceLimit true (Sample.env 301 "x2" 5) "alice" 2
              (snd (StudyService.save true (Sample.env 300 "x1" 1700001000)
                      "alice" (Sample.studyAt "Genesis 1" 300)
                      Sample.remoteWorld))))
    = [Some "x1"; Some "a2"]
  ∧ mostRecentOf 2
      (StudyService.getAll false (Sample.env 302 "x1" 5) "guest"
         (snd (StudyService.save false (Sample.env 300 "x1" 5) "guest"
                 (Sample.studyAt "Genesis 1" 300) Sample.twoLocal)))
      (StudyService.getAll false (Sample.env 302 "x1" 5) "guest"
         (snd (StudyService.enforceLimit false (Sample.env 301 "x1" 5) "guest" 2
                 (snd (StudyService.save false (Sample.env 300 "x1" 5) "guest"
                         (Sample.studyAt "Genesis 1" 300) Sample.twoLocal))))).
Proof.
  split; [lia|].
  destruct (save_then_enforceLimit false (Sample.env 300 "x1" 5)
              (Sample.env 301 "x1" 5) (Sample.env 302 "x1" 5) "guest" 2
              (Sample.studyAt "Genesis 1" 300) Sample.twoLocal
              ltac:(lia) ltac:(discriminate))
    as (_ & _ & _ & _ & Hrecent & _ & Hlocal).
  destruct (save_then_enforceLimit true (Sample.env 300 "x1" 1700001000)
              (Sample.env 301 "x2" 5) (Sample.env 302 "x3" 5) "alice" 2
              (Sample.studyAt "Genesis 1" 300) Sample.remoteWorld
              ltac:(lia)) as (_ & _ & _ & _ & _ & Hremote & _).
  { intros _. split_and!; try (intros r; reflexivity).
    - apply (bool_decide_unpack _). vm_compute. reflexivity.
    - apply (bool_decide_unpack _). vm_compute. reflexivity. }
  split_and!.
  - destruct (Hlocal eq_refl) as (_ & Hcut & _).
    rewrite Hcut; [reflexivity|]. vm_compute. reflexivity.
  - rewrite (Hremote eq_refl). reflexivity.
  - apply Hrecent. discriminate.
Defined.

(** C1 as stated fails.  Remotely, when a delete of [enforceLimit] is
    rejected, the call throws and the history stays over the cap, and
    what stays is not the newest: here the cap is 1, the delete of the
    oldest document [a1] is rejected, and [a1] stays with the new
    document.  And no list has at most -1 records: with the cap -1 two
    of three local records stay. *)
Lemma save_then_enforceLimit_over_cap :
  let saved := StudyService.save true (Sample.env 300 "x1" 1700001000) "alice"
                 (Sample.studyAt "Genesis 1" 300) Sample.remoteWorld in
  let trimmed := StudyService.enforceLimit true Scenario.a1Stuck "alice" 1
                   (snd saved) in
  let local := StudyService.enforceLimit false (Sample.env 301 "x1" 5) "guest" (-1)
                 (snd (StudyService.save false (Sample.env 300 "x1" 5) "guest"
                         (Sample.studyAt "Genesis 1" 300) Sample.twoLocal)) in
  fst saved = Ok "x1"
  ∧ fst trimmed = Throw (FirestoreError (DeleteDoc "alice" "a1"))
  ∧ doc_id <$> collection (db (snd trimmed)) "alice" = ["a1"; "x1"]
  ∧ storedCount true "alice" (snd trimmed) = 2
  ∧ fst local = Ok tt
  ∧ storedCount false "guest" (snd local) = 2.
Proof. by vm_compute. Qed.

(** The create-then-trim cycle of [handleAnalyze]: when a signed-in
    user's run ends without the failure message, that user holds at most
    ten studies. *)
Lemma handleAnalyze_keeps_cap cfg parse gen u ref tr envNow envSave envLimit ui w :
  u ≠ "" →
  Gemini.trim ref ≠ "" →
  let r := Landing.handleAnalyze cfg parse gen (Some u) ref tr
             envNow envSave envLimit ui w in
  error (fst r) ≠ Landing.generationFailed →
  (Z.of_nat (storedCount cfg u (snd r)) <= 10)%Z.
Proof.
  intros Hu Href. unfold Landing.handleAnalyze.
  assert (orElse (Some u) "guest" = u) as -> by by destruct u.
  destruct (String.eqb_spec (Gemini.trim ref) ""); [done|]. simpl.
  destruct (Gemini.generateStudy parse gen ref tr w) as [[a|e] w1]; [|done].
  destruct (StudyService.save cfg envSave u _ w1) as [[i|e] w2]; [|done].
  destruct (StudyService.enforceLimit cfg envLimit u 10 w2) as [[[]|e] w4] eqn:Hlimit;
    simpl; [|done].
  intros _.
  pose proof (enforceLimit_caps cfg envLimit u 10 ltac:(lia) w2) as Hcap.
  rewrite Hlimit in Hcap. by apply Hcap.
Qed.

(** * Further properties of the code *)

Lemma filter_ext_elem {A} (P Q : A → Prop)
    `{!∀ a, Decision (P a), !∀ a, Decision (Q a)} (l : list A) :
  (∀ x, x ∈ l → P x ↔ Q x) → filter P l = filter Q l.
Proof.
  induction l as [|x l IH]; intros HPQ; [done|].
  rewrite !filter_cons, IH by (intros y Hy; apply HPQ; by right).
  destruct (decide (P x)) as [HP|HP], (decide (Q x)) as [HQ|HQ]; try done.
  - by apply (HPQ x) in HP; [|left].
  - by apply (HPQ x) in HQ; [|left].
Qed.

(** ** clearAll *)

Section ClearFacts.
Variables (env : Env) (uid : string).

Lemma deleteEach_cons_rejected_state d rest fs :
  fails env (DeleteDoc uid (doc_id d)) = true →
  snd (deleteEach env uid (d :: rest) fs) = snd (deleteEach env uid rest fs).
Proof.
  intros Hd. simpl. unfold deleteDoc. rewrite Hd.
  by destruct (deleteEach env uid rest fs).
Qed.

(** Whatever is rejected, [deleteEach] removes the documents whose delete
    was accepted and leaves every other document, the other users'
    collections and the user profiles as they were. *)
Lemma deleteEach_outcome toDelete fs :
  collection (snd (deleteEach env uid toDelete fs)) uid
  = filter (λ d, doc_id d ∉ doc_id <$>
                   filter (λ x, fails env (DeleteDoc uid (doc_id x)) = false)
                     toDelete)
      (collection fs uid)
  ∧ (∀ other, other ≠ uid →
       collection (snd (deleteEach env uid toDelete fs)) other
       = collection fs other)
  ∧ users (snd (deleteEach env uid toDelete fs)) = users fs.
Proof.
  revert fs. induction toDelete as [|d rest IH]; intros fs.
  - simpl. split_and!; try done. symmetry. apply filter_keeps_all.
    apply Forall_forall. intros x _. apply not_elem_of_nil.
  - destruct (fails env (DeleteDoc uid (doc_id d))) eqn:Hd.
    + rewrite deleteEach_cons_rejected_state by done.
      rewrite filter_cons_False by by rewrite Hd. apply IH.
    + rewrite deleteEach_cons_accepted by done.
      rewrite filter_cons_True by done.
      destruct (IH (setCollection uid
                      (filter (λ x, doc_id x ≠ doc_id d) (collection fs uid)) fs))
        as (Hc & Hother & Husers).
      split_and!.
      * rewrite Hc, collection_setCollection, list_filter_filter.
        apply list_filter_iff. intros x.
        rewrite fmap_cons, not_elem_of_cons. tauto.
      * intros other Hne. rewrite Hother by done.
        by apply collection_setCollection_ne.
      * by rewrite Husers.
Qed.
End ClearFacts.

(** X1: [clearAll] followed by [getAll] yields the empty list.  Locally
    this always holds; remotely it holds when no request of [clearAll] is
    rejected and the query of [getAll] is not. *)
Theorem clearAll_then_getAll (cfg : bool) (envClear envRead : Env)
    (uid : string) (w : World) :
  (StudyService.remoteUsable cfg uid = true →
   calm envClear ∧ fails envRead (GetHistory uid) = false) →
  fst (clearAll cfg envClear uid w) = Ok tt
  ∧ StudyService.getAll cfg envRead uid (snd (clearAll cfg envClear uid w)) = []
  ∧ storedCount cfg uid (snd (clearAll cfg envClear uid w)) = 0.
Proof.
  intros Hremote. unfold clearAll, StudyService.getAll, storedCount.
  destruct (StudyService.remoteUsable cfg uid) eqn:Hroute; [|done].
  destruct (Hremote eq_refl) as [Hcalm Hread].
  unfold getHistoryUnordered, getHistory. rewrite Hcalm.
  destruct (deleteEach_accepted envClear uid (collection (db w) uid) (db w))
    as [Hr Hc].
  { apply Forall_forall. intros d _. apply Hcalm. }
  destruct (deleteEach envClear uid (collection (db w) uid) (db w))
    as [r fs]. simpl in *. rewrite Hread, Hc.
  rewrite filter_drops_all; [done|].
  apply Forall_forall. intros d Hd Hnot. apply Hnot.
  by apply list_elem_of_fmap_2.
Qed.

Lemma clearAll_then_getAll_witness :
  StudyService.getAll true (Sample.env 302 "x1" 5) "alice"
    (snd (clearAll true (Sample.env 301 "x1" 5) "alice" Sample.remoteWorld)) = []
  ∧ StudyService.getAll false Scenario.offline "guest"
      (snd (clearAll false Scenario.offline "guest" Sample.twoLocal)) = [].
Proof.
  split.
  - apply (clearAll_then_getAll true (Sample.env 301 "x1" 5)
             (Sample.env 302 "x1" 5) "alice" Sample.remoteWorld).
    intros _. split; [intros r; reflexivity|reflexivity].
  - apply (clearAll_then_getAll false Scenario.offline Scenario.offline
             "guest" Sample.twoLocal).
    discriminate.
Defined.

(** X2: a remote [clearAll] whose history read is accepted removes
    exactly the documents whose delete is accepted: the documents whose
    delete is rejected stay, in order; it rejects exactly when some
    delete is rejected; and it touches neither the other users'
    histories, nor the profiles, nor the browser's storage. *)
Theorem clearAll_remote_outcome (cfg : bool) (env : Env) (uid : string)
    (w : World) :
  StudyService.remoteUsable cfg uid = true →
  fails env (GetHistory uid) = false →
  let w' := snd (clearAll cfg env uid w) in
  collection (db w') uid
  = filter (λ d, fails env (DeleteDoc uid (doc_id d)) = true)
      (collection (db w) uid)
  ∧ (fst (clearAll cfg env uid w) = Ok tt
     ↔ Forall (λ d, fails env (DeleteDoc uid (doc_id d)) = false)
         (collection (db w) uid))
  ∧ (∀ other, other ≠ uid → collection (db w') other = collection (db w) other)
  ∧ users (db w') = users (db w)
  ∧ localStorage w' = localStorage w.
Proof.
  intros Hroute Hread. unfold clearAll, getHistoryUnordered.
  rewrite Hroute, Hread.
  pose proof (deleteEach_outcome env uid (collection (db w) uid) (db w))
    as (Hc & Hother & Husers).
  pose proof (deleteEach_resolved env uid (collection (db w) uid) (db w))
    as Hresolved.
  pose proof (deleteEach_accepted env uid (collection (db w) uid) (db w))
    as Haccepted.
  destruct (deleteEach env uid (collection (db w) uid) (db w)) as [r fs].
  simpl in *. split_and!; try done.
  - rewrite Hc. apply filter_ext_elem. intros d Hd. split.
    + intros Hnot. destruct (fails env (DeleteDoc uid (doc_id d))) eqn:Hfail;
        [done|].
      exfalso. apply Hnot, list_elem_of_fmap_2.
      by apply list_elem_of_filter.
    + intros Hfail Hin. apply list_elem_of_fmap in Hin as (x & Hx & Hin).
      apply list_elem_of_filter in Hin as [Hok _]. congruence.
  - split; [done|]. intros Hall. by apply Haccepted.
Qed.


Lemma clearAll_remote_outcome_witness :
  doc_id <$> collection (db (snd (clearAll true Scenario.a1Stuck "alice"
                                    Sample.remoteWorld))) "alice" = ["a1"]
  ∧ doc_id <$> collection (db (snd (clearAll true Scenario.a1Stuck "alice"
                                      Sample.remoteWorld))) "bob" = ["b1"].
Proof.
  destruct (clearAll_remote_outcome true Scenario.a1Stuck "alice"
              Sample.remoteWorld eq_refl eq_refl) as (Hc & _ & Hother & _).
  split.
  - rewrite Hc. reflexivity.
  - rewrite Hother; [reflexivity|discriminate].
Defined.

(** ** Remote save *)

(** X3: a remote [save] whose write is accepted adds exactly one document,
    with the returned id, the fields of the study and the server's
    timestamp, after the documents already there; the other users'
    histories, the profiles and the browser's storage are untouched.  A
    rejected write is thrown to the caller and leaves everything as it
    was. *)
Theorem save_remote_frame (cfg : bool) (env : Env) (uid : string)
    (s : SavedStudy) (w : World) :
  StudyService.remoteUsable cfg uid = true →
  let r := StudyService.save cfg env uid s w in
  (fails env (AddDoc uid) = false →
   fst r = Ok (autoId env)
   ∧ collection (db (snd r)) uid
     = collection (db w) uid
       ++ [{| doc_id := autoId env; doc_fields := s;
              doc_createdAt := ServerTime (serverTimestamp env) |}]
   ∧ (∀ other, other ≠ uid →
        collection (db (snd r)) other = collection (db w) other))
  ∧ (fails env (AddDoc uid) = true →
     fst r = Throw (FirestoreError (AddDoc uid)) ∧ db (snd r) = db w)
  ∧ users (db (snd r)) = users (db w)
  ∧ localStorage (snd r) = localStorage w.
Proof.
  intros Hroute. unfold StudyService.save, addDoc. rewrite Hroute.
  destruct (fails env (AddDoc uid)); simpl; split_and!; try done.
  intros _. split_and!; [done|apply collection_setCollection|].
  intros other Hne. by apply collection_setCollection_ne.
Qed.

Lemma save_remote_frame_witness :
  doc_id <$> collection (db (snd (StudyService.save true
                 (Sample.env 300 "x1" 1700001000) "alice"
                 (Sample.studyAt "Genesis 1" 300) Sample.remoteWorld))) "alice"
  = ["a1"; "a2"; "x1"]
  ∧ db (snd (StudyService.save true Scenario.offline "alice"
               (Sample.studyAt "Genesis 1" 300) Sample.remoteWorld))
    = db Sample.remoteWorld.
Proof.
  destruct (save_remote_frame true (Sample.env 300 "x1" 1700001000) "alice"
              (Sample.studyAt "Genesis 1" 300) Sample.remoteWorld eq_refl)
    as (Hok & _).
  destruct (save_remote_frame true Scenario.offline "alice"
              (Sample.studyAt "Genesis 1" 300) Sample.remoteWorld eq_refl)
    as (_ & Hrejected & _).
  split.
  - destruct (Hok eq_refl) as (_ & -> & _). reflexivity.
  - by destruct (Hrejected eq_refl).
Defined.

(** ** Ids with the local prefix *)

Section LocalRouting.
Variable cfg : bool.

Lemma routesRemote_local_id uid i :
  String.prefix "local-" i = true → StudyService.routesRemote cfg uid i = false.
Proof.
  intros Hi. unfold StudyService.routesRemote. rewrite Hi. simpl.
  by rewrite andb_false_r.
Qed.

Lemma localIdsTagged_enforceLimit env uid cap w :
  (0 <= cap)%Z →
  localIdsTagged (localStorage w) →
  localIdsTagged
    (localStorage (snd (StudyService.enforceLimit cfg env uid cap w))).
Proof.
  intros Hcap Hw. destruct (StudyService.remoteUsable cfg uid) eqn:Hroute.
  - unfold StudyService.enforceLimit, getHistory. rewrite Hroute.
    destruct (fails env (GetHistory uid)); [done|].
    destruct (_ <? _)%Z; [|done].
    by destruct (deleteEach env uid _ (db w)).
  - unfold localIdsTagged.
    destruct (enforceLimit_local cfg env uid cap Hcap w Hroute) as (_ & -> & _).
    destruct (_ <? _)%Z; [|done].
    apply Forall_take. unfold localIdsTagged in Hw.
    by rewrite js_sort_perm.
Qed.

Lemma localIdsTagged_clearAll env uid w :
  localIdsTagged (localStorage w) →
  localIdsTagged (localStorage (snd (clearAll cfg env uid w))).
Proof.
  intros Hw. unfold clearAll, getHistoryUnordered.
  destruct (StudyService.remoteUsable cfg uid); [|constructor].
  destruct (fails env (GetHistory uid)); [done|].
  by destruct (deleteEach env uid _ (db w)).
Qed.
End LocalRouting.

(** X4: every id stored in the browser carries the local prefix.  This
    holds of an empty storage and is kept by [save], [remove],
    [enforceLimit] (with a cap that is not negative), [clearAll] and by
    [update] with a patch that does not set the id - as the one patch of
    the program, the notes, does not. *)
Theorem localIdsTagged_invariant (cfg : bool) (env : Env) (uid i : string)
    (s : SavedStudy) (data : PartialStudy) (cap : Z) (w : World) :
  localIdsTagged Sample.emptyStorage
  ∧ (localIdsTagged (localStorage w) →
     localIdsTagged (localStorage (snd (StudyService.save cfg env uid s w)))
     ∧ localIdsTagged (localStorage (snd (StudyService.remove cfg env uid i w)))
     ∧ localIdsTagged (localStorage (snd (clearAll cfg env uid w)))
     ∧ ((0 <= cap)%Z →
        localIdsTagged
          (localStorage (snd (StudyService.enforceLimit cfg env uid cap w))))
     ∧ (p_id data = None →
        localIdsTagged
          (localStorage (snd (StudyService.update cfg env uid i data w))))).
Proof.
  split; [apply localIdsTagged_fresh|]. intros Hw. split_and!.
  - by apply localIdsTagged_save.
  - by apply localIdsTagged_remove.
  - by apply localIdsTagged_clearAll.
  - intros Hcap. by apply localIdsTagged_enforceLimit.
  - intros Hdata. by apply localIdsTagged_update.
Qed.

Lemma localIdsTagged_invariant_witness :
  localIdsTagged
    (localStorage (snd (StudyService.save false (Sample.env 300 "x1" 5) "guest"
                          (Sample.studyAt "Genesis 1" 300) Sample.twoLocal))).
Proof.
  apply (localIdsTagged_invariant false (Sample.env 300 "x1" 5) "guest"
           "local-100" (Sample.studyAt "Genesis 1" 300)
           (StudyDetail.notesOnly "") 2 Sample.twoLocal).
  repeat constructor; by intros j [= <-].
Defined.

(** X5: an id with the local prefix is served from the browser whoever
    asks: for a signed-in user of a configured application too, [remove]
    and [update] resolve without touching Firestore, [getById] answers
    as it does for a guest without reading Firestore, and the id [save]
    mints locally is such an id. *)
Theorem local_ids_route_locally (cfg : bool) (env : Env) (uid i : string)
    (data : PartialStudy) (w : World) :
  String.prefix "local-" i = true →
  fst (StudyService.remove cfg env uid i w) = Ok tt
  ∧ db (snd (StudyService.remove cfg env uid i w)) = db w
  ∧ fst (StudyService.update cfg env uid i data w) = Ok tt
  ∧ db (snd (StudyService.update cfg env uid i data w)) = db w
  ∧ StudyService.getById cfg env uid i w
    = snd <$> list_find (λ s, id s = Some i) (readStudies (localStorage w))
  ∧ (∀ s, StudyService.remoteUsable cfg uid = false →
          ∃ j, fst (StudyService.save cfg env uid s w) = Ok j
               ∧ String.prefix "local-" j = true).
Proof.
  intros Hi.
  unfold StudyService.remove, StudyService.update, StudyService.getById.
  rewrite (routesRemote_local_id cfg uid i Hi). split_and!; try done.
  - by destruct (list_find _ _) as [[k s]|].
  - by destruct (list_find _ _) as [[k s]|].
  - intros s Hroute. unfold StudyService.save. rewrite Hroute.
    eexists. split; [done|]. apply prefix_append.
Qed.

Lemma local_ids_route_locally_witness :
  db (snd (StudyService.remove true Scenario.offline "alice" "local-100"
             {| localStorage := localStorage Sample.twoLocal;
                db := Sample.twoUsers; aiCalls := [] |}))
  = Sample.twoUsers.
Proof.
  apply (local_ids_route_locally true Scenario.offline "alice" "local-100"
           (StudyDetail.notesOnly "")
           {| localStorage := localStorage Sample.twoLocal;
              db := Sample.twoUsers; aiCalls := [] |}).
  reflexivity.
Defined.

(** ** What enforceLimit leaves alone *)

Lemma NoDup_fmap_elem_inj {A B} (f : A → B) (l : list A) x y :
  NoDup (f <$> l) → x ∈ l → y ∈ l → f x = f y → x = y.
Proof.
  induction l as [|z l IH]; intros Hl Hx Hy Hxy; [by apply elem_of_nil in Hx|].
  rewrite fmap_cons in Hl. apply NoDup_cons in Hl as [Hz Hl].
  apply elem_of_cons in Hx as [->|Hx]; apply elem_of_cons in Hy as [->|Hy].
  - done.
  - exfalso. apply Hz. rewrite Hxy. by apply list_elem_of_fmap_2.
  - exfalso. apply Hz. rewrite <-Hxy. by apply list_elem_of_fmap_2.
  - by apply IH.
Qed.

(** X6: [enforceLimit] only removes, and only what is old: whatever
    requests are rejected, the documents left in a user's history are
    documents that were there, in their order; each of the newest [cap]
    documents (ids being distinct) is still there; and a document is
    gone only if at least [cap] of the documents left were created no
    earlier than it (creation times being server timestamps).  Locally
    the records left are records that were stored, each of the newest
    [cap] is among them, and a record is gone only if at least [cap] of
    the records left have a [createdAt] that is not below its own.  The
    backend the identity does not use is not touched. *)
Theorem enforceLimit_only_trims (cfg : bool) (env : Env) (uid : string)
    (cap : Z) (w : World) :
  (0 <= cap)%Z →
  let w' := snd (StudyService.enforceLimit cfg env uid cap w) in
  (StudyService.remoteUsable cfg uid = true →
   collection (db w') uid `sublist_of` collection (db w) uid
   ∧ (NoDup (doc_id <$> collection (db w) uid) →
      ∀ d, d ∈ take (Z.to_nat cap) (orderByCreatedAtDesc (collection (db w) uid)) →
           d ∈ collection (db w') uid)
   ∧ (NoDup (doc_id <$> collection (db w) uid) →
      Forall (λ d, ∃ t, doc_createdAt d = ServerTime t) (collection (db w) uid) →
      ∀ d, d ∈ collection (db w) uid → d ∉ collection (db w') uid →
           (Z.to_nat cap
            ≤ length (filter (λ k, (createdAt (fromDoc d) <= createdAt (fromDoc k))%Z)
                        (collection (db w') uid)))%nat)
   ∧ localStorage w' = localStorage w)
  ∧ (StudyService.remoteUsable cfg uid = false →
     readStudies (localStorage w') ⊆+ readStudies (localStorage w)
     ∧ (∀ s, s ∈ take (Z.to_nat cap)
                   (js_sort byCreatedAtDesc (readStudies (localStorage w))) →
             s ∈ readStudies (localStorage w'))
     ∧ (∀ s, s ∈ readStudies (localStorage w) →
             s ∉ readStudies (localStorage w') →
             (Z.to_nat cap
              ≤ length (filter (λ k, (createdAt s <= createdAt k)%Z)
                          (readStudies (localStorage w'))))%nat)
     ∧ db w' = db w).
Proof.
  intros Hcap. simpl. split.
  - intros Hroute. unfold StudyService.enforceLimit, getHistory.
    rewrite Hroute.
    assert (∀ d, d ∈ take (Z.to_nat cap)
                       (orderByCreatedAtDesc (collection (db w) uid)) →
                 d ∈ collection (db w) uid) as Hmember.
    { intros d Hd. apply subseteq_take in Hd.
      unfold orderByCreatedAtDesc in Hd. by rewrite js_sort_perm in Hd. }
    destruct (fails env (GetHistory uid)); [by split_and!|].
    pose proof (js_sort_sorted byDocTimeDesc byDocTimeDesc_total
                  byDocTimeDesc_trans (collection (db w) uid)) as Hord.
    fold (orderByCreatedAtDesc (collection (db w) uid)) in Hord.
    assert (orderByCreatedAtDesc (collection (db w) uid)
            ≡ₚ collection (db w) uid) as Hperm by apply js_sort_perm.
    set (docs := orderByCreatedAtDesc (collection (db w) uid)) in *.
    destruct (Z.ltb_spec cap (Z.of_nat (length docs))) as [Hover|Hunder];
      [|by split_and!].
    rewrite js_slice_from_suffix by done.
    pose proof (deleteEach_outcome env uid (drop (Z.to_nat cap) docs) (db w))
      as (Hc & _ & _).
    destruct (deleteEach env uid (drop (Z.to_nat cap) docs) (db w)) as [r fs].
    simpl in *. rewrite Hc.
    assert (NoDup (doc_id <$> collection (db w) uid) →
            ∀ d, d ∈ take (Z.to_nat cap) docs →
                 d ∈ filter
                       (λ d0, doc_id d0
                              ∉ doc_id <$>
                                filter
                                  (λ x, fails env (DeleteDoc uid (doc_id x)) = false)
                                  (drop (Z.to_nat cap) docs))
                       (collection (db w) uid)) as Hnewest.
    { intros Hids d Hd. apply list_elem_of_filter. split; [|by apply Hmember].
      intros Hgone. apply list_elem_of_fmap in Hgone as (x & Hx & Hin).
      apply list_elem_of_filter in Hin as [_ Hin].
      assert (NoDup (doc_id <$> docs)) as Hdocs by by rewrite Hperm.
      rewrite <-(take_drop (Z.to_nat cap) docs), fmap_app in Hdocs.
      apply NoDup_app in Hdocs as (_ & Hdisj & _).
      apply (Hdisj (doc_id d)); [by apply list_elem_of_fmap_2|].
      rewrite Hx. by apply list_elem_of_fmap_2. }
    split_and!; [apply sublist_filter|done| |done].
    intros Hids Htimes d Hd Hgone.
    assert (d ∈ drop (Z.to_nat cap) docs) as Hdropped.
    { destruct (decide (doc_id d ∈ doc_id <$>
                          filter (λ x, fails env (DeleteDoc uid (doc_id x)) = false)
                            (drop (Z.to_nat cap) docs))) as [Hin|Hnot].
      - apply list_elem_of_fmap in Hin as (x & Hx & Hin).
        apply list_elem_of_filter in Hin as [_ Hin].
        assert (x = d) as <-; [|done].
        apply (NoDup_fmap_elem_inj doc_id (collection (db w) uid)); try done.
        rewrite <-Hperm. by apply (subseteq_drop (Z.to_nat cap)).
      - exfalso. apply Hgone. by apply list_elem_of_filter. }
    assert (NoDup (take (Z.to_nat cap) docs)) as Hnodup.
    { eapply sublist_NoDup; [|apply sublist_take].
      rewrite Hperm. by apply (NoDup_fmap_1 doc_id). }
    etrans; [|apply submseteq_length,
               (NoDup_submseteq (take (Z.to_nat cap) docs)); [exact Hnodup|]].
    { rewrite length_take. lia. }
    intros k Hk. apply list_elem_of_filter. split; [|by apply Hnewest].
    rewrite <-(take_drop (Z.to_nat cap) docs) in Hord.
    apply byServerTime_createdAt.
    + apply (proj1 (Forall_forall _ _) Htimes). by apply Hmember.
    + by apply (proj1 (Forall_forall _ _) Htimes).
    + by apply (StronglySorted_app_1_elem_of _ _ _ k d Hord).
  - intros Hroute.
    destruct (enforceLimit_local cfg env uid cap Hcap w Hroute)
      as (_ & -> & ->).
    destruct (Z.ltb_spec cap (Z.of_nat (length (readStudies (localStorage w)))))
      as [Hover|Hunder].
    + split_and!; [| | |done].
      * etrans; [apply sublist_submseteq, sublist_take|].
        by rewrite js_sort_perm.
      * done.
      * intros s Hs Hgone.
        pose proof (js_sort_newestFirst (readStudies (localStorage w))) as Hord.
        set (sorted := js_sort byCreatedAtDesc (readStudies (localStorage w))) in *.
        assert (s ∈ drop (Z.to_nat cap) sorted) as Hdropped.
        { assert (s ∈ take (Z.to_nat cap) sorted ++ drop (Z.to_nat cap) sorted)
            as Hin by (rewrite take_drop; unfold sorted; by rewrite js_sort_perm).
          by apply elem_of_app in Hin as [?|?]. }
        rewrite filter_keeps_all.
        -- rewrite length_take. unfold sorted. rewrite js_sort_length. lia.
        -- apply Forall_forall. intros k Hk. unfold newestFirst in Hord.
           rewrite <-(take_drop (Z.to_nat cap) sorted) in Hord.
           by apply (StronglySorted_app_1_elem_of _ _ _ k s Hord).
    + split_and!; [done| |done|done].
      intros s Hs. apply subseteq_take in Hs. by rewrite js_sort_perm in Hs.
Qed.

Lemma enforceLimit_only_trims_witness :
  doc_id <$> collection (db (snd (StudyService.enforceLimit true Scenario.a1Stuck
                                    "alice" 0 Sample.remoteWorld))) "alice"
  = ["a1"]
  ∧ collection (db (snd (StudyService.enforceLimit true Scenario.a1Stuck
                           "alice" 0 Sample.remoteWorld))) "alice"
    `sublist_of` collection (db Sample.remoteWorld) "alice"
  ∧ id <$> readStudies (localStorage (snd (StudyService.enforceLimit false
                                             (Sample.env 300 "x1" 5) "guest" 1
                                             Sample.twoLocal)))
    = [Some "local-200"]
  ∧ (Z.to_nat 1
     ≤ length (filter (λ k, (createdAt (Sample.stored "local-100" "Isaiah 53" 100)
                             <= createdAt k)%Z)
                 (readStudies (localStorage (snd (StudyService.enforceLimit false
                                                    (Sample.env 300 "x1" 5)
                                                    "guest" 1 Sample.twoLocal))))))%nat.
Proof.
  split; [reflexivity|]. split.
  - apply (enforceLimit_only_trims true Scenario.a1Stuck "alice" 0
             Sample.remoteWorld); [lia|reflexivity].
  - split; [reflexivity|].
    destruct (proj2 (enforceLimit_only_trims false (Sample.env 300 "x1" 5)
                       "guest" 1 Sample.twoLocal ltac:(lia)) eq_refl)
      as (_ & _ & Hold & _).
    apply Hold.
    + left.
    + intros Hin. apply elem_of_cons in Hin as [Hin|Hin]; [discriminate Hin|].
      by apply elem_of_nil in Hin.
Defined.

(** ** Listing and opening *)

Section FindUnique.
Context {A B : Type} `{!EqDecision B} (f : A → B).

Lemma find_unique (l : list A) x :
  NoDup (f <$> l) → x ∈ l →
  snd <$> list_find (λ y, f y = f x) l = Some x.
Proof.
  induction l as [|y l IH]; intros Hl Hx; [by apply elem_of_nil in Hx|].
  rewrite fmap_cons in Hl. apply NoDup_cons in Hl as [Hy Hl].
  simpl. destruct (decide (f y = f x)) as [Hyx|Hyx].
  - apply elem_of_cons in Hx as [->|Hx]; [done|].
    exfalso. apply Hy. rewrite Hyx. by apply list_elem_of_fmap_2.
  - apply elem_of_cons in Hx as [->|Hx]; [done|].
    specialize (IH Hl Hx). destruct (list_find _ l) as [[k z]|]; [|done].
    simpl in *. done.
Qed.

Lemma find_replaced (P : A → Prop) `{!∀ a, Decision (P a)} (l : list A) k x y :
  list_find P l = Some (k, x) → P y →
  list_find P (<[k := y]> l) = Some (k, y).
Proof.
  revert k. induction l as [|z l IH]; intros k Hfind Hy; [done|].
  simpl in Hfind. destruct (decide (P z)) as [Hz|Hz].
  - injection Hfind as <- <-. simpl. by rewrite decide_True.
  - destruct (list_find P l) as [[k' x']|] eqn:Hl; [|done].
    simpl in Hfind. injection Hfind as <- <-. simpl.
    rewrite decide_False by done. by rewrite (IH k' eq_refl Hy).
Qed.
End FindUnique.

(** X7: a remote [getAll] whose query is accepted lists every document of
    the user's history exactly once, newest first: when the stored
    creation times are server timestamps, as [save] writes them, the
    [createdAt] of the listed studies never increases along the list.
    When the query is rejected, [getAll] answers with the browser's list
    instead of throwing. *)
Theorem getAll_remote_listing (cfg : bool) (env : Env) (uid : string)
    (w : World) :
  StudyService.remoteUsable cfg uid = true →
  (fails env (GetHistory uid) = false →
   StudyService.getAll cfg env uid w ≡ₚ fromDoc <$> collection (db w) uid
   ∧ (Forall (λ d, ∃ t, doc_createdAt d = ServerTime t) (collection (db w) uid) →
      StronglySorted (λ a b, (createdAt b <= createdAt a)%Z)
        (StudyService.getAll cfg env uid w)))
  ∧ (fails env (GetHistory uid) = true →
     StudyService.getAll cfg env uid w = readStudies (localStorage w)).
Proof.
  intros Hroute. unfold StudyService.getAll, getHistory. rewrite Hroute.
  destruct (fails env (GetHistory uid)); split; try done.
  intros _. unfold orderByCreatedAtDesc. split.
  - by rewrite js_sort_perm.
  - intros Htimes.
    assert (Forall (λ d, ∃ t, doc_createdAt d = ServerTime t)
              (js_sort byDocTimeDesc (collection (db w) uid))) as Hsorted
      by by rewrite js_sort_perm.
    pose proof (js_sort_sorted byDocTimeDesc byDocTimeDesc_total
                  byDocTimeDesc_trans (collection (db w) uid)) as Hord.
    induction Hord as [|d docs Hdocs IH Hd]; [constructor|].
    apply Forall_cons in Hsorted as [Hserver Hsorted].
    rewrite fmap_cons. constructor; [by apply IH|].
    apply Forall_fmap, Forall_forall. intros x Hx. simpl.
    apply byServerTime_createdAt; [done| |].
    + by apply (proj1 (Forall_forall _ _) Hsorted).
    + by apply (proj1 (Forall_forall _ _) Hd).
Qed.

Lemma getAll_remote_listing_witness :
  createdAt <$> StudyService.getAll true (Sample.env 300 "x1" 5) "alice"
                  Sample.remoteWorld
  = [1700000500000; 1700000000000]%Z
  ∧ StronglySorted (λ a b, (createdAt b <= createdAt a)%Z)
      (StudyService.getAll true (Sample.env 300 "x1" 5) "alice"
         Sample.remoteWorld)
  ∧ StudyService.getAll true Scenario.offline "alice"
      {| localStorage := localStorage Sample.twoLocal;
         db := Sample.twoUsers; aiCalls := [] |}
    = readStudies (localStorage Sample.twoLocal).
Proof.
  split; [reflexivity|]. split.
  - apply (getAll_remote_listing true (Sample.env 300 "x1" 5) "alice"
             Sample.remoteWorld eq_refl); [reflexivity|].
    repeat constructor; by eexists.
  - apply (getAll_remote_listing true Scenario.offline "alice"
             {| localStorage := localStorage Sample.twoLocal;
                db := Sample.twoUsers; aiCalls := [] |} eq_refl).
    reflexivity.
Defined.

(** X8: what is listed can be opened.  With distinct ids, [getById] with
    the id of a stored document (remotely, the read not being rejected)
    or of a stored record (locally) returns that very study. *)
Theorem getById_finds_stored (cfg : bool) (env : Env) (uid : string)
    (w : World) :
  (∀ d, d ∈ collection (db w) uid →
        NoDup (doc_id <$> collection (db w) uid) →
        StudyService.routesRemote cfg uid (doc_id d) = true →
        fails env (GetDoc uid (doc_id d)) = false →
        StudyService.getById cfg env uid (doc_id d) w = Some (fromDoc d))
  ∧ (∀ s i, s ∈ readStudies (localStorage w) →
            id s = Some i →
            NoDup (id <$> readStudies (localStorage w)) →
            StudyService.routesRemote cfg uid i = false →
            StudyService.getById cfg env uid i w = Some s).
Proof.
  split.
  - intros d Hd Hids Hroute Hread.
    unfold StudyService.getById, getDoc. rewrite Hroute, Hread.
    by rewrite (find_unique doc_id _ d Hids Hd).
  - intros s i Hs Hi Hids Hroute.
    unfold StudyService.getById. rewrite Hroute.
    rewrite <-Hi. by apply (find_unique id).
Qed.

Lemma getById_finds_stored_witness :
  StudyService.getById true (Sample.env 300 "x1" 5) "alice" "a2"
    Sample.remoteWorld
  = Some (fromDoc (Sample.docAt "a2" "John 2" 1700000500))
  ∧ StudyService.getById false (Sample.env 300 "x1" 5) "guest" "local-200"
      Sample.twoLocal
    = Some (Sample.stored "local-200" "Psalm 23" 200).
Proof.
  destruct (getById_finds_stored true (Sample.env 300 "x1" 5) "alice"
              Sample.remoteWorld) as [Hremote _].
  destruct (getById_finds_stored false (Sample.env 300 "x1" 5) "guest"
              Sample.twoLocal) as [_ Hlocal].
  split.
  - apply (Hremote (Sample.docAt "a2" "John 2" 1700000500)).
    + apply list_elem_of_In. vm_compute. right. left. reflexivity.
    + apply (bool_decide_unpack _). vm_compute. reflexivity.
    + reflexivity.
    + reflexivity.
  - apply (Hlocal (Sample.stored "local-200" "Psalm 23" 200) "local-200").
    + apply list_elem_of_In. vm_compute. right. left. reflexivity.
    + reflexivity.
    + apply (bool_decide_unpack _). vm_compute. reflexivity.
    + reflexivity.
Defined.

(** ** update, then getById *)

(** X9: [update] replaces the first record with the id by its merge with
    the patch and changes nothing else, and [getById] then returns the
    merged record: locally, where it sits in place in the list, when the
    patch does not set the id; remotely, when the document exists and the
    requests are accepted.  A remote [update] of a document that does not
    exist is thrown to the caller and changes nothing. *)
Theorem update_then_getById (cfg : bool) (envUpdate envGet : Env)
    (uid i : string) (data : PartialStudy) (w : World) :
  let r := StudyService.update cfg envUpdate uid i data w in
  (∀ k s,
     StudyService.routesRemote cfg uid i = false →
     list_find (λ x, id x = Some i) (readStudies (localStorage w)) = Some (k, s) →
     p_id data = None →
     fst r = Ok tt
     ∧ readStudies (localStorage (snd r))
       = <[k := spread s data]> (readStudies (localStorage w))
     ∧ StudyService.getById cfg envGet uid i (snd r) = Some (spread s data)
     ∧ db (snd r) = db w)
  ∧ (∀ k d,
       StudyService.routesRemote cfg uid i = true →
       fails envUpdate (UpdateDoc uid i) = false →
       fails envGet (GetDoc uid i) = false →
       list_find (λ x, doc_id x = i) (collection (db w) uid) = Some (k, d) →
       fst r = Ok tt
       ∧ collection (db (snd r)) uid
         = <[k := patchDoc d data]> (collection (db w) uid)
       ∧ StudyService.getById cfg envGet uid i (snd r)
         = Some (fromDoc (patchDoc d data))
       ∧ localStorage (snd r) = localStorage w)
  ∧ (StudyService.routesRemote cfg uid i = true →
     fails envUpdate (UpdateDoc uid i) = false →
     Forall (λ x, doc_id x ≠ i) (collection (db w) uid) →
     fst r = Throw (NotFound uid i)
     ∧ db (snd r) = db w ∧ localStorage (snd r) = localStorage w).
Proof.
  simpl. split_and!.
  - intros k s Hroute Hfind Hdata.
    unfold StudyService.update, StudyService.getById. rewrite Hroute, Hfind.
    simpl. rewrite readStudies_writeStudies. split_and!; try done.
    rewrite (find_replaced (λ x, id x = Some i) _ k s (spread s data) Hfind);
      [done|].
    apply list_find_Some in Hfind as (_ & Hs & _).
    unfold spread. simpl. by rewrite Hdata.
  - intros k d Hroute Hupdate Hget Hfind.
    unfold StudyService.update, StudyService.getById, updateDoc, getDoc.
    rewrite Hroute, Hupdate, Hfind. simpl.
    rewrite Hget, collection_setCollection. split_and!; try done.
    rewrite (find_replaced (λ x, doc_id x = i) _ k d (patchDoc d data) Hfind);
      [done|].
    by apply list_find_Some in Hfind as (_ & Hd & _).
  - intros Hroute Hupdate Hmissing.
    unfold StudyService.update, updateDoc. rewrite Hroute, Hupdate.
    assert (list_find (λ x, doc_id x = i) (collection (db w) uid) = None) as ->
      by by apply list_find_None.
    done.
Qed.

Lemma update_then_getById_witness :
  userNotes <$> StudyService.getById false (Sample.env 301 "x1" 5) "guest"
                  "local-200"
                  (snd (StudyService.update false (Sample.env 300 "x1" 5)
                          "guest" "local-200" (StudyDetail.notesOnly "Selah")
                          Sample.twoLocal))
  = Some "Selah"
  ∧ userNotes <$> StudyService.getById true (Sample.env 301 "x1" 5) "alice" "a2"
                    (snd (StudyService.update true (Sample.env 300 "x1" 5)
                            "alice" "a2" (StudyDetail.notesOnly "Logos")
                            Sample.remoteWorld))
    = Some "Logos"
  ∧ fst (StudyService.update true (Sample.env 300 "x1" 5) "alice" "zz"
           (StudyDetail.notesOnly "Logos") Sample.remoteWorld)
    = Throw (NotFound "alice" "zz").
Proof.
  split_and!.
  - destruct (proj1 (update_then_getById false (Sample.env 300 "x1" 5)
                       (Sample.env 301 "x1" 5) "guest" "local-200"
                       (StudyDetail.notesOnly "Selah") Sample.twoLocal)
                1 (Sample.stored "local-200" "Psalm 23" 200)
                eq_refl eq_refl eq_refl) as (_ & _ & Hget & _).
    exact (f_equal (fmap userNotes) Hget).
  - destruct (proj1 (proj2 (update_then_getById true (Sample.env 300 "x1" 5)
                              (Sample.env 301 "x1" 5) "alice" "a2"
                              (StudyDetail.notesOnly "Logos") Sample.remoteWorld))
                1 (Sample.docAt "a2" "John 2" 1700000500)
                eq_refl eq_refl eq_refl eq_refl) as (_ & _ & Hget & _).
    exact (f_equal (fmap userNotes) Hget).
  - apply (proj2 (proj2 (update_then_getById true (Sample.env 300 "x1" 5)
                           (Sample.env 301 "x1" 5) "alice" "zz"
                           (StudyDetail.notesOnly "Logos") Sample.remoteWorld)));
      [reflexivity|reflexivity|].
    repeat constructor; discriminate.
Defined.

(** ** handleAnalyze *)

Lemma guest_is_local cfg : StudyService.remoteUsable cfg "guest" = false.
Proof. unfold StudyService.remoteUsable. simpl. apply andb_false_r. Qed.

(** X10: the guest's free trial.  For a visitor who is not signed in and
    has not used the trial, a run with a non-blank reference whose
    response parses stores the study in the browser under a freshly
    minted local id, marks the trial used, remembers the id as the trial
    study and navigates to the study, without touching Firestore; the
    stored study can be opened; and a further run is stopped at the
    sign-in modal without another request to the model. *)
Theorem guest_first_run (cfg : bool) (parse : string → option StudyAnalysis)
    (gen : string → string → Result (option string))
    (ref tr : string) (envNow envSave envLimit envGet : Env)
    (ui : LandingState) (w : World) (text : option string) (a : StudyAnalysis) :
  Gemini.trim ref ≠ "" →
  GuestTrialService.hasUsedTrial (localStorage w) = false →
  gen ref tr = Ok text →
  parse (Gemini.cleanText (orElse text "{}")) = Some a →
  Forall (λ x, id x ≠ Some ("local-" +:+ pretty (now envSave)))
    (readStudies (localStorage w)) →
  let localId := "local-" +:+ pretty (now envSave) in
  let r := Landing.handleAnalyze cfg parse gen None ref tr
             envNow envSave envLimit ui w in
  navigatedTo (fst r) = Some ("/study/" +:+ localId)
  ∧ error (fst r) = ""
  ∧ loading (fst r) = false
  ∧ GuestTrialService.hasUsedTrial (localStorage (snd r)) = true
  ∧ GuestTrialService.getTrialStudyId (localStorage (snd r)) = Some localId
  ∧ StudyService.getById cfg envGet "guest" localId (snd r)
    = Some {| id := Some localId;
              userId := "guest";
              reference := Analysis.reference a;
              translation := Analysis.translation a;
              createdAt := Z.of_N (now envNow);
              modelMetadata := ("Gemini", "2.0 Flash");
              analysis := a;
              userNotes := "";
              tags := [] |}
  ∧ db (snd r) = db w
  ∧ aiCalls (snd r) = aiCalls w ++ [(ref, tr)]
  ∧ (∀ ref' tr' envNow' envSave' envLimit',
       let r' := Landing.handleAnalyze cfg parse gen None ref' tr'
                   envNow' envSave' envLimit' (fst r) (snd r) in
       aiCalls (snd r') = aiCalls (snd r)
       ∧ navigatedTo (fst r') = navigatedTo (fst r)
       ∧ (Gemini.trim ref' ≠ "" → showSignInModal (fst r') = true)).
Proof.
  intros Href Hfresh Hgen Hparse Hid. simpl.
  assert (Landing.handleAnalyze cfg parse gen None ref tr
            envNow envSave envLimit ui w
          = ({| loading := false;
                error := "";
                step := 0;
                showSignInModal := showSignInModal ui;
                navigatedTo := Some ("/study/" +:+ ("local-" +:+ pretty (now envSave))) |},
             setLocal
               (GuestTrialService.setTrialStudyId ("local-" +:+ pretty (now envSave))
                  (GuestTrialService.markTrialUsed
                     (writeStudies
                        (readStudies (localStorage w)
                         ++ [withId {| id := None;
                                       userId := "guest";
                                       reference := Analysis.reference a;
                                       translation := Analysis.translation a;
                                       createdAt := Z.of_N (now envNow);
                                       modelMetadata := ("Gemini", "2.0 Flash");
                                       analysis := a;
                                       userNotes := "";
                                       tags := [] |}
                               ("local-" +:+ pretty (now envSave))])
                        (localStorage w))))
               {| localStorage := localStorage w;
                  db := db w;
                  aiCalls := aiCalls w ++ [(ref, tr)] |})) as ->.
  { unfold Landing.handleAnalyze.
    destruct (String.eqb_spec (Gemini.trim ref) ""); [done|].
    rewrite Hfresh, andb_false_r.
    unfold Gemini.generateStudy, Gemini.parseResponse. rewrite Hgen, Hparse.
    cbn [orElse]. unfold StudyService.save. by rewrite guest_is_local. }
  split_and!; try done.
  - unfold StudyService.getById.
    rewrite (routesRemote_local_id cfg "guest" _ (prefix_append "local-" _)).
    cbn. by rewrite (find_appended (λ x, id x = Some _)).
  - intros ref' tr' envNow' envSave' envLimit'. simpl.
    unfold Landing.handleAnalyze.
    destruct (String.eqb_spec (Gemini.trim ref') ""); [by split_and!|].
    cbn. by split_and!.
Qed.

Lemma guest_first_run_witness :
  let r := Landing.handleAnalyze true Sample.parseEmptyObject (Sample.answer "{}")
             None "Isaiah 53" "ESV" (Sample.env 300 "x1" 5)
             (Sample.env 301 "x1" 5) (Sample.env 302 "x1" 5) Sample.idle
             Sample.freshWorld in
  navigatedTo (fst r) = Some "/study/local-301"
  ∧ GuestTrialService.hasUsedTrial (localStorage (snd r)) = true.
Proof.
  destruct (guest_first_run true Sample.parseEmptyObject (Sample.answer "{}")
              "Isaiah 53" "ESV" (Sample.env 300 "x1" 5) (Sample.env 301 "x1" 5)
              (Sample.env 302 "x1" 5) (Sample.env 303 "x1" 5) Sample.idle
              Sample.freshWorld (Some "{}") (Sample.analysisOf "")
              ltac:(discriminate) eq_refl eq_refl eq_refl ltac:(constructor))
    as (Hnav & _ & _ & Hused & _).
  split; [exact Hnav|exact Hused].
Defined.

(** X11: a run of [handleAnalyze] that fails before anything is stored -
    the request to the model is rejected, its text does not parse, or the
    write of the study is rejected - shows the failure message, does not
    navigate and leaves the browser's storage and Firestore as they were:
    a guest's trial is not used up by a failed run. *)
Theorem failed_run_stores_nothing (cfg : bool)
    (parse : string → option StudyAnalysis)
    (gen : string → string → Result (option string))
    (user : option string) (ref tr : string) (envNow envSave envLimit : Env)
    (ui : LandingState) (w : World) :
  Gemini.trim ref ≠ "" →
  (user = None → GuestTrialService.hasUsedTrial (localStorage w) = false) →
  ((∃ e, gen ref tr = Throw e)
   ∨ (∃ text, gen ref tr = Ok text
              ∧ parse (Gemini.cleanText (orElse text "{}")) = None)
   ∨ (∃ text a, gen ref tr = Ok text
                ∧ parse (Gemini.cleanText (orElse text "{}")) = Some a
                ∧ StudyService.remoteUsable cfg (orElse user "guest") = true
                ∧ fails envSave (AddDoc (orElse user "guest")) = true)) →
  let r := Landing.handleAnalyze cfg parse gen user ref tr
             envNow envSave envLimit ui w in
  error (fst r) = Landing.generationFailed
  ∧ loading (fst r) = false
  ∧ navigatedTo (fst r) = navigatedTo ui
  ∧ localStorage (snd r) = localStorage w
  ∧ db (snd r) = db w
  ∧ aiCalls (snd r) = aiCalls w ++ [(ref, tr)].
Proof.
  intros Href Hgate Hfail. simpl. unfold Landing.handleAnalyze.
  destruct (String.eqb_spec (Gemini.trim ref) ""); [done|].
  assert (bool_decide (user = None)
          && GuestTrialService.hasUsedTrial (localStorage w) = false) as ->.
  { destruct user; [done|]. by rewrite Hgate. }
  unfold Gemini.generateStudy, Gemini.parseResponse.
  destruct Hfail as [[e ->]|[(text & -> & ->)|(text & a & -> & -> & Hroute & Hadd)]];
    [done|done|].
  unfold StudyService.save, addDoc. by rewrite Hroute, Hadd.
Qed.

Lemma failed_run_stores_nothing_witness :
  GuestTrialService.hasUsedTrial
    (localStorage (snd (Landing.handleAnalyze false Sample.parseEmptyObject
                          Scenario.noAnswer None "Isaiah 53" "ESV"
                          (Sample.env 300 "x1" 5) (Sample.env 301 "x1" 5)
                          (Sample.env 302 "x1" 5) Sample.idle Sample.freshWorld)))
  = false
  ∧ db (snd (Landing.handleAnalyze true Sample.parseEmptyObject
               (Sample.answer "{}") (Some "alice") "Isaiah 53" "ESV"
               (Sample.env 300 "x1" 5) Scenario.offline
               (Sample.env 302 "x1" 5) Sample.idle Sample.remoteWorld))
    = db Sample.remoteWorld.
Proof.
  split.
  - destruct (failed_run_stores_nothing false Sample.parseEmptyObject
                Scenario.noAnswer None "Isaiah 53" "ESV"
                (Sample.env 300 "x1" 5) (Sample.env 301 "x1" 5)
                (Sample.env 302 "x1" 5) Sample.idle Sample.freshWorld
                ltac:(discriminate) ltac:(reflexivity)
                ltac:(left; by eexists)) as (_ & _ & _ & Hls & _).
    by rewrite Hls.
  - apply (failed_run_stores_nothing true Sample.parseEmptyObject
             (Sample.answer "{}") (Some "alice") "Isaiah 53" "ESV"
             (Sample.env 300 "x1" 5) Scenario.offline
             (Sample.env 302 "x1" 5) Sample.idle Sample.remoteWorld).
    + discriminate.
    + discriminate.
    + right. right. exists (Some "{}"), (Sample.analysisOf "").
      split_and!; reflexivity.
Defined.

(** X12: the create-then-trim cycle.  A run of [handleAnalyze] for a
    signed-in user that does not end in the failure message leaves that
    user with at most ten stored studies, has navigated to a study, and
    has not touched the guest-trial flag. *)
Theorem signed_in_run_keeps_cap (cfg : bool)
    (parse : string → option StudyAnalysis)
    (gen : string → string → Result (option string))
    (u ref tr : string) (envNow envSave envLimit : Env)
    (ui : LandingState) (w : World) :
  u ≠ "" →
  Gemini.trim ref ≠ "" →
  let r := Landing.handleAnalyze cfg parse gen (Some u) ref tr
             envNow envSave envLimit ui w in
  error (fst r) ≠ Landing.generationFailed →
  (Z.of_nat (storedCount cfg u (snd r)) <= 10)%Z
  ∧ (∃ i, navigatedTo (fst r) = Some ("/study/" +:+ i))
  ∧ ss_guest_trial_used (localStorage (snd r))
    = ss_guest_trial_used (localStorage w).
Proof.
  intros Hu Href. unfold Landing.handleAnalyze.
  assert (orElse (Some u) "guest" = u) as -> by by destruct u.
  destruct (String.eqb_spec (Gemini.trim ref) ""); [done|]. simpl.
  assert (localStorage (snd (Gemini.generateStudy parse gen ref tr w))
          = localStorage w) as Hgen
    by (unfold Gemini.generateStudy; by destruct (gen ref tr)).
  destruct (Gemini.generateStudy parse gen ref tr w) as [[a|e] w1]; [|done].
  simpl in Hgen.
  match goal with
  | |- context [StudyService.save cfg envSave u ?s w1] =>
      pose proof (studyService_keeps_flag cfg envSave u "" s
                    (StudyDetail.notesOnly "") 10 w1) as (Hsave & _);
      destruct (StudyService.save cfg envSave u s w1) as [[i|e] w2]
  end; [|done].
  pose proof (studyService_keeps_flag cfg envLimit u ""
                (Sample.studyAt "" 0) (StudyDetail.notesOnly "") 10 w2)
    as (_ & _ & _ & Hlimit).
  pose proof (enforceLimit_caps cfg envLimit u 10 ltac:(lia) w2) as Hcap.
  destruct (StudyService.enforceLimit cfg envLimit u 10 w2) as [[[]|e] w4];
    simpl in *; [|done].
  intros _. split_and!; [by apply Hcap|by eexists|congruence].
Qed.

Lemma signed_in_run_keeps_cap_witness :
  (Z.of_nat (storedCount true "alice"
               (snd (Landing.handleAnalyze true Sample.parseEmptyObject
                       (Sample.answer "{}") (Some "alice") "Isaiah 53" "ESV"
                       (Sample.env 300 "x1" 5) (Sample.env 301 "x9" 1800000000)
                       (Sample.env 302 "x1" 5) Sample.idle Sample.remoteWorld)))
   <= 10)%Z.
Proof.
  apply (signed_in_run_keeps_cap true Sample.parseEmptyObject
           (Sample.answer "{}") "alice" "Isaiah 53" "ESV"
           (Sample.env 300 "x1" 5) (Sample.env 301 "x9" 1800000000)
           (Sample.env 302 "x1" 5) Sample.idle Sample.remoteWorld);
    discriminate.
Defined.

(** ** The StudyDetail component *)

(** X13: deleting from the detail page.  When [remove] resolves (remotely:
    the delete is accepted; the browser's ids carry the local prefix), the
    page navigates to the list, and a later [fetch] of the same id finds
    nothing, shows no study and navigates to the list as well.  A
    rejected delete is thrown, and the page stays as it is. *)
Theorem delete_then_fetch (cfg : bool) (envRemove envGet : Env)
    (i : string) (user : option string) (st st' : DetailState) (w : World) :
  i ≠ "" →
  let uid := orElse user "guest" in
  let r := StudyDetail.deleteStudy cfg envRemove i user st w in
  (StudyService.routesRemote cfg uid i = true →
   fails envRemove (DeleteDoc uid i) = true →
   r = (Throw (FirestoreError (DeleteDoc uid i)), st,
        setDb (db w) w))
  ∧ ((StudyService.routesRemote cfg uid i = true →
      fails envRemove (DeleteDoc uid i) = false
      ∧ localIdsTagged (localStorage w)) →
     fst (fst r) = Ok tt
     ∧ detail_navigatedTo (snd (fst r)) = Some "/history"
     ∧ detail_navigatedTo (StudyDetail.fetch cfg envGet (Some i) user st' (snd r))
       = Some "/history"
     ∧ detail_study (StudyDetail.fetch cfg envGet (Some i) user st' (snd r))
       = detail_study st'
     ∧ detail_loading (StudyDetail.fetch cfg envGet (Some i) user st' (snd r))
       = false).
Proof.
  intros Hi. simpl. unfold StudyDetail.deleteStudy, StudyService.remove.
  split.
  - intros Hroute Hrejected. unfold deleteDoc. by rewrite Hroute, Hrejected.
  - intros Hremote.
    assert (∀ w', StudyService.getById cfg envGet (orElse user "guest") i w' = None →
                  detail_navigatedTo (StudyDetail.fetch cfg envGet (Some i) user st' w')
                  = Some "/history"
                  ∧ detail_study (StudyDetail.fetch cfg envGet (Some i) user st' w')
                    = detail_study st'
                  ∧ detail_loading (StudyDetail.fetch cfg envGet (Some i) user st' w')
                    = false) as Habsent.
    { intros w' Hnone. unfold StudyDetail.fetch. rewrite Hnone.
      by destruct i. }
    destruct (StudyService.routesRemote cfg (orElse user "guest") i) eqn:Hroute.
    + destruct (Hremote eq_refl) as [Hdelete Htagged].
      unfold deleteDoc. rewrite Hdelete. simpl. split_and!; try done;
        apply Habsent; unfold StudyService.getById, getDoc; rewrite Hroute;
        simpl; rewrite collection_setCollection;
        rewrite (find_in_filtered_out (λ d, doc_id d = i));
        (assert (list_find (λ s, id s = Some i) (readStudies (localStorage w))
                 = None) as ->;
         [apply list_find_None; eapply Forall_impl; [exact Htagged|];
          intros s Hs Hid; apply Hs in Hid;
          unfold StudyService.routesRemote in Hroute;
          rewrite Hid in Hroute; simpl in Hroute;
          by rewrite andb_false_r in Hroute
         |by destruct (fails envGet (GetDoc (orElse user "guest") i))]).
    + simpl. split_and!; try done;
        apply Habsent; unfold StudyService.getById; rewrite Hroute; simpl;
        rewrite readStudies_writeStudies;
        by rewrite (find_in_filtered_out (λ s, id s = Some i)).
Qed.

Lemma delete_then_fetch_witness :
  detail_navigatedTo
    (StudyDetail.fetch true Scenario.offline (Some "a1") (Some "alice")
       Scenario.detailIdle
       (snd (StudyDetail.deleteStudy true (Sample.env 300 "x1" 5) "a1"
               (Some "alice") Scenario.detailIdle Sample.remoteWorld)))
  = Some "/history".
Proof.
  apply (proj2 (delete_then_fetch true (Sample.env 300 "x1" 5) Scenario.offline
                  "a1" (Some "alice") Scenario.detailIdle Scenario.detailIdle
                  Sample.remoteWorld ltac:(discriminate))).
  intros _. split; [reflexivity|constructor].
Defined.

(** ** The chat *)

Lemma orElse_nonempty a d : d ≠ "" → orElse a d ≠ "".
Proof. intros Hd. by destruct a as [[|c s]|]. Qed.

Lemma turns_grow n :
  mjoin (replicate n [RoleUser; RoleModel]) ++ [RoleUser; RoleModel]
  = mjoin (replicate (S n) [RoleUser; RoleModel]).
Proof.
  induction n as [|n IH]; [done|].
  change (mjoin (replicate (S n) [RoleUser; RoleModel]))
    with ([RoleUser; RoleModel] ++ mjoin (replicate n [RoleUser; RoleModel])).
  rewrite <-app_assoc, IH. done.
Qed.

(** X14: a chat turn.  With a study shown, a non-blank question and no
    turn in flight, [handleChat] appends exactly two messages to the
    history - the question as asked, then one reply of the model that is
    never empty: the text of the service, a fixed apology when the
    service answers without text, another when it is down - clears the
    input and ends the turn.  Otherwise it changes nothing.  A history
    that alternates question and reply keeps alternating. *)
Theorem handleChat_turn
    (sendMessage : string → list Turn → string → Result (option string))
    (st : DetailState) :
  (∀ s, detail_study st = Some s →
        Gemini.trim (chatInput st) ≠ "" →
        chatLoading st = false →
        ∃ reply,
          reply ≠ ""
          ∧ chatHistory (StudyDetail.handleChat sendMessage st)
            = chatHistory st
              ++ [{| role := RoleUser; text := chatInput st |};
                  {| role := RoleModel; text := reply |}]
          ∧ chatInput (StudyDetail.handleChat sendMessage st) = ""
          ∧ chatLoading (StudyDetail.handleChat sendMessage st) = false
          ∧ detail_study (StudyDetail.handleChat sendMessage st) = Some s
          ∧ (∀ e, sendMessage (reference s) (StudyDetail.toTurns (chatHistory st))
                    ("Regarding " +:+ reference s +:+ ": " +:+ chatInput st)
                  = Throw e → reply = scholarUnavailable)
          ∧ (∀ t, sendMessage (reference s) (StudyDetail.toTurns (chatHistory st))
                    ("Regarding " +:+ reference s +:+ ": " +:+ chatInput st)
                  = Ok t → reply = orElse t chatFallback))
  ∧ (detail_study st = None ∨ Gemini.trim (chatInput st) = ""
     ∨ chatLoading st = true →
     StudyDetail.handleChat sendMessage st = st)
  ∧ (∀ n, role <$> chatHistory st = mjoin (replicate n [RoleUser; RoleModel]) →
          ∃ m, (m = n ∨ m = S n)
               ∧ role <$> chatHistory (StudyDetail.handleChat sendMessage st)
                 = mjoin (replicate m [RoleUser; RoleModel])).
Proof.
  split_and!.
  - intros s Hs Hinput Hloading. unfold StudyDetail.handleChat.
    rewrite Hs, Hloading.
    destruct (String.eqb_spec (Gemini.trim (chatInput st)) ""); [done|].
    simpl. unfold chatWithPassage.
    destruct (sendMessage _ _ _) as [t|e].
    + exists (orElse t chatFallback). split_and!; try done.
      * by apply orElse_nonempty.
      * by intros t' [= <-].
    + exists scholarUnavailable. by split_and!.
  - intros Hidle. unfold StudyDetail.handleChat.
    destruct (detail_study st) as [s|]; [|done].
    destruct Hidle as [?|[Hblank|Hloading]]; [done| |].
    + by rewrite Hblank.
    + rewrite Hloading. by rewrite orb_true_r.
  - intros n Hn. unfold StudyDetail.handleChat.
    destruct (detail_study st) as [s|]; [|by exists n; split; [left|]].
    destruct (_ || _); [by exists n; split; [left|]|].
    exists (S n). split; [by right|]. simpl.
    rewrite !fmap_app, Hn. simpl. apply turns_grow.
Qed.

Lemma handleChat_turn_witness :
  text <$> chatHistory (StudyDetail.handleChat Scenario.down Scenario.asking)
  = ["Who is the servant?"; scholarUnavailable]
  ∧ text <$> chatHistory (StudyDetail.handleChat (Scenario.echo None)
                            Scenario.asking)
    = ["Who is the servant?"; chatFallback].
Proof.
  split.
  - destruct (proj1 (handleChat_turn Scenario.down Scenario.asking)
                (Sample.stored "local-100" "Isaiah 53" 100)
                eq_refl ltac:(discriminate) eq_refl)
      as (reply & _ & -> & _ & _ & _ & Hdown & _).
    by rewrite (Hdown TransportError eq_refl).
  - destruct (proj1 (handleChat_turn (Scenario.echo None) Scenario.asking)
                (Sample.stored "local-100" "Isaiah 53" 100)
                eq_refl ltac:(discriminate) eq_refl)
      as (reply & _ & -> & _ & _ & _ & _ & Hok).
    by rewrite (Hok None eq_refl).
Defined.

(** ** Profiles and the admin role *)

(** X15: [checkIsAdmin] answers true exactly when the application is
    configured, the read is accepted and the user's profile exists with
    the role admin.  Signing in writes the role of a plain user into the
    profile: after a [syncUserProfile] that resolved in a configured
    application, [checkIsAdmin] is false for that user whatever the role
    was, while every other user's answer is unchanged.  Without
    configuration, or when the write is rejected, the profiles are left
    as they are. *)
Theorem sync_then_checkIsAdmin (cfg : bool) (penv penv' : ProfileEnv)
    (user : User) (profiles : gmap string Profile) :
  let r := syncUserProfile cfg penv user profiles in
  (∀ u, checkIsAdmin cfg penv' u profiles = true
        ↔ cfg = true ∧ getRejected penv' = false
          ∧ ∃ p, profiles !! u = Some p ∧ profile_role p = Some "admin")
  ∧ (cfg = true → setRejected penv = false →
     fst r = Ok tt
     ∧ checkIsAdmin cfg penv' (uid user) (snd r) = false
     ∧ (profile_role <$> snd r !! uid user) = Some (Some "user")
     ∧ (∀ other, other ≠ uid user →
          checkIsAdmin cfg penv' other (snd r)
          = checkIsAdmin cfg penv' other profiles))
  ∧ (cfg = false → r = (Ok tt, profiles))
  ∧ (cfg = true → setRejected penv = true → r = (Throw TransportError, profiles)).
Proof.
  simpl. unfold syncUserProfile, checkIsAdmin. split_and!.
  - intros u. destruct cfg; simpl; [|by split; [|intros [? _]]].
    destruct (getRejected penv'); [by split; [|intros (_ & ? & _)]|].
    destruct (profiles !! u) as [p|];
      [|by split; [|intros (_ & _ & p & ? & _)]].
    rewrite bool_decide_eq_true. split.
    + intros Hp. split_and!; try done. by exists p.
    + by intros (_ & _ & p' & [= <-] & Hp).
  - intros -> ->. simpl. rewrite lookup_insert_eq. simpl.
    split_and!; try done.
    + by destruct (getRejected penv').
    + intros other Hne. by rewrite lookup_insert_ne.
  - by intros ->.
  - by intros -> ->.
Qed.

Lemma sync_then_checkIsAdmin_witness :
  checkIsAdmin true Scenario.quiet "alice" Scenario.profiles = true
  ∧ checkIsAdmin true Scenario.quiet "alice"
      (snd (syncUserProfile true Scenario.quiet Scenario.aliceUser
              Scenario.profiles)) = false.
Proof.
  split; [reflexivity|].
  apply (proj1 (proj2 (sync_then_checkIsAdmin true Scenario.quiet Scenario.quiet
                         Scenario.aliceUser Scenario.profiles))); reflexivity.
Defined.

(** ** The admin scan and its dashboard *)

Lemma byStudyCreatedAtDesc_total a b :
  (0 < AdminService.byStudyCreatedAtDesc a b)%Z →
  (AdminService.byStudyCreatedAtDesc b a <= 0)%Z.
Proof. unfold AdminService.byStudyCreatedAtDesc. lia. Qed.

Lemma byStudyCreatedAtDesc_trans a b c :
  (AdminService.byStudyCreatedAtDesc a b <= 0)%Z →
  (AdminService.byStudyCreatedAtDesc b c <= 0)%Z →
  (AdminService.byStudyCreatedAtDesc a c <= 0)%Z.
Proof. unfold AdminService.byStudyCreatedAtDesc. lia. Qed.

Lemma scanUsers_rows env fs docs acc rows :
  AdminService.scanUsers env fs docs acc = Ok rows →
  ∀ row, row ∈ rows →
         row ∈ acc
         ∨ ∃ u d, u ∈ docs ∧ d ∈ collection fs (user_id u)
                  ∧ row = AdminService.adminStudy u d.
Proof.
  revert acc. induction docs as [|u docs IH]; intros acc Hscan row Hrow.
  - injection Hscan as <-. by left.
  - simpl in Hscan. unfold getHistory in Hscan.
    destruct (fails env (GetHistory (user_id u))); [done|].
    destruct (IH _ Hscan row Hrow) as [Hacc|(u' & d & Hu' & Hd & ->)].
    + apply elem_of_app in Hacc as [Hacc|Hnew]; [by left|right].
      apply list_elem_of_fmap in Hnew as (d & -> & Hd).
      exists u, d. split_and!; [by left| |done].
      unfold orderByCreatedAtDesc in Hd. by rewrite js_sort_perm in Hd.
    + right. exists u', d. split_and!; [by right|done|done].
Qed.

Lemma getAllStudies_origin cfg env fs row :
  row ∈ AdminService.getAllStudies cfg env fs →
  ∃ u d, u ∈ users fs ∧ d ∈ collection fs (user_id u)
         ∧ row = AdminService.adminStudy u d.
Proof.
  unfold AdminService.getAllStudies, AdminService.scan, getUsers.
  destruct (negb cfg); [by intros ?%elem_of_nil|].
  destruct (fails env GetUsers); [by intros ?%elem_of_nil|].
  destruct (AdminService.scanUsers env fs (users fs) []) as [rows|e] eqn:Hscan;
    [|by intros ?%elem_of_nil].
  intros Hrow. rewrite js_sort_perm in Hrow.
  destruct (scanUsers_rows env fs (users fs) [] rows Hscan row Hrow)
    as [Hnil|Horigin]; [by apply elem_of_nil in Hnil|done].
Qed.

Lemma getAllStudies_sorted cfg env fs :
  StronglySorted (λ a b, (createdAt (study b) <= createdAt (study a))%Z)
    (AdminService.getAllStudies cfg env fs).
Proof.
  unfold AdminService.getAllStudies, AdminService.scan, getUsers.
  destruct (negb cfg); [constructor|].
  destruct (fails env GetUsers); [constructor|].
  destruct (AdminService.scanUsers env fs (users fs) []) as [rows|e];
    [|constructor].
  eapply StronglySorted_weaken;
    [|apply (js_sort_sorted AdminService.byStudyCreatedAtDesc
               byStudyCreatedAtDesc_total byStudyCreatedAtDesc_trans)].
  intros a b. unfold AdminService.byStudyCreatedAtDesc. simpl. lia.
Qed.

(** X16: every study the admin scan returns belongs to an enumerated
    user: it is a document of that user's history, carries the user's id
    as [userId] (whatever the document says), and the user's email and
    display name, which are never empty - missing or empty ones read
    Unknown and Anonymous.  The studies come newest first. *)
Theorem getAllStudies_rows (cfg : bool) (env : Env) (fs : Firestore) :
  (∀ row, row ∈ AdminService.getAllStudies cfg env fs →
          ∃ u d, u ∈ users fs
                 ∧ d ∈ collection fs (user_id u)
                 ∧ row = AdminService.adminStudy u d
                 ∧ userId (study row) = user_id u
                 ∧ userEmail row = orElse (email u) "Unknown"
                 ∧ userName row = orElse (displayName u) "Anonymous"
                 ∧ userEmail row ≠ "" ∧ userName row ≠ "")
  ∧ StronglySorted (λ a b, (createdAt (study b) <= createdAt (study a))%Z)
      (AdminService.getAllStudies cfg env fs).
Proof.
  split; [|apply getAllStudies_sorted].
  intros row Hrow.
  destruct (getAllStudies_origin cfg env fs row Hrow) as (u & d & Hu & Hd & ->).
  exists u, d. split_and!; try done; simpl; by apply orElse_nonempty.
Qed.

Lemma size_of_list (l : list string) :
  (size (list_to_set l : gset string) ≤ length l)%nat.
Proof.
  induction l as [|x l IH]; [done|].
  rewrite list_to_set_cons, size_union_alt, size_singleton.
  assert (size ((list_to_set l : gset string) ∖ {[x]})
          ≤ size (list_to_set l : gset string))%nat
    as Hle by (apply subseteq_size, subseteq_difference_l; reflexivity).
  simpl. lia.
Qed.

Section CountFacts.
Implicit Types (counts : gmap string nat).

Lemma sumCounts_bump counts t :
  sumCounts (<[t := default 0 (counts !! t) + 1]> counts) = S (sumCounts counts).
Proof.
  unfold sumCounts.
  assert (∀ (m : gmap string nat) (j1 j2 : string) (z1 z2 y : nat),
            j1 ≠ j2 → m !! j1 = Some z1 → m !! j2 = Some z2 →
            z1 + (z2 + y) = z2 + (z1 + y)) as Hcomm by (intros; lia).
  destruct (counts !! t) as [n|] eqn:Ht; simpl.
  - rewrite <-(insert_delete_eq counts t (n + 1)).
    rewrite map_fold_insert_L; [|apply Hcomm|apply lookup_delete_eq].
    rewrite <-(insert_id counts t n Ht) at 2.
    rewrite <-(insert_delete_eq counts t n).
    rewrite map_fold_insert_L; [lia|apply Hcomm|apply lookup_delete_eq].
  - rewrite map_fold_insert_L; [lia|apply Hcomm|done].
Qed.

Lemma countTranslations_from counts (l : list AdminStudy) :
  sumCounts (foldl (λ counts s,
                      <[translation (study s) :=
                          default 0 (counts !! translation (study s)) + 1]> counts)
               counts l)
  = sumCounts counts + length l
  ∧ ∀ t, default 0 (foldl (λ counts s,
                             <[translation (study s) :=
                                 default 0 (counts !! translation (study s)) + 1]>
                               counts)
                      counts l !! t)
         = default 0 (counts !! t)
           + length (filter (λ s, translation (study s) = t) l).
Proof.
  revert counts. induction l as [|s l IH]; intros counts.
  - simpl. split; [lia|intros t; lia].
  - simpl. destruct (IH (<[translation (study s) :=
                            default 0 (counts !! translation (study s)) + 1]>
                          counts)) as [Hsum Ht].
    split.
    + rewrite Hsum, sumCounts_bump. lia.
    + intros t. rewrite Ht, filter_cons.
      destruct (decide (translation (study s) = t)) as [->|Hne].
      * rewrite lookup_insert_eq. simpl. lia.
      * by rewrite lookup_insert_ne.
Qed.
End CountFacts.

(** X17: the admin dashboard.  Without a signed-in user it navigates to
    the login page; for a user who is not an admin it shows no studies
    and computes nothing, whatever Firestore holds.  For an admin the
    statistics agree with the list shown: the total is its length and
    the number of distinct users is at most the total and at most the
    number of user profiles; and, no listed translation being a name
    inherited from [Object.prototype], the count of a translation is the
    number of listed studies in that translation, and the counts add up
    to the total. *)
Theorem adminDashboard_stats (cfg : bool) (penv : ProfileEnv) (env : Env)
    (user : option string) (profiles : gmap string Profile) (fs : Firestore)
    (st : AdminState) :
  let st' := checkAndFetch cfg penv env user profiles fs st in
  (user = None →
   admin_navigatedTo st' = Some "/login" ∧ admin_studies st' = admin_studies st)
  ∧ (∀ u, user = Some u → checkIsAdmin cfg penv u profiles = false →
          admin_isAdmin st' = false
          ∧ admin_loading st' = false
          ∧ admin_studies st' = admin_studies st
          ∧ admin_stats st' = admin_stats st)
  ∧ (∀ u, user = Some u → checkIsAdmin cfg penv u profiles = true →
          admin_isAdmin st' = true
          ∧ admin_studies st' = AdminService.getAllStudies cfg env fs
          ∧ totalStudies (admin_stats st') = length (admin_studies st')
          ∧ (Forall (λ s, inheritedName (translation (study s)) = false)
               (admin_studies st') →
             sumCounts (translations (admin_stats st'))
             = totalStudies (admin_stats st')
             ∧ (∀ t, default 0 (translations (admin_stats st') !! t)
                     = length (filter (λ s, translation (study s) = t)
                                 (admin_studies st'))))
          ∧ (totalUsers (admin_stats st') ≤ totalStudies (admin_stats st'))%nat
          ∧ (totalUsers (admin_stats st') ≤ length (users fs))%nat).
Proof.
  simpl. unfold checkAndFetch. split_and!.
  - by intros ->.
  - intros u -> ->. done.
  - intros u -> ->. simpl.
    destruct (countTranslations_from ∅ (AdminService.getAllStudies cfg env fs))
      as [Hsum Hcount].
    split_and!; [done|done|done| | |].
    + intros _. split.
      * unfold countTranslations. rewrite Hsum. unfold sumCounts.
        by rewrite map_fold_empty.
      * intros t. unfold countTranslations. by rewrite Hcount, lookup_empty.
    + unfold uniqueUsers.
      etrans; [apply size_of_list|]. by rewrite length_fmap.
    + unfold uniqueUsers.
      etrans; [apply (subseteq_size _ (list_to_set (user_id <$> users fs)))|].
      * apply elem_of_subseteq. intros x Hx.
        apply elem_of_list_to_set in Hx. apply elem_of_list_to_set.
        apply list_elem_of_fmap in Hx as (row & -> & Hrow).
        destruct (getAllStudies_origin cfg env fs row Hrow)
          as (u' & d & Hu' & _ & ->).
        change (user_id u' ∈ user_id <$> users fs).
        by apply list_elem_of_fmap_2.
      * etrans; [apply size_of_list|]. by rewrite length_fmap.
Qed.

Lemma adminDashboard_stats_witness :
  let st := checkAndFetch true Scenario.quiet (Sample.env 300 "x1" 5)
              (Some "alice") Scenario.profiles Sample.twoUsers
              Scenario.adminIdle in
  totalStudies (admin_stats st) = 3
  ∧ sumCounts (translations (admin_stats st)) = 3
  ∧ admin_studies (checkAndFetch true Scenario.quiet (Sample.env 300 "x1" 5)
                     (Some "bob") Scenario.profiles Sample.twoUsers
                     Scenario.adminIdle) = [].
Proof.
  pose proof (adminDashboard_stats true Scenario.quiet (Sample.env 300 "x1" 5)
                (Some "alice") Scenario.profiles Sample.twoUsers
                Scenario.adminIdle) as (_ & _ & Hadmin).
  pose proof (adminDashboard_stats true Scenario.quiet (Sample.env 300 "x1" 5)
                (Some "bob") Scenario.profiles Sample.twoUsers
                Scenario.adminIdle) as (_ & Hplain & _).
  destruct (Hadmin "alice" eq_refl eq_refl) as (_ & _ & Htotal & Hcounts & _).
  destruct Hcounts as [Hsum _];
    [vm_compute; repeat constructor|].
  destruct (Hplain "bob" eq_refl eq_refl) as (_ & _ & Hstudies & _).
  cbv zeta in *. split_and!.
  - rewrite Htotal. reflexivity.
  - rewrite Hsum, Htotal. reflexivity.
  - exact Hstudies.
Defined.

(** ** What cleanText leaves *)

Section TickFacts.
Import Gemini.

Lemma leadingTicks_other c s :
  c ≠ "`"%char → leadingTicks (String c s) = 0.
Proof. intros Hc. simpl. by destruct (Ascii.eqb_spec c "`"). Qed.

Lemma prefix_ticks (f s : string) :
  String.prefix (String "`" f) s = true
  ↔ ∃ s', s = String "`" s' ∧ String.prefix f s' = true.
Proof.
  destruct s as [|c s]; [split; [done|by intros (? & ? & ?)]|].
  destruct (decide (c = "`"%char)) as [->|Hc].
  - rewrite prefix_cons_same. split; [by exists s|].
    by intros (s' & [= <-] & ?).
  - rewrite prefix_cons_other by done. split; [done|].
    intros (s' & [= ? ?] & _). done.
Qed.

Lemma fence_needs_three_ticks s :
  String.prefix "```" s = true ↔ (3 ≤ leadingTicks s)%nat.
Proof.
  split.
  - intros (s1 & -> & (s2 & -> & (s3 & -> & _)%prefix_ticks)%prefix_ticks)%prefix_ticks.
    simpl. lia.
  - destruct s as [|c1 s]; [simpl; lia|].
    destruct (decide (c1 = "`"%char)) as [->|?];
      [|rewrite leadingTicks_other by done; lia].
    destruct s as [|c2 s]; [simpl; lia|].
    destruct (decide (c2 = "`"%char)) as [->|?];
      [|change (leadingTicks (String "`" (String c2 s)))
          with (S (leadingTicks (String c2 s)));
        rewrite leadingTicks_other by done; lia].
    destruct s as [|c3 s]; [simpl; lia|].
    destruct (decide (c3 = "`"%char)) as [->|?];
      [|change (leadingTicks (String "`" (String "`" (String c3 s))))
          with (S (S (leadingTicks (String c3 s))));
        rewrite leadingTicks_other by done; lia].
    intros _. rewrite !prefix_cons_same. apply prefix_empty.
Qed.

Lemma dropFence_plain fence s :
  String.prefix "`" fence = true →
  Forall (λ c, c ≠ "`"%char) (list_ascii_of_string s) →
  dropFence fence None s = s.
Proof.
  intros Hfence. destruct fence as [|a f]; [done|].
  destruct (decide (a = "`"%char)) as [->|Ha];
    [|by rewrite prefix_cons_other in Hfence].
  induction s as [|c s IH]; intros Hs; [done|].
  simpl in Hs. apply Forall_cons in Hs as [Hc Hs].
  cbn [dropFence]. rewrite prefix_cons_other by done. by rewrite IH.
Qed.

(** The text left by the scan for bare fences holds no fence, and begins
    with no more backticks than the scanned text when that begins with
    fewer than three. *)
Lemma dropFence_leaves_no_fence st s :
  hasFence (dropFence "```" st s) = false
  ∧ (leadingTicks (dropFence "```" st s) ≤ 2)%nat
  ∧ (st = None → (leadingTicks s ≤ 2)%nat →
     (leadingTicks (dropFence "```" None s) ≤ leadingTicks s)%nat).
Proof.
  revert st. induction s as [|c s IH]; intros st.
  - simpl. split_and!; [done|lia|lia].
  - assert (hasFence (if String.prefix "```" (String c s)
                      then dropFence "```" (Some 2) s
                      else String c (dropFence "```" None s)) = false
            ∧ (leadingTicks (if String.prefix "```" (String c s)
                             then dropFence "```" (Some 2) s
                             else String c (dropFence "```" None s)) ≤ 2)%nat
            ∧ ((leadingTicks (String c s) ≤ 2)%nat →
               (leadingTicks (if String.prefix "```" (String c s)
                              then dropFence "```" (Some 2) s
                              else String c (dropFence "```" None s))
                ≤ leadingTicks (String c s))%nat)) as Hscan.
    { destruct (String.prefix "```" (String c s)) eqn:Hp.
      - destruct (IH (Some 2)) as (Hf & Hl & _). split_and!; [done|done|].
        apply fence_needs_three_ticks in Hp. lia.
      - destruct (IH None) as (Hf & Hl & Hkeep). specialize (Hkeep eq_refl).
        assert (¬ (3 ≤ leadingTicks (String c s))%nat) as Hshort
          by (rewrite <-fence_needs_three_ticks; congruence).
        destruct (decide (c = "`"%char)) as [->|Hc].
        + change (leadingTicks (String "`" s)) with (S (leadingTicks s)) in *.
          change (leadingTicks (String "`" (dropFence "```" None s)))
            with (S (leadingTicks (dropFence "```" None s))).
          assert (leadingTicks (dropFence "```" None s) ≤ leadingTicks s)%nat
            as Hle by (apply Hkeep; lia).
          split_and!; [|lia|lia].
          cbn [hasFence]. rewrite Hf, orb_false_r.
          apply not_true_is_false. rewrite fence_needs_three_ticks.
          change (leadingTicks (String "`" (dropFence "```" None s)))
            with (S (leadingTicks (dropFence "```" None s))). lia.
        + rewrite !leadingTicks_other by done. split_and!; [|lia|lia].
          cbn [hasFence]. rewrite Hf, orb_false_r.
          apply not_true_is_false. rewrite fence_needs_three_ticks.
          rewrite leadingTicks_other by done. lia. }
    destruct st as [[|k]|]; cbn [dropFence String.length Nat.sub].
    + destruct (Ascii.eqb c newline).
      * destruct (IH None) as (Hf & Hl & _). by split_and!.
      * destruct Hscan as (Hf & Hl & _). by split_and!.
    + destruct (IH (Some k)) as (Hf & Hl & _). by split_and!.
    + destruct Hscan as (Hf & Hl & Hkeep). split_and!; [done|done|].
      intros _. exact Hkeep.
Qed.

Lemma hasFence_suffix u t : hasFence (u +:+ t) = false → hasFence t = false.
Proof.
  induction u as [|c u IH]; [done|].
  change (String c u +:+ t) with (String c (u +:+ t)). cbn [hasFence].
  intros Hs. apply orb_false_elim in Hs as [_ Hs]. by apply IH.
Qed.

Lemma hasFence_trimStart s : hasFence s = false → hasFence (trimStart s) = false.
Proof.
  induction s as [s Hs|s t Hs IH] using trimStart_ind;
    rewrite (trimStart_unfold s), Hs; [done|].
  intros Hfree. apply IH.
  destruct (afterWhiteSpace_Some s t Hs) as (u & -> & _).
  by apply (hasFence_suffix u).
Qed.

Lemma prefix_of_longer f t u :
  String.prefix f t = true → String.prefix f (t +:+ u) = true.
Proof.
  revert t. induction f as [|a f IH]; intros t; [by rewrite !prefix_empty|].
  destruct t as [|b t]; [done|].
  change (String b t +:+ u) with (String b (t +:+ u)).
  destruct (decide (a = b)) as [->|Hab].
  - rewrite !prefix_cons_same. apply IH.
  - by rewrite prefix_cons_other.
Qed.

Lemma trimEnd_is_prefix s : ∃ u, s = trimEnd s +:+ u.
Proof.
  induction s as [|c s [u Hu]]; [by exists ""|].
  cbn [trimEnd]. destruct (isBlank (String c s)).
  - by exists (String c s).
  - exists u. change (String c (trimEnd s) +:+ u)
      with (String c (trimEnd s +:+ u)). by rewrite <-Hu.
Qed.

Lemma hasFence_shorter t u : hasFence (t +:+ u) = false → hasFence t = false.
Proof.
  induction t as [|c t IH]; [done|].
  change (String c t +:+ u) with (String c (t +:+ u)). cbn [hasFence].
  intros Hs. apply orb_false_elim in Hs as [Hp Hs].
  rewrite (IH Hs), orb_false_r. apply not_true_is_false. intros Hp'.
  apply (prefix_of_longer _ _ u) in Hp'.
  change (String c t +:+ u) with (String c (t +:+ u)) in Hp'. congruence.
Qed.

Lemma hasFence_found a b : hasFence (a +:+ "```" +:+ b) = true.
Proof.
  induction a as [|c a IH].
  - change ("" +:+ "```" +:+ b) with ("```" +:+ b).
    destruct b; reflexivity.
  - change (String c a +:+ "```" +:+ b) with (String c (a +:+ "```" +:+ b)).
    cbn [hasFence]. by rewrite IH, orb_true_r.
Qed.
End TickFacts.

(** X18: what [cleanText] hands to the parser.  It never contains a code
    fence: three backticks in a row occur nowhere in it.  And a text
    without any backtick is only trimmed. *)
Theorem cleanText_result (text : string) :
  hasFence (Gemini.cleanText text) = false
  ∧ (∀ a b, Gemini.cleanText text ≠ a +:+ "```" +:+ b)
  ∧ (Forall (λ c, c ≠ "`"%char) (list_ascii_of_string text) →
     Gemini.cleanText text = Gemini.trim text).
Proof.
  assert (hasFence (Gemini.cleanText text) = false) as Hclean.
  { unfold Gemini.cleanText, Gemini.trim. apply hasFence_trimStart.
    destruct (trimEnd_is_prefix
                (Gemini.dropFence "```" None
                   (Gemini.dropFence "```json" None text))) as [u Hu].
    apply (hasFence_shorter _ u). rewrite <-Hu.
    apply dropFence_leaves_no_fence. }
  split_and!; [done| |].
  - intros a b Heq. rewrite Heq, hasFence_found in Hclean. done.
  - intros Hplain. unfold Gemini.cleanText.
    rewrite (dropFence_plain "```json") by done.
    by rewrite dropFence_plain.
Qed.

Lemma cleanText_result_witness :
  Gemini.cleanText "  plain text " = "plain text".
Proof.
  rewrite (proj2 (proj2 (cleanText_result "  plain text "))); [reflexivity|].
  repeat constructor; discriminate.
Defined.

Lemma getAllStudies_rows_witness :
  ∃ row, head (AdminService.getAllStudies true (Sample.env 300 "x1" 5)
                 Sample.twoUsers) = Some row
         ∧ userEmail row ≠ "" ∧ userName row ≠ "".
Proof.
  destruct (AdminService.getAllStudies true (Sample.env 300 "x1" 5)
              Sample.twoUsers) as [|row rows] eqn:Hscan; [discriminate Hscan|].
  exists row. split; [reflexivity|].
  destruct (proj1 (getAllStudies_rows true (Sample.env 300 "x1" 5)
                     Sample.twoUsers) row)
    as (u & d & _ & _ & _ & _ & _ & _ & Hemail & Hname).
  - rewrite Hscan. left.
  - by split.
Defined.

(** ** Saving notes on the detail page *)

(** X19: saving the notes typed on the detail page.  When the record is
    stored - in the browser, or as a document for which the update is
    accepted - [saveNotes] resolves and announces it, and a following
    [fetch] of the page shows the study with exactly these notes, and
    the notes in the editor.  In the browser it resolves and announces
    the saving also when no record has the id, and then stores nothing.
    A rejected update is thrown, and nothing is announced. *)
Theorem saveNotes_then_fetch (cfg : bool) (envSave envGet : Env)
    (i : string) (user : option string) (st st0 : DetailState) (w : World) :
  i ≠ "" →
  let who := orElse user "guest" in
  let r := StudyDetail.saveNotes cfg envSave (Some i) user st w in
  let page := StudyDetail.fetch cfg envGet (Some i) user st0 (snd r) in
  let announced :=
    fst (fst r) = Ok tt
    ∧ detail_alerts (snd (fst r))
      = detail_alerts st ++ ["Reflections saved to your library."] in
  (∀ k s,
     StudyService.routesRemote cfg who i = false →
     list_find (λ x, id x = Some i) (readStudies (localStorage w)) = Some (k, s) →
     announced
     ∧ detail_study page
       = Some (spread s (StudyDetail.notesOnly (detail_notes st)))
     ∧ userNotes <$> detail_study page = Some (detail_notes st)
     ∧ detail_notes page = detail_notes st)
  ∧ (StudyService.routesRemote cfg who i = false →
     Forall (λ x, id x ≠ Some i) (readStudies (localStorage w)) →
     announced ∧ snd r = w)
  ∧ (∀ k d,
       StudyService.routesRemote cfg who i = true →
       fails envSave (UpdateDoc who i) = false →
       fails envGet (GetDoc who i) = false →
       list_find (λ x, doc_id x = i) (collection (db w) who) = Some (k, d) →
       announced
       ∧ userNotes <$> detail_study page = Some (detail_notes st)
       ∧ reference <$> detail_study page = Some (reference (doc_fields d))
       ∧ detail_notes page = detail_notes st)
  ∧ (StudyService.routesRemote cfg who i = true →
     fails envSave (UpdateDoc who i) = true
     ∨ Forall (λ x, doc_id x ≠ i) (collection (db w) who) →
     (∃ e, fst (fst r) = Throw e)
     ∧ snd (fst r) = st
     ∧ db (snd r) = db w ∧ localStorage (snd r) = localStorage w).
Proof.
  intros Hi. cbv zeta.
  assert (∀ w' data,
            StudyService.getById cfg envGet (orElse user "guest") i w' = Some data →
            detail_study (StudyDetail.fetch cfg envGet (Some i) user st0 w')
            = Some data
            ∧ detail_notes (StudyDetail.fetch cfg envGet (Some i) user st0 w')
              = userNotes data) as Hshown.
  { intros w' data Hdata. unfold StudyDetail.fetch. rewrite Hdata.
    by destruct i. }
  assert (StudyDetail.saveNotes cfg envSave (Some i) user st w
          = match StudyService.update cfg envSave (orElse user "guest") i
                    (StudyDetail.notesOnly (detail_notes st)) w with
            | (Throw e, w') => (Throw e, st, w')
            | (Ok _, w') =>
                (Ok tt,
                 {| detail_study := detail_study st;
                    detail_notes := detail_notes st;
                    detail_loading := detail_loading st;
                    chatInput := chatInput st;
                    chatHistory := chatHistory st;
                    chatLoading := chatLoading st;
                    detail_navigatedTo := detail_navigatedTo st;
                    detail_alerts :=
                      detail_alerts st ++ ["Reflections saved to your library."] |},
                 w')
            end) as ->.
  { unfold StudyDetail.saveNotes. by destruct i. }
  unfold StudyService.update. split_and!.
  - intros k s Hroute Hfind. rewrite Hroute, Hfind. cbn [fst snd].
    destruct (Hshown
                (setLocal
                   (writeStudies
                      (<[k := spread s (StudyDetail.notesOnly (detail_notes st))]>
                         (readStudies (localStorage w)))
                      (localStorage w)) w)
                (spread s (StudyDetail.notesOnly (detail_notes st))))
      as [Hstudy Hnotes].
    { unfold StudyService.getById. rewrite Hroute. cbn [localStorage setLocal].
      rewrite readStudies_writeStudies.
      rewrite (find_replaced (λ x, id x = Some i) _ k s
                 (spread s (StudyDetail.notesOnly (detail_notes st))) Hfind);
        [done|].
      by apply list_find_Some in Hfind as (_ & Hs & _). }
    rewrite Hstudy, Hnotes. by split_and!.
  - intros Hroute Hmissing. rewrite Hroute.
    assert (list_find (λ x, id x = Some i) (readStudies (localStorage w)) = None)
      as -> by by apply list_find_None.
    by split_and!.
  - intros k d Hroute Hupdate Hget Hfind. rewrite Hroute.
    unfold updateDoc. rewrite Hupdate, Hfind. cbn [fst snd].
    destruct (Hshown
                (setDb
                   (setCollection (orElse user "guest")
                      (<[k := patchDoc d (StudyDetail.notesOnly (detail_notes st))]>
                         (collection (db w) (orElse user "guest")))
                      (db w)) w)
                (fromDoc (patchDoc d (StudyDetail.notesOnly (detail_notes st)))))
      as [Hstudy Hnotes].
    { unfold StudyService.getById, getDoc. rewrite Hroute, Hget.
      cbn [db setDb]. rewrite collection_setCollection.
      rewrite (find_replaced (λ x, doc_id x = i) _ k d
                 (patchDoc d (StudyDetail.notesOnly (detail_notes st))) Hfind);
        [done|].
      by apply list_find_Some in Hfind as (_ & Hd & _). }
    rewrite Hstudy, Hnotes. by split_and!.
  - intros Hroute Hwhy. rewrite Hroute. unfold updateDoc.
    destruct (fails envSave (UpdateDoc (orElse user "guest") i)) eqn:Hupdate.
    + cbn [fst snd]. split_and!; try done. by eexists.
    + destruct Hwhy as [?|Hmissing]; [done|].
      assert (list_find (λ x, doc_id x = i)
                (collection (db w) (orElse user "guest")) = None)
        as -> by by apply list_find_None.
      cbn [fst snd]. split_and!; try done. by eexists.
Qed.

Lemma saveNotes_then_fetch_witness :
  let st := {| detail_study := Some (Sample.stored "local-200" "Psalm 23" 200);
               detail_notes := "Selah";
               detail_loading := false;
               chatInput := "";
               chatHistory := [];
               chatLoading := false;
               detail_navigatedTo := None;
               detail_alerts := [] |} in
  detail_notes
    (StudyDetail.fetch false (Sample.env 301 "x1" 5) (Some "local-200") None
       Scenario.detailIdle
       (snd (StudyDetail.saveNotes false (Sample.env 300 "x1" 5)
               (Some "local-200") None st Sample.twoLocal)))
  = "Selah"
  ∧ snd (StudyDetail.saveNotes false (Sample.env 300 "x1" 5)
           (Some "local-999") None st Sample.twoLocal) = Sample.twoLocal.
Proof.
  intros st. split.
  - destruct (proj1 (saveNotes_then_fetch false (Sample.env 300 "x1" 5)
                       (Sample.env 301 "x1" 5) "local-200" None st
                       Scenario.detailIdle Sample.twoLocal ltac:(discriminate))
                1 (Sample.stored "local-200" "Psalm 23" 200)
                eq_refl eq_refl) as (_ & _ & _ & Hnotes).
    exact Hnotes.
  - apply (proj1 (proj2 (saveNotes_then_fetch false (Sample.env 300 "x1" 5)
                           (Sample.env 301 "x1" 5) "local-999" None st
                           Scenario.detailIdle Sample.twoLocal
                           ltac:(discriminate))));
      [reflexivity|repeat constructor; discriminate].
Defined.

(** ** Clearing the history page *)

(** X20: clearing from the History page.  When [clearAll] resolves, the
    page shows no study and nothing is left for the identity: a
    following [fetch] whose query is accepted shows no study either.
    When it rejects - remotely only: the enumeration or some delete is
    rejected - the page keeps the list it showed and raises one alert,
    the browser's storage and the other users' histories are untouched,
    and only documents of the shown user may be gone.  Either way the
    page stops clearing. *)
Theorem handleClearAll_page (cfg : bool) (env envGet : Env)
    (user : option string) (st : HistoryState) (w : World) :
  let who := orElse user "guest" in
  let r := History.handleClearAll cfg env user st w in
  history_clearing (fst r) = false
  ∧ (fst (clearAll cfg env who w) = Ok tt →
     history_studies (fst r) = []
     ∧ history_alerts (fst r) = history_alerts st
     ∧ storedCount cfg who (snd r) = 0
     ∧ ((StudyService.remoteUsable cfg who = true →
         fails envGet (GetHistory who) = false) →
        history_studies (History.fetch cfg envGet user (fst r) (snd r)) = []))
  ∧ (fst (clearAll cfg env who w) ≠ Ok tt →
     StudyService.remoteUsable cfg who = true
     ∧ history_studies (fst r) = history_studies st
     ∧ history_alerts (fst r)
       = history_alerts st ++ ["Failed to clear history. Please try again."]
     ∧ localStorage (snd r) = localStorage w
     ∧ collection (db (snd r)) who ⊆ collection (db w) who
     ∧ (∀ other, other ≠ who →
          collection (db (snd r)) other = collection (db w) other)).
Proof.
  cbv zeta. unfold History.handleClearAll, History.fetch.
  pose proof (deleteEach_outcome env (orElse user "guest")
                (collection (db w) (orElse user "guest")) (db w))
    as (Hleft & Hother & _).
  pose proof (deleteEach_resolved env (orElse user "guest")
                (collection (db w) (orElse user "guest")) (db w)) as Hresolved.
  pose proof (deleteEach_accepted env (orElse user "guest")
                (collection (db w) (orElse user "guest")) (db w)) as Haccepted.
  unfold clearAll, storedCount, StudyService.getAll, getHistoryUnordered,
    getHistory in *.
  destruct (StudyService.remoteUsable cfg (orElse user "guest")) eqn:Hroute.
  - destruct (fails env (GetHistory (orElse user "guest"))) eqn:Hread.
    + cbn [fst snd]. split_and!; [done|done|].
      intros _. split_and!; try done.
    + destruct (deleteEach env (orElse user "guest")
                  (collection (db w) (orElse user "guest")) (db w))
        as [[[]|e] fs] eqn:Hrun; cbn [fst snd] in *.
      * split_and!; [done| |done].
        intros _. destruct (Haccepted (Hresolved eq_refl)) as [_ Hempty].
        rewrite filter_drops_all in Hempty
          by (apply Forall_forall; intros d Hd Hnot; apply Hnot;
              by apply list_elem_of_fmap_2).
        cbn [db setDb localStorage]. rewrite Hempty.
        split_and!; [done|done|done|].
        intros Hget. by rewrite (Hget eq_refl).
      * split_and!; [done|done|].
        intros _. cbn [db setDb localStorage]. split_and!; try done.
        rewrite Hleft. intros d Hd. by apply list_elem_of_filter in Hd as [_ Hd].
  - cbn [fst snd]. split_and!; [done| |done].
    intros _. cbn [localStorage setLocal].
    rewrite readStudies_writeStudies. by split_and!.
Qed.

Lemma handleClearAll_page_witness :
  let st := {| history_studies :=
                 StudyService.getAll true (Sample.env 300 "x1" 5) "alice"
                   Sample.remoteWorld;
               history_loading := false;
               history_clearing := true;
               history_alerts := [] |} in
  history_studies
    (fst (History.handleClearAll true (Sample.env 301 "x1" 5) (Some "alice")
            st Sample.remoteWorld)) = []
  ∧ length (history_studies
              (fst (History.handleClearAll true Scenario.a1Stuck (Some "alice")
                      st Sample.remoteWorld))) = 2
  ∧ history_alerts
      (fst (History.handleClearAll true Scenario.a1Stuck (Some "alice")
              st Sample.remoteWorld))
    = ["Failed to clear history. Please try again."].
Proof.
  intros st.
  destruct (handleClearAll_page true (Sample.env 301 "x1" 5)
              (Sample.env 302 "x1" 5) (Some "alice") st Sample.remoteWorld)
    as (_ & Hok & _).
  destruct (handleClearAll_page true Scenario.a1Stuck
              (Sample.env 302 "x1" 5) (Some "alice") st Sample.remoteWorld)
    as (_ & _ & Hfailed).
  destruct (Hok eq_refl) as (Hshown & _).
  destruct (Hfailed ltac:(discriminate)) as (_ & Hkept & Halert & _).
  split_and!.
  - exact Hshown.
  - rewrite Hkept. reflexivity.
  - rewrite Halert. reflexivity.
Defined.

(** ** The tracker and the library do not meet *)

Lemma trackerRun_keeps_studies calls ls :
  ss_studies (trackerRun calls ls) = ss_studies ls.
Proof.
  unfold trackerRun. revert ls.
  induction calls as [|c calls IH]; intros ls; [done|].
  simpl. rewrite IH. by destruct c.
Qed.

(** X21: the guest-trial keys and the study list are independent.  No run
    of tracker calls changes what [getAll] and [getById] return or how
    many studies are stored, whichever backend serves the identity; the
    study id set last is the one [getTrialStudyId] returns; and
    [clearAll], like the other calls of the library, leaves both trial
    keys as they were: clearing the history does not give the trial
    back. *)
Theorem tracker_independent_of_library (cfg : bool) (env : Env)
    (uid i : string) (calls : list TrackerCall) (w : World) :
  let w' := setLocal (trackerRun calls (localStorage w)) w in
  StudyService.getAll cfg env uid w' = StudyService.getAll cfg env uid w
  ∧ StudyService.getById cfg env uid i w' = StudyService.getById cfg env uid i w
  ∧ storedCount cfg uid w' = storedCount cfg uid w
  ∧ GuestTrialService.getTrialStudyId
      (trackerRun (calls ++ [SetTrialStudyId i]) (localStorage w)) = Some i
  ∧ GuestTrialService.hasUsedTrial (localStorage (snd (clearAll cfg env uid w')))
    = GuestTrialService.hasUsedTrial (trackerRun calls (localStorage w))
  ∧ GuestTrialService.getTrialStudyId
      (localStorage (snd (clearAll cfg env uid w')))
    = GuestTrialService.getTrialStudyId (trackerRun calls (localStorage w)).
Proof.
  cbv zeta.
  assert (readStudies (trackerRun calls (localStorage w))
          = readStudies (localStorage w)) as Hsame
    by (unfold readStudies; by rewrite trackerRun_keeps_studies).
  split_and!.
  - unfold StudyService.getAll. cbn [localStorage db setLocal]. by rewrite Hsame.
  - unfold StudyService.getById. cbn [localStorage db setLocal]. by rewrite Hsame.
  - unfold storedCount. cbn [localStorage db setLocal]. by rewrite Hsame.
  - unfold trackerRun. by rewrite foldl_app.
  - unfold clearAll, getHistoryUnordered.
    destruct (StudyService.remoteUsable cfg uid); [|done].
    destruct (fails env (GetHistory uid)); [done|].
    cbn [db setLocal]. by destruct (deleteEach env uid _ (db w)).
  - unfold clearAll, getHistoryUnordered.
    destruct (StudyService.remoteUsable cfg uid); [|done].
    destruct (fails env (GetHistory uid)); [done|].
    cbn [db setLocal]. by destruct (deleteEach env uid _ (db w)).
Qed.
